(** * DataSync: the PostgreSQL <-> MongoDB synchronisation engines

    A shallow embedding of the synchronisation code of the repository
    (the four near-duplicate engines under [datasync/]) together with the
    properties the specification states about them.

    - [Py]               Python values, dictionaries, exceptions
    - [Eff]              the state-and-exception monad the engines run in
    - [Client]           the calls into psycopg2 and pymongo, as an interface
    - [db]               sequential-.../datasync/db.py
    - [sync]             datasync/sync.py        (ConflictResolver, DataSync)
    - [sync_engine]      datasync/sync_engine.py (SyncEngine, baseline)
    - [datasync_sync]    datasync/datasync/sync.py (DataSync, [_pg_id] variant)
    - [seq_sync_engine]  sequential-.../datasync/datasync/sync_engine.py
    - [memdb]            an in-memory PostgreSQL and MongoDB behind [Client]
    - [examples]         the stores and records the examples run on *)

From Stdlib Require Import ZArith List String Ascii Bool Lia Arith Permutation
  DecimalString.
Import ListNotations.

Local Open Scope string_scope.
Local Open Scope Z_scope.

(* ===================================================================== *)
(** ** Python values *)
(* ===================================================================== *)

Module Py.

(** [datetime]: a naive value carries its wall-clock microseconds, an aware
    one its UTC instant.  Python orders two naive or two aware values and
    raises [TypeError] when the two kinds are mixed. *)
Inductive datetime : Type :=
| Naive (wall : Z)
| Aware (utc : Z).

(** The closed set of values a row or a document holds. *)
Inductive value : Type :=
| VNone
| VBool (b : bool)
| VInt (n : Z)
| VFloat (bits : Z)
| VStr (s : string)
| VBytes (b : string)
| VMemoryview (b : string)
| VDecimal (mantissa exponent : Z)
| VDatetime (d : datetime)
| VObjectId (hex : string).

(** An insertion-ordered dictionary with string keys. *)
Definition dict : Type := list (string * value).

Inductive exn : Type :=
| KeyError (key : string)
| ValueError (msg : string)
| TypeError (msg : string)
| RuntimeError (msg : string)
| IndexError (msg : string)
| AttributeError (msg : string)
| ZeroDivisionError
| DatabaseError (msg : string).

Inductive result (A : Type) : Type :=
| Ok (a : A)
| Raise (e : exn)
| Diverge.
Arguments Ok {A} a.
Arguments Raise {A} e.
Arguments Diverge {A}.

Definition datetime_eq_dec : forall a b : datetime, {a = b} + {a <> b}.
Proof. decide equality; apply Z.eq_dec. Defined.

Definition value_eq_dec : forall a b : value, {a = b} + {a <> b}.
Proof.
  decide equality;
    try apply Z.eq_dec; try apply string_dec; try apply Bool.bool_dec;
    apply datetime_eq_dec.
Defined.

Definition dict_eq_dec : forall a b : list (string * value), {a = b} + {a <> b}.
Proof.
  apply list_eq_dec. decide equality; [apply value_eq_dec | apply string_dec].
Defined.

(** [bool(v)]: Python truthiness. *)
Definition truthy (v : value) : bool :=
  match v with
  | VNone => false
  | VBool b => b
  | VInt n => negb (n =? 0)
  | VFloat bits => negb (bits =? 0) && negb (bits =? 2 ^ 63)
  | VStr s => negb (s =? "")%string
  | VBytes b => negb (b =? "")%string
  | VMemoryview b => negb (b =? "")%string
  | VDecimal m _ => negb (m =? 0)
  | VDatetime _ => true
  | VObjectId _ => true
  end.

(** [a or b] *)
Definition py_or (a b : value) : value := if truthy a then a else b.

(** *** Dictionaries *)

(** [k in d] and [d[k]] *)
Fixpoint dict_lookup (d : dict) (k : string) : option value :=
  match d with
  | [] => None
  | (k', v) :: d' => if (k' =? k)%string then Some v else dict_lookup d' k
  end.

Definition dict_mem (d : dict) (k : string) : bool :=
  match dict_lookup d k with Some _ => true | None => false end.

(** [d.get(k)] *)
Definition dict_get (d : dict) (k : string) : value :=
  match dict_lookup d k with Some v => v | None => VNone end.

(** [d[k]] as an expression: [KeyError] when absent. *)
Definition dict_item (d : dict) (k : string) : result value :=
  match dict_lookup d k with Some v => Ok v | None => Raise (KeyError k) end.

(** [d[k] = v]: an existing key keeps its position, a new one goes last. *)
Fixpoint dict_set (d : dict) (k : string) (v : value) : dict :=
  match d with
  | [] => [(k, v)]
  | (k', v') :: d' =>
      if (k' =? k)%string then (k', v) :: d' else (k', v') :: dict_set d' k v
  end.

(** [d.pop(k, None)], the dictionary that is left. *)
Fixpoint dict_remove (d : dict) (k : string) : dict :=
  match d with
  | [] => []
  | (k', v') :: d' =>
      if (k' =? k)%string then dict_remove d' k else (k', v') :: dict_remove d' k
  end.

Definition dict_keys (d : dict) : list string := map fst d.

(** [bool(d)]: a dictionary is true when it is not empty. *)
Definition dict_truthy (d : dict) : bool :=
  match d with [] => false | _ => true end.

(** [key.startswith('_')] *)
Definition startswith_underscore (k : string) : bool :=
  match k with
  | String c _ => (c =? "_")%char
  | EmptyString => false
  end.

(** [s.replace('Z', '+00:00')] *)
Fixpoint replace_Z (s : string) : string :=
  match s with
  | EmptyString => EmptyString
  | String c s' =>
      if (c =? "Z")%char then "+00:00" ++ replace_Z s'
      else String c (replace_Z s')
  end.

(** *** Comparison of datetimes *)

(** [a >= b] *)
Definition datetime_ge (a b : datetime) : result bool :=
  match a, b with
  | Naive x, Naive y => Ok (y <=? x)
  | Aware x, Aware y => Ok (y <=? x)
  | _, _ => Raise (TypeError "can't compare offset-naive and offset-aware datetimes")
  end.

(** [a > b] *)
Definition datetime_gt (a b : datetime) : result bool :=
  match a, b with
  | Naive x, Naive y => Ok (y <? x)
  | Aware x, Aware y => Ok (y <? x)
  | _, _ => Raise (TypeError "can't compare offset-naive and offset-aware datetimes")
  end.

(** The instant a datetime carries, and whether two datetimes can be
    ordered. *)
Definition instant (d : datetime) : Z :=
  match d with Naive z => z | Aware z => z end.

Definition same_kind (a b : datetime) : bool :=
  match a, b with
  | Naive _, Naive _ => true
  | Aware _, Aware _ => true
  | _, _ => false
  end.

(** The builtins the engines call and that are taken as given: the ISO-8601
    printer and parser of [datetime], [str()], [float()] of a [Decimal] and
    the [==] of two values. *)
Class Runtime : Type := {
  isoformat : datetime -> string;
  fromisoformat : string -> option datetime;   (* [None]: ValueError *)
  py_str : value -> string;
  float_of_decimal : Z -> Z -> Z;
  py_eq : value -> value -> bool;
  set_iter : list value -> list value          (* the order a [set] iterates in *)
}.

End Py.
Export Py.

(* ===================================================================== *)
(** ** The effects of the engines *)
(* ===================================================================== *)

Module Eff.

Inductive level : Type := DEBUG | INFO | WARNING | ERROR.

(** What an f-string interpolates. *)
Inductive farg : Type :=
| FVal (v : value)
| FStr (s : string)
| FInt (n : Z)
| FExn (e : exn).

(** An f-string: its text with the holes left in, and what fills them. *)
Definition fstring : Type := (string * list farg)%type.

(** One call of [logger.<level>(msg)]. *)
Record log_entry : Type := mk_log {
  log_level : level;
  log_msg : string;
  log_args : list farg
}.

(** What a run can touch: the mutable objects of the call ([heap], e.g. the
    [SyncStats] being filled), the two databases ([store]), the wall clock
    and the log. *)
Record state (H W : Type) : Type := mk_state {
  heap : H;
  store : W;
  clock : Z;
  logs : list log_entry
}.
Arguments mk_state {H W} _ _ _ _.
Arguments heap {H W} _.
Arguments store {H W} _.
Arguments clock {H W} _.
Arguments logs {H W} _.

(** A computation returns, raises or runs forever; what it did to the state
    before raising stays done. *)
Definition M (H W A : Type) : Type := state H W -> result A * state H W.

Section Operations.
Context {H W : Type}.

Definition ret {A} (a : A) : M H W A := fun s => (Ok a, s).

Definition bind {A B} (m : M H W A) (k : A -> M H W B) : M H W B :=
  fun s =>
    match m s with
    | (Ok a, s') => k a s'
    | (Raise e, s') => (Raise e, s')
    | (Diverge, s') => (Diverge, s')
    end.

Definition raise {A} (e : exn) : M H W A := fun s => (Raise e, s).

Definition diverge {A} : M H W A := fun s => (Diverge, s).

(** [try: body  except Exception as e: handler(e)] *)
Definition try_except {A} (body : M H W A) (handler : exn -> M H W A) : M H W A :=
  fun s =>
    match body s with
    | (Raise e, s') => handler e s'
    | r => r
    end.

(** [try: body  finally: final] *)
Definition try_finally {A} (body : M H W A) (final : M H W unit) : M H W A :=
  fun s =>
    match body s with
    | (Ok a, s') =>
        match final s' with
        | (Ok _, s'') => (Ok a, s'')
        | (Raise e, s'') => (Raise e, s'')
        | (Diverge, s'') => (Diverge, s'')
        end
    | (Raise e, s') =>
        match final s' with
        | (Ok _, s'') => (Raise e, s'')
        | (Raise e', s'') => (Raise e', s'')
        | (Diverge, s'') => (Diverge, s'')
        end
    | (Diverge, s') => (Diverge, s')
    end.

Definition lift {A} (r : result A) : M H W A := fun s => (r, s).

Definition get_heap : M H W H := fun s => (Ok (heap s), s).

Definition modify_heap (f : H -> H) : M H W unit :=
  fun s => (Ok tt, mk_state (f (heap s)) (store s) (clock s) (logs s)).

(** A call into one of the database clients. *)
Definition call {A} (op : W -> result A * W) : M H W A :=
  fun s =>
    let (r, w) := op (store s) in
    (r, mk_state (heap s) w (clock s) (logs s)).

Definition logger (l : level) (msg : string) (args : list farg) : M H W unit :=
  fun s => (Ok tt, mk_state (heap s) (store s) (clock s) (logs s ++ [mk_log l msg args])).

(** [datetime.now(timezone.utc)]: the clock is read and moves on. *)
Definition now_utc : M H W datetime :=
  fun s => (Ok (Aware (clock s)), mk_state (heap s) (store s) (clock s + 1) (logs s)).

(** [datetime.utcnow()] *)
Definition utcnow : M H W datetime :=
  fun s => (Ok (Naive (clock s)), mk_state (heap s) (store s) (clock s + 1) (logs s)).

End Operations.

Declare Scope eff_scope.
Delimit Scope eff_scope with eff.
Notation "x <- m ;; k" := (bind m (fun x => k))
  (at level 61, m at next level, right associativity) : eff_scope.
Notation "m ;;; k" := (bind m (fun _ => k))
  (at level 61, right associativity) : eff_scope.

(** The outcome and the final state of [m] run from [s] satisfy [Q]. *)
Definition wp {H W A} (m : M H W A) (Q : result A -> state H W -> Prop)
           (s : state H W) : Prop :=
  Q (fst (m s)) (snd (m s)).

(** [m] leaves the objects of the call as they are. *)
Definition keeps_heap {H W A} (m : M H W A) : Prop :=
  forall s, heap (snd (m s)) = heap s.

Section Loops.
Context {H W : Type}.
Local Open Scope eff_scope.

(** [for x in xs: body(x)] *)
Fixpoint for_each {A} (xs : list A) (body : A -> M H W unit) : M H W unit :=
  match xs with
  | [] => ret tt
  | x :: xs' => body x ;;; for_each xs' body
  end.

End Loops.

End Eff.
Export Eff.

(* ===================================================================== *)
(** ** The database clients (psycopg2, pymongo) *)
(* ===================================================================== *)

Module Client.

(** The statements the engines send to PostgreSQL, by shape. *)
Inductive sql : Type :=
| SelectTables
    (* SELECT table_name FROM information_schema.tables
       WHERE table_schema = 'public' AND table_type = 'BASE TABLE' *)
| SelectCount (table : string)
    (* SELECT COUNT( * ) as count FROM "table" *)
| SelectAll (table : string)
    (* SELECT * FROM "table" *)
| SelectPage (table order_by : string) (limit offset : Z)
    (* SELECT * FROM "table" ORDER BY "order_by" LIMIT %s OFFSET %s *)
| SelectColumns (table : string)
    (* SELECT column_name FROM information_schema.columns WHERE table_name = %s *)
| SelectPrimaryKey (table : string)
    (* SELECT a.attname FROM pg_index i JOIN pg_attribute a ... AND i.indisprimary *)
| InsertOnConflictUpdate (table conflict_col : string) (row : dict).
    (* INSERT INTO "table" (cols) VALUES (...) ON CONFLICT ("conflict_col")
       DO UPDATE SET col = EXCLUDED.col, ... *)

(** What a cursor holds after [execute]: the rows [fetchall] gives and
    [rowcount]. *)
Record reply : Type := mk_reply {
  fetchall : list dict;
  rowcount : Z
}.

(** [BulkWriteResult] *)
Record bulk_result : Type := mk_bulk {
  matched_count : Z;
  modified_count : Z;
  upserted_count : Z
}.

(** One [UpdateOne({field: key}, {'$set': doc}, upsert=True)]. *)
Record update_one : Type := mk_update_one {
  filter_field : string;
  filter_value : value;
  set_doc : dict
}.

(** The two client libraries over a world [W] that holds both databases.
    Every call may raise; nothing is assumed of what they return. *)
Class Store (W : Type) : Type := {
  (* psycopg2 *)
  pool_open : W -> bool;
  getconn : W -> result unit * W;
  putconn : W -> result unit * W;
  execute : sql -> W -> result reply * W;
  commit : W -> result unit * W;
  rollback : W -> result unit * W;
  (* pymongo *)
  mongo_open : W -> bool;
  list_collection_names : W -> result (list string) * W;
  find : string -> Z -> option Z -> W -> result (list dict) * W;
  find_one : string -> string -> value -> W -> result (option dict) * W;
  count_documents : string -> W -> result Z * W;
  bulk_write : string -> list update_one -> W -> result bulk_result * W;
  replace_one : string -> string -> value -> dict -> W -> result unit * W;
  insert_one : string -> dict -> W -> result unit * W
}.

End Client.
Export Client.

(* ===================================================================== *)
(** ** db.py: the connection handlers *)
(* ===================================================================== *)

Module db.

Section Db.
Context {H W : Type} `{Store W}.
Local Open Scope eff_scope.

(** [PostgresConnection.cursor]: a context manager around one pooled
    connection; commit when the block ends, rollback and re-raise when it
    raises, and the connection goes back to the pool either way. *)
Definition cursor {A} (block : M H W A) : M H W A :=
  fun s =>
    if negb (pool_open (store s))
    then (Raise (RuntimeError "PostgreSQL not connected"), s)
    else
      (call getconn ;;;
       try_finally
         (try_except
            (a <- block ;; call commit ;;; ret a)
            (fun e => call rollback ;;; raise e))
         (call putconn)) s.

(** [PostgresConnection.fetch_batch] *)
Definition fetch_batch (table primary_key : string) (batch_size offset : Z)
  : M H W (list dict) :=
  cursor (r <- call (execute (SelectPage table primary_key batch_size offset)) ;;
          ret (fetchall r)).

(** [PostgresConnection.get_row_count]: [cur.fetchone()['count']] *)
Definition get_row_count (table : string) : M H W value :=
  cursor (r <- call (execute (SelectCount table)) ;;
          match fetchall r with
          | row :: _ => lift (dict_item row "count")
          | [] => raise (TypeError "'NoneType' object is not subscriptable")
          end).

(** [MongoConnection.db] *)
Definition mongo_db : M H W unit :=
  fun s =>
    if negb (mongo_open (store s))
    then (Raise (RuntimeError "MongoDB not connected"), s)
    else (Ok tt, s).

(** The list comprehension of [upsert_batch]: [doc[primary_key]] for each
    document, [KeyError] at the first that lacks it. *)
Fixpoint operations (documents : list dict) (primary_key : string)
  : result (list update_one) :=
  match documents with
  | [] => Ok []
  | doc :: rest =>
      match dict_item doc primary_key with
      | Ok k =>
          match operations rest primary_key with
          | Ok ops => Ok (mk_update_one primary_key k doc :: ops)
          | Raise e => Raise e
          | Diverge => Diverge
          end
      | Raise e => Raise e
      | Diverge => Diverge
      end
  end.

(** [MongoConnection.upsert_batch] *)
Definition upsert_batch (collection : string) (documents : list dict)
           (primary_key : string) : M H W bulk_result :=
  match documents with
  | [] => ret (mk_bulk 0 0 0)
  | _ =>
      ops <- lift (operations documents primary_key) ;;
      mongo_db ;;;
      call (bulk_write collection ops)
  end.

(** [MongoConnection.get_document] *)
Definition get_document (collection primary_key : string) (key_value : value)
  : M H W (option dict) :=
  mongo_db ;;;
  call (find_one collection primary_key key_value).

End Db.

End db.

(* ===================================================================== *)
(** ** datasync/sync.py *)
(* ===================================================================== *)

Module sync.

(** [SyncStats] *)
Record SyncStats : Type := mk_SyncStats {
  table : string;
  direction : string;
  started_at : datetime;
  completed_at : option datetime;
  rows_processed : Z;
  rows_inserted : Z;
  rows_updated : Z;
  rows_skipped : Z;
  errors : list fstring
}.

Definition add_processed (n : Z) (st : SyncStats) : SyncStats :=
  mk_SyncStats (table st) (direction st) (started_at st) (completed_at st)
    (rows_processed st + n) (rows_inserted st) (rows_updated st)
    (rows_skipped st) (errors st).

Definition add_inserted (st : SyncStats) : SyncStats :=
  mk_SyncStats (table st) (direction st) (started_at st) (completed_at st)
    (rows_processed st) (rows_inserted st + 1) (rows_updated st)
    (rows_skipped st) (errors st).

Definition add_updated (st : SyncStats) : SyncStats :=
  mk_SyncStats (table st) (direction st) (started_at st) (completed_at st)
    (rows_processed st) (rows_inserted st) (rows_updated st + 1)
    (rows_skipped st) (errors st).

Definition add_skipped (st : SyncStats) : SyncStats :=
  mk_SyncStats (table st) (direction st) (started_at st) (completed_at st)
    (rows_processed st) (rows_inserted st) (rows_updated st)
    (rows_skipped st + 1) (errors st).

Definition append_error (m : fstring) (st : SyncStats) : SyncStats :=
  mk_SyncStats (table st) (direction st) (started_at st) (completed_at st)
    (rows_processed st) (rows_inserted st) (rows_updated st)
    (rows_skipped st) (errors st ++ [m]).

Definition set_completed_at (d : datetime) (st : SyncStats) : SyncStats :=
  mk_SyncStats (table st) (direction st) (started_at st) (Some d)
    (rows_processed st) (rows_inserted st) (rows_updated st)
    (rows_skipped st) (errors st).

(** *** ConflictResolver *)

Record ConflictResolver : Type := mk_ConflictResolver {
  strategy : string
}.

Definition STRATEGIES : list string :=
  ["latest_wins"; "postgres_priority"; "mongo_priority"; "source_wins"].

Definition in_STRATEGIES (s : string) : bool :=
  existsb (String.eqb s) STRATEGIES.

Section Resolver.
Context {RT : Runtime}.

(** [ConflictResolver.__init__] *)
Definition ConflictResolver_init {H W} (strategy : string) : M H W ConflictResolver :=
  (if negb (in_STRATEGIES strategy)
   then logger WARNING "Unknown strategy '{strategy}', using 'latest_wins'" [FStr strategy] ;;;
        ret (mk_ConflictResolver "latest_wins")
   else ret (mk_ConflictResolver strategy))%eff.

Definition timestamp_fields : list string :=
  ["updated_at"; "updatedAt"; "modified_at"; "modifiedAt"; "_updated"].

(** The loop of [_get_timestamp] over the field names that are left. *)
Fixpoint get_timestamp_from (fields : list string) (doc : dict) : option datetime :=
  match fields with
  | [] => None
  | field :: rest =>
      match dict_lookup doc field with
      | Some (VDatetime d) => Some d
      | Some (VStr s) =>
          match fromisoformat (replace_Z s) with
          | Some d => Some d
          | None => get_timestamp_from rest doc
          end
      | _ => get_timestamp_from rest doc
      end
  end.

(** [ConflictResolver._get_timestamp] *)
Definition _get_timestamp (doc : dict) : option datetime :=
  get_timestamp_from timestamp_fields doc.

(** [ConflictResolver.resolve]: the document to write, or [None] to skip. *)
Definition resolve (self : ConflictResolver) (source_doc : dict)
           (target_doc : option dict) (source_type : string)
  : result (option dict) :=
  match target_doc with
  | None => Ok (Some source_doc)
  | Some target_doc =>
      if (strategy self =? "source_wins")%string then Ok (Some source_doc)
      else if (strategy self =? "postgres_priority")%string then
        Ok (if (source_type =? "postgres")%string then Some source_doc else None)
      else if (strategy self =? "mongo_priority")%string then
        Ok (if (source_type =? "mongo")%string then Some source_doc else None)
      else if (strategy self =? "latest_wins")%string then
        match _get_timestamp source_doc, _get_timestamp target_doc with
        | None, None => Ok (Some source_doc)
        | None, Some _ => Ok None
        | Some _, None => Ok (Some source_doc)
        | Some source_time, Some target_time =>
            match datetime_ge source_time target_time with
            | Ok b => Ok (if b then Some source_doc else None)
            | Raise e => Raise e
            | Diverge => Diverge
            end
        end
      else Ok (Some source_doc)
  end.

End Resolver.

(** *** DataSync *)

Record DataSync : Type := mk_DataSync {
  resolver : ConflictResolver;
  batch_size : Z;
  ds_direction : string
}.

(** One entry of the list [_get_tables_to_sync] returns. *)
Record table_config : Type := mk_table_config {
  name : string;
  collection : string;
  primary_key : string
}.

Section Engine.
Context {RT : Runtime} {W : Type} `{Store W}.
Local Open Scope eff_scope.

Local Notation "'Eng'" := (M SyncStats W).

(** The body of the loop of [_convert_pg_to_mongo] for one value. *)
Definition convert_value (v : value) : value :=
  match v with
  | VDecimal m e => VFloat (float_of_decimal m e)
  | VBytes b => VBytes b
  | VMemoryview b => VBytes b
  | VNone => VNone
  | _ => v
  end.

(** [DataSync._convert_pg_to_mongo] *)
Definition _convert_pg_to_mongo (row : dict) : dict :=
  fold_left (fun converted kv => dict_set converted (fst kv) (convert_value (snd kv)))
            row [].

(** [offset < total_rows], the count being what the driver returned for
    [COUNT]: an integer (a [bool] is one in Python); a value of another
    type is taken to raise. *)
Definition offset_lt (offset : Z) (total_rows : value) : result bool :=
  match total_rows with
  | VInt n => Ok (offset <? n)
  | VBool b => Ok (offset <? (if b then 1 else 0))
  | _ => Raise (TypeError "'<' not supported between instances")
  end.

(** [pct = 100 * stats.rows_processed / total_rows]: only whether the
    division raises is kept. *)
Definition percent (processed : Z) (total_rows : value) : result unit :=
  match total_rows with
  | VInt 0 | VBool false => Raise ZeroDivisionError
  | VInt _ | VBool true => Ok tt
  | _ => Raise (TypeError "unsupported operand type(s) for /")
  end.

(** The [for row in batch] loop of [sync_postgres_to_mongo]; it returns
    [documents_to_write]. *)
Fixpoint process_batch (self : DataSync) (tc : table_config) (batch : list dict)
         (documents_to_write : list dict) : Eng (list dict) :=
  match batch with
  | [] => ret documents_to_write
  | row :: rest =>
      let doc := _convert_pg_to_mongo row in
      key <- lift (dict_item doc (primary_key tc)) ;;
      existing <- db.get_document (collection tc) (primary_key tc) key ;;
      resolved <- lift (resolve (resolver self) doc existing "postgres") ;;
      match resolved with
      | Some resolved =>
          match existing with
          | None => modify_heap add_inserted
          | Some _ => modify_heap add_updated
          end ;;;
          process_batch self tc rest (documents_to_write ++ [resolved])
      | None =>
          modify_heap add_skipped ;;;
          process_batch self tc rest documents_to_write
      end
  end.

(** The [while offset < total_rows] loop of [sync_postgres_to_mongo]. *)
Fixpoint while_offset (fuel : nat) (self : DataSync) (tc : table_config)
         (total_rows : value) (offset : Z) : Eng unit :=
  match fuel with
  | O => diverge
  | S fuel' =>
      go <- lift (offset_lt offset total_rows) ;;
      if go then
        batch <- db.fetch_batch (name tc) (primary_key tc) (batch_size self) offset ;;
        match batch with
        | [] => ret tt
        | _ =>
            documents_to_write <- process_batch self tc batch [] ;;
            match documents_to_write with
            | [] => ret tt
            | _ => db.upsert_batch (collection tc) documents_to_write (primary_key tc) ;;;
                   ret tt
            end ;;;
            modify_heap (add_processed (Z.of_nat (List.length batch))) ;;;
            st <- get_heap ;;
            lift (percent (rows_processed st) total_rows) ;;;
            logger DEBUG "Progress: {stats.rows_processed}/{total_rows} ({pct:.1f}%)"
                   [FInt (rows_processed st); FVal total_rows] ;;;
            while_offset fuel' self tc total_rows (offset + batch_size self)
        end
      else ret tt
  end.

(** [DataSync.sync_postgres_to_mongo] *)
Definition sync_postgres_to_mongo (fuel : nat) (self : DataSync) (tc : table_config)
  : Eng SyncStats :=
  t0 <- now_utc ;;
  modify_heap (fun _ => mk_SyncStats (name tc) "postgres_to_mongo" t0 None 0 0 0 0 []) ;;;
  logger INFO "Syncing PostgreSQL:{table_name} -> MongoDB:{collection_name}"
         [FStr (name tc); FStr (collection tc)] ;;;
  try_except
    (total_rows <- db.get_row_count (name tc) ;;
     logger INFO "Total rows to process: {total_rows}" [FVal total_rows] ;;;
     while_offset fuel self tc total_rows 0)
    (fun e =>
       logger ERROR "Error syncing {table_name}: {e}" [FStr (name tc); FExn e] ;;;
       modify_heap (append_error ("Error syncing {table_name}: {e}",
                                  [FStr (name tc); FExn e]))) ;;;
  t1 <- now_utc ;;
  modify_heap (set_completed_at t1) ;;;
  st <- get_heap ;;
  logger INFO "Completed {table_name}: {stats.rows_inserted} inserted, {stats.rows_updated} updated, {stats.rows_skipped} skipped"
         [FStr (name tc); FInt (rows_inserted st); FInt (rows_updated st);
          FInt (rows_skipped st)] ;;;
  ret st.

End Engine.

End sync.

(* ===================================================================== *)
(** ** datasync/sync_engine.py *)
(* ===================================================================== *)

Module sync_engine.

(** [SyncStats] *)
Record SyncStats : Type := mk_SyncStats {
  started_at : datetime;
  pg_to_mongo : Z;
  mongo_to_pg : Z;
  conflicts : Z;
  errors : Z
}.

Definition incr_pg_to_mongo (st : SyncStats) : SyncStats :=
  mk_SyncStats (started_at st) (pg_to_mongo st + 1) (mongo_to_pg st) (conflicts st) (errors st).

Definition incr_mongo_to_pg (st : SyncStats) : SyncStats :=
  mk_SyncStats (started_at st) (pg_to_mongo st) (mongo_to_pg st + 1) (conflicts st) (errors st).

Definition incr_conflicts (st : SyncStats) : SyncStats :=
  mk_SyncStats (started_at st) (pg_to_mongo st) (mongo_to_pg st) (conflicts st + 1) (errors st).

Definition incr_errors (st : SyncStats) : SyncStats :=
  mk_SyncStats (started_at st) (pg_to_mongo st) (mongo_to_pg st) (conflicts st) (errors st + 1).

(** [TableMapping] *)
Record TableMapping : Type := mk_TableMapping {
  postgres_table : string;
  mongo_collection : string;
  primary_key : string;
  transform_to_mongo : option (dict -> result dict);
  transform_to_pg : option (dict -> result dict)
}.

(** What the engine reads of [Config]. *)
Record Config : Type := mk_Config {
  conflict_resolution : string;
  sync_direction : string;
  batch_size : Z
}.

Definition SYNC_METADATA_FIELD : string := "_sync_updated_at".

(** A dictionary keyed by primary-key values ([pg_rows], [mongo_docs]). *)
Definition index : Type := list (value * dict).

Section Engine.
Context {RT : Runtime} {W : Type} `{Store W}.
Local Open Scope eff_scope.

Local Notation "'Eng'" := (M SyncStats W).

Fixpoint index_get (ix : index) (key : value) : option dict :=
  match ix with
  | [] => None
  | (k, d) :: ix' => if py_eq k key then Some d else index_get ix' key
  end.

Fixpoint index_set (ix : index) (key : value) (d : dict) : index :=
  match ix with
  | [] => [(key, d)]
  | (k, d') :: ix' =>
      if py_eq k key then (k, d) :: ix' else (k, d') :: index_set ix' key d
  end.

(** [set(a) | set(b)]: the keys of either, each once. *)
Fixpoint set_add (keys : list value) (k : value) : list value :=
  match keys with
  | [] => [k]
  | k' :: keys' => if py_eq k' k then keys else k' :: set_add keys' k
  end.

Definition union_keys (a b : index) : list value :=
  fold_left set_add (map fst b) (fold_left set_add (map fst a) []).

(** [bool(d)] for [d : dict | None] *)
Definition opt_truthy (d : option dict) : bool :=
  match d with Some d => dict_truthy d | None => false end.

(** Modelled from the spec: [PostgresConnection.fetch_all(query, params)] of
    the baseline [db] module, which is not among the sources; section 4.1
    has it return the ordered sequence of raw records of the query. *)
Definition pg_fetch_all (q : sql) : Eng (list dict) :=
  r <- call (execute q) ;; ret (fetchall r).

(** Modelled from the spec: [PostgresConnection.execute(query, params)] of
    the baseline [db] module; the statement is run for its effect. *)
Definition pg_execute (q : sql) : Eng unit :=
  call (execute q) ;;; ret tt.

(** Modelled from the spec: [MongoConnection.upsert(collection, doc, pk)] of
    the baseline [db] module; section 4.1: insert-or-replace keyed on the
    key field. *)
Definition mongo_upsert (collection : string) (doc : dict) (pk : string) : Eng unit :=
  key <- lift (dict_item doc pk) ;;
  call (replace_one collection pk key doc).

(** Modelled from the spec: [MongoConnection.find(collection)] of the
    baseline [db] module: every document of the collection. *)
Definition mongo_find (collection : string) : Eng (list dict) :=
  call (find collection 0 None).

(** The body of the loop of [_normalize_doc]. *)
Definition normalize_item (result : dict) (kv : string * value) : dict :=
  let (k, v) := kv in
  match v with
  | VObjectId hex =>
      if (k =? "_id")%string then result else dict_set result k (VStr hex)
  | VDatetime d => dict_set result k (VStr (isoformat d))
  | _ => dict_set result k v
  end.

(** [SyncEngine._normalize_doc] *)
Definition _normalize_doc (doc : dict) : dict :=
  fold_left normalize_item doc [].

(** [x if isinstance(x, datetime) else datetime.fromisoformat(str(x))] *)
Definition as_datetime (x : value) : result datetime :=
  match x with
  | VDatetime d => Ok d
  | _ =>
      match fromisoformat (py_str x) with
      | Some d => Ok d
      | None => Raise (ValueError "Invalid isoformat string")
      end
  end.

(** [SyncEngine._resolve_conflict] *)
Definition _resolve_conflict (config : Config) (pg_row mongo_doc : dict) (key : value)
  : Eng (string * dict) :=
  let strategy := conflict_resolution config in
  let pg_updated :=
    py_or (dict_get pg_row SYNC_METADATA_FIELD) (dict_get pg_row "updated_at") in
  let mongo_updated :=
    py_or (dict_get mongo_doc SYNC_METADATA_FIELD) (dict_get mongo_doc "updated_at") in
  if (strategy =? "source_wins")%string then ret ("pg", pg_row)
  else if (strategy =? "target_wins")%string then ret ("mongo", mongo_doc)
  else if (strategy =? "latest_wins")%string then
    if truthy pg_updated && truthy mongo_updated then
      pg_time <- lift (as_datetime pg_updated) ;;
      mongo_time <- lift (as_datetime mongo_updated) ;;
      ge <- lift (datetime_ge pg_time mongo_time) ;;
      if ge then ret ("pg", pg_row) else ret ("mongo", mongo_doc)
    else if truthy pg_updated then ret ("pg", pg_row)
    else if truthy mongo_updated then ret ("mongo", mongo_doc)
    else ret ("pg", pg_row)
  else
    logger WARNING "Conflict on {key} requires manual resolution" [FVal key] ;;;
    ret ("skip", []).

(** One [row] of the [for row in rows] loop of [sync_pg_to_mongo]. *)
Definition pg_to_mongo_row (mapping : TableMapping) (row : dict) : Eng unit :=
  try_except
    (let doc := _normalize_doc row in
     t <- now_utc ;;
     let doc := dict_set doc SYNC_METADATA_FIELD (VDatetime t) in
     doc <- match transform_to_mongo mapping with
            | Some f => lift (f doc)
            | None => ret doc
            end ;;
     mongo_upsert (mongo_collection mapping) doc (primary_key mapping) ;;;
     modify_heap incr_pg_to_mongo)
    (fun e =>
       logger ERROR "Error syncing row {row.get(pk)}: {e}"
              [FVal (dict_get row (primary_key mapping)); FExn e] ;;;
       modify_heap incr_errors).

(** The [while True] loop of [sync_pg_to_mongo]. *)
Fixpoint pg_to_mongo_loop (fuel : nat) (config : Config) (mapping : TableMapping)
         (offset : Z) : Eng unit :=
  match fuel with
  | O => diverge
  | S fuel' =>
      rows <- pg_fetch_all (SelectPage (postgres_table mapping) (primary_key mapping)
                                        (batch_size config) offset) ;;
      match rows with
      | [] => ret tt
      | _ =>
          for_each rows (pg_to_mongo_row mapping) ;;;
          let offset := offset + Z.of_nat (List.length rows) in
          logger DEBUG "Processed {offset} rows from {table}"
                 [FInt offset; FStr (postgres_table mapping)] ;;;
          pg_to_mongo_loop fuel' config mapping offset
      end
  end.

(** [SyncEngine.sync_pg_to_mongo] *)
Definition sync_pg_to_mongo (fuel : nat) (config : Config) (mapping : TableMapping)
  : Eng unit :=
  logger INFO "Syncing {table} -> {collection}"
         [FStr (postgres_table mapping); FStr (mongo_collection mapping)] ;;;
  pg_to_mongo_loop fuel config mapping 0.

(** [{row['column_name'] for row in columns_result}] *)
Fixpoint column_names (columns_result : list dict) : result (list value) :=
  match columns_result with
  | [] => Ok []
  | row :: rest =>
      match dict_item row "column_name" with
      | Ok c =>
          match column_names rest with
          | Ok cs => Ok (c :: cs)
          | Raise e => Raise e
          | Diverge => Diverge
          end
      | Raise e => Raise e
      | Diverge => Diverge
      end
  end.

(** [k in pg_columns] *)
Definition in_columns (pg_columns : list value) (k : string) : bool :=
  existsb (fun c => py_eq (VStr k) c) pg_columns.

(** [{k: v for k, v in normalized.items() if k in pg_columns}] *)
Definition filter_columns (pg_columns : list value) (normalized : dict) : dict :=
  fold_left (fun filtered kv =>
               if in_columns pg_columns (fst kv)
               then dict_set filtered (fst kv) (snd kv) else filtered)
            normalized [].

(** One [doc] of the [for doc in docs] loop of [sync_mongo_to_pg]. *)
Definition mongo_to_pg_doc (mapping : TableMapping) (pg_columns : list value)
           (doc : dict) : Eng unit :=
  try_except
    (let normalized := _normalize_doc doc in
     normalized <- match transform_to_pg mapping with
                   | Some f => lift (f normalized)
                   | None => ret normalized
                   end ;;
     let filtered := filter_columns pg_columns normalized in
     t <- now_utc ;;
     let filtered := dict_set filtered SYNC_METADATA_FIELD (VDatetime t) in
     if negb (truthy (dict_get filtered (primary_key mapping))) then ret tt
     else
       pg_execute (InsertOnConflictUpdate (postgres_table mapping)
                                          (primary_key mapping) filtered) ;;;
       modify_heap incr_mongo_to_pg)
    (fun e =>
       logger ERROR "Error syncing doc {doc.get(pk)}: {e}"
              [FVal (dict_get doc (primary_key mapping)); FExn e] ;;;
       modify_heap incr_errors).

(** The [while True] loop of [sync_mongo_to_pg]. *)
Fixpoint mongo_to_pg_loop (fuel : nat) (config : Config) (mapping : TableMapping)
         (pg_columns : list value) (skip : Z) : Eng unit :=
  match fuel with
  | O => diverge
  | S fuel' =>
      docs <- call (find (mongo_collection mapping) skip (Some (batch_size config))) ;;
      match docs with
      | [] => ret tt
      | _ =>
          for_each docs (mongo_to_pg_doc mapping pg_columns) ;;;
          let skip := skip + Z.of_nat (List.length docs) in
          logger DEBUG "Processed {skip} documents from {collection}"
                 [FInt skip; FStr (mongo_collection mapping)] ;;;
          mongo_to_pg_loop fuel' config mapping pg_columns skip
      end
  end.

(** [SyncEngine.sync_mongo_to_pg] *)
Definition sync_mongo_to_pg (fuel : nat) (config : Config) (mapping : TableMapping)
  : Eng unit :=
  logger INFO "Syncing {collection} -> {table}"
         [FStr (mongo_collection mapping); FStr (postgres_table mapping)] ;;;
  columns_result <- pg_fetch_all (SelectColumns (postgres_table mapping)) ;;
  pg_columns <- lift (column_names columns_result) ;;
  mongo_to_pg_loop fuel config mapping pg_columns 0.

(** [SyncEngine._upsert_to_pg] *)
Definition _upsert_to_pg (mapping : TableMapping) (doc : dict) (timestamp : datetime)
  : Eng unit :=
  columns_result <- pg_fetch_all (SelectColumns (postgres_table mapping)) ;;
  pg_columns <- lift (column_names columns_result) ;;
  let normalized := _normalize_doc doc in
  let filtered := filter_columns pg_columns normalized in
  let filtered := dict_set filtered SYNC_METADATA_FIELD (VDatetime timestamp) in
  pg_execute (InsertOnConflictUpdate (postgres_table mapping) (primary_key mapping)
                                     filtered).

(** [{row[pk]: row for row in rows}] *)
Fixpoint index_rows (pk : string) (rows : list dict) (acc : index) : result index :=
  match rows with
  | [] => Ok acc
  | row :: rest =>
      match dict_item row pk with
      | Ok k => index_rows pk rest (index_set acc k row)
      | Raise e => Raise e
      | Diverge => Diverge
      end
  end.

(** [{doc[pk]: doc for doc in docs if pk in doc}] *)
Fixpoint index_docs (pk : string) (docs : list dict) (acc : index) : index :=
  match docs with
  | [] => acc
  | doc :: rest =>
      match dict_lookup doc pk with
      | Some k => index_docs pk rest (index_set acc k doc)
      | None => index_docs pk rest acc
      end
  end.

(** [{k: v for k, v in d.items() if k != self.SYNC_METADATA_FIELD}] *)
Definition without_metadata (d : dict) : dict :=
  fold_left (fun acc kv =>
               if negb (fst kv =? SYNC_METADATA_FIELD)%string
               then dict_set acc (fst kv) (snd kv) else acc)
            d [].

(** [a == b] on dictionaries: the same keys with equal values. *)
Definition dict_eq (a b : dict) : bool :=
  (List.length a =? List.length b)%nat &&
  forallb (fun kv => match dict_lookup b (fst kv) with
                     | Some v => py_eq (snd kv) v
                     | None => false
                     end) a.

(** [self._normalize_doc(d)] for [d : dict | None] *)
Definition normalize_opt (d : option dict) : result dict :=
  match d with
  | Some d => Ok (_normalize_doc d)
  | None => Raise (AttributeError "'NoneType' object has no attribute 'items'")
  end.

(** The [else] branch of the loop of [sync_bidirectional]: the key is on
    both sides. *)
Definition on_both_sides (config : Config) (mapping : TableMapping)
           (pg_row mongo_doc : option dict) (key : value) (now : datetime) : Eng unit :=
  pg_normalized <- lift (normalize_opt pg_row) ;;
  mongo_normalized <- lift (normalize_opt mongo_doc) ;;
  let pg_compare := without_metadata pg_normalized in
  let mongo_compare := without_metadata mongo_normalized in
  if negb (dict_eq pg_compare mongo_compare) then
    modify_heap incr_conflicts ;;;
    wr <- _resolve_conflict config
            (match pg_row with Some d => d | None => [] end)
            (match mongo_doc with Some d => d | None => [] end) key ;;
    let (winner, resolved) := wr : string * dict in
    if (winner =? "pg")%string then
      let doc := _normalize_doc resolved in
      let doc := dict_set doc SYNC_METADATA_FIELD (VDatetime now) in
      mongo_upsert (mongo_collection mapping) doc (primary_key mapping) ;;;
      modify_heap incr_pg_to_mongo
    else if (winner =? "mongo")%string then
      _upsert_to_pg mapping resolved now ;;;
      modify_heap incr_mongo_to_pg
    else ret tt
  else ret tt.

(** One [key] of the [for key in all_keys] loop of [sync_bidirectional]. *)
Definition sync_key (config : Config) (mapping : TableMapping)
           (pg_rows mongo_docs : index) (key : value) : Eng unit :=
  try_except
    (let pg_row := index_get pg_rows key in
     let mongo_doc := index_get mongo_docs key in
     now <- now_utc ;;
     if opt_truthy pg_row && negb (opt_truthy mongo_doc) then
       let doc := _normalize_doc (match pg_row with Some d => d | None => [] end) in
       let doc := dict_set doc SYNC_METADATA_FIELD (VDatetime now) in
       mongo_upsert (mongo_collection mapping) doc (primary_key mapping) ;;;
       modify_heap incr_pg_to_mongo
     else if opt_truthy mongo_doc && negb (opt_truthy pg_row) then
       _upsert_to_pg mapping (match mongo_doc with Some d => d | None => [] end) now ;;;
       modify_heap incr_mongo_to_pg
     else on_both_sides config mapping pg_row mongo_doc key now)
    (fun e =>
       logger ERROR "Error syncing key {key}: {e}" [FVal key; FExn e] ;;;
       modify_heap incr_errors).

(** [SyncEngine.sync_bidirectional] *)
Definition sync_bidirectional (config : Config) (mapping : TableMapping) : Eng unit :=
  logger INFO "Bidirectional sync: {table} <-> {collection}"
         [FStr (postgres_table mapping); FStr (mongo_collection mapping)] ;;;
  rows <- pg_fetch_all (SelectAll (postgres_table mapping)) ;;
  pg_rows <- lift (index_rows (primary_key mapping) rows []) ;;
  docs <- mongo_find (mongo_collection mapping) ;;
  let mongo_docs := index_docs (primary_key mapping) docs [] in
  let all_keys := set_iter (union_keys pg_rows mongo_docs) in
  for_each all_keys (sync_key config mapping pg_rows mongo_docs).

(** The body of the [try] of [sync_once] for one mapping. *)
Definition dispatch (fuel : nat) (config : Config) (mapping : TableMapping) : Eng unit :=
  let direction := sync_direction config in
  if (direction =? "pg_to_mongo")%string then sync_pg_to_mongo fuel config mapping
  else if (direction =? "mongo_to_pg")%string then sync_mongo_to_pg fuel config mapping
  else if (direction =? "bidirectional")%string then sync_bidirectional config mapping
  else logger ERROR "Unknown sync direction: {direction}" [FStr direction].

(** One [mapping] of the [for mapping in self.mappings] loop of [sync_once]. *)
Definition sync_mapping (fuel : nat) (config : Config) (mapping : TableMapping) : Eng unit :=
  try_except
    (dispatch fuel config mapping)
    (fun e =>
       logger ERROR "Error syncing {mapping.postgres_table}: {e}"
              [FStr (postgres_table mapping); FExn e] ;;;
       modify_heap incr_errors).

(** [SyncEngine.sync_once] *)
Definition sync_once (fuel : nat) (config : Config) (mappings : list TableMapping)
  : Eng SyncStats :=
  t0 <- now_utc ;;
  modify_heap (fun _ => mk_SyncStats t0 0 0 0 0) ;;;
  logger INFO "Starting sync cycle (direction: {direction})" [FStr (sync_direction config)] ;;;
  for_each mappings (sync_mapping fuel config) ;;;
  _ <- now_utc ;;
  stats <- get_heap ;;
  logger INFO "Sync complete: PG->Mongo={stats.pg_to_mongo}, Mongo->PG={stats.mongo_to_pg}, conflicts={stats.conflicts}, errors={stats.errors}"
         [FInt (pg_to_mongo stats); FInt (mongo_to_pg stats);
          FInt (conflicts stats); FInt (errors stats)] ;;;
  ret stats.

End Engine.

End sync_engine.

(* ===================================================================== *)
(** ** datasync/datasync/sync.py *)
(* ===================================================================== *)

Module datasync_sync.

(** [table_stats = {'synced': 0, 'errors': 0}] *)
Record table_stats : Type := mk_table_stats {
  synced : Z;
  ts_errors : Z
}.

(** The dictionary [stats] of [DataSync.sync]. *)
Record sync_stats : Type := mk_sync_stats {
  direction : string;
  started_at : datetime;
  tables : list (string * table_stats);
  total_synced : Z;
  completed_at : option datetime
}.

(** The two objects [DataSync.sync] fills while it runs. *)
Record locals : Type := mk_locals {
  stats : sync_stats;
  current : table_stats
}.

(** One entry of [config['sync']['mappings']]. *)
Record mapping : Type := mk_mapping {
  postgres_table : string;
  mongo_collection : string
}.

(** What [DataSync.sync] reads of [config['sync']]. *)
Record sync_config : Type := mk_sync_config {
  cfg_direction : string;
  mappings : list mapping;
  batch_size : Z
}.

Definition add_synced (n : Z) (l : locals) : locals :=
  mk_locals (stats l) (mk_table_stats (synced (current l) + n) (ts_errors (current l))).

Definition add_error (l : locals) : locals :=
  mk_locals (stats l) (mk_table_stats (synced (current l)) (ts_errors (current l) + 1)).

Definition new_table_stats (l : locals) : locals :=
  mk_locals (stats l) (mk_table_stats 0 0).

(** [stats['tables'][pg_table] = table_stats] *)
Fixpoint tables_set (ts : list (string * table_stats)) (k : string) (v : table_stats)
  : list (string * table_stats) :=
  match ts with
  | [] => [(k, v)]
  | (k', v') :: ts' =>
      if (k' =? k)%string then (k', v) :: ts' else (k', v') :: tables_set ts' k v
  end.

Definition record_table (pg_table : string) (l : locals) : locals :=
  let st := stats l in
  mk_locals
    (mk_sync_stats (direction st) (started_at st)
                   (tables_set (tables st) pg_table (current l))
                   (total_synced st + synced (current l)) (completed_at st))
    (current l).

Definition set_completed (d : datetime) (l : locals) : locals :=
  let st := stats l in
  mk_locals (mk_sync_stats (direction st) (started_at st) (tables st)
                           (total_synced st) (Some d))
            (current l).

(** The body of the loop of [_convert_pg_to_mongo]. *)
Definition pg_to_mongo_item (doc : dict) (kv : string * value) : dict :=
  let (key, value) := kv in
  let doc := if (key =? "id")%string then dict_set doc "_pg_id" value else doc in
  dict_set doc key value.

(** [DataSync._convert_pg_to_mongo], [now] being what [datetime.utcnow()]
    returns. *)
Definition _convert_pg_to_mongo (now : datetime) (record : dict) : dict :=
  let doc := fold_left pg_to_mongo_item record [] in
  dict_set doc "_synced_at" (VDatetime now).

(** The body of the loop of [_convert_mongo_to_pg]. *)
Definition mongo_to_pg_item (record : dict) (kv : string * value) : dict :=
  let (key, value) := kv in
  if startswith_underscore key then
    if (key =? "_pg_id")%string then dict_set record "id" value else record
  else dict_set record key value.

(** [DataSync._convert_mongo_to_pg]: the record, or [None] when it is empty. *)
Definition _convert_mongo_to_pg (document : dict) : option dict :=
  let record := fold_left mongo_to_pg_item document [] in
  if dict_truthy record then Some record else None.

Definition in_list (s : string) (l : list string) : bool := existsb (String.eqb s) l.

Section Engine.
Context {W : Type} `{Store W}.
Local Open Scope eff_scope.

Local Notation "'Eng'" := (M locals W).

(** [self.pg_conn.cursor()]: [pg_conn] is [None] until [connect]. *)
Definition pg_cursor : Eng unit :=
  fun s =>
    if negb (pool_open (store s))
    then (Raise (AttributeError "'NoneType' object has no attribute 'cursor'"), s)
    else (Ok tt, s).

(** [self.mongo_db[collection_name]]: [mongo_db] is [None] until [connect]. *)
Definition mongo_collection_of : Eng unit :=
  fun s =>
    if negb (mongo_open (store s))
    then (Raise (TypeError "'NoneType' object is not subscriptable"), s)
    else (Ok tt, s).

(** The [for record in records] loop of [_sync_to_mongo]. *)
Fixpoint build_operations (records : list dict) (operations : list update_one)
  : Eng (list update_one) :=
  match records with
  | [] => ret operations
  | record :: rest =>
      now <- utcnow ;;
      let doc := _convert_pg_to_mongo now record in
      k <- lift (dict_item doc "_pg_id") ;;
      build_operations rest (operations ++ [mk_update_one "_pg_id" k doc])
  end.

(** [DataSync._sync_to_mongo] *)
Definition _sync_to_mongo (records : list dict) (collection_name : string) : Eng Z :=
  match records with
  | [] => ret 0
  | _ =>
      mongo_collection_of ;;;
      operations <- build_operations records [] ;;
      result <- call (bulk_write collection_name operations) ;;
      ret (modified_count result + upserted_count result)
  end.

(** The [for doc in documents] loop of [_sync_to_postgres]. *)
Fixpoint upsert_documents (documents : list dict) (table : string) (affected : Z)
  : Eng Z :=
  match documents with
  | [] => ret affected
  | doc :: rest =>
      match _convert_mongo_to_pg doc with
      | None => upsert_documents rest table affected
      | Some record =>
          r <- call (execute (InsertOnConflictUpdate table "id" record)) ;;
          upsert_documents rest table (affected + rowcount r)
      end
  end.

(** [DataSync._sync_to_postgres] *)
Definition _sync_to_postgres (documents : list dict) (table : string) : Eng Z :=
  match documents with
  | [] => ret 0
  | _ =>
      pg_cursor ;;;
      affected <- upsert_documents documents table 0 ;;
      call commit ;;;
      ret affected
  end.

(** [for batch in self._fetch_postgres_batch(pg_table, batch_size)] with the
    body of the loop in [sync]: the generator fetches a page, the body
    consumes it, the generator moves the offset on. *)
Fixpoint postgres_batches (fuel : nat) (table : string) (batch_size offset : Z)
         (mongo_collection : string) : Eng unit :=
  match fuel with
  | O => diverge
  | S fuel' =>
      r <- call (execute (SelectPage table "id" batch_size offset)) ;;
      match fetchall r with
      | [] => ret tt
      | records =>
          synced <- _sync_to_mongo records mongo_collection ;;
          modify_heap (add_synced synced) ;;;
          logger DEBUG "Synced batch of {synced} records" [FInt synced] ;;;
          postgres_batches fuel' table batch_size (offset + batch_size) mongo_collection
      end
  end.

(** [for batch in self._fetch_mongo_batch(mongo_collection, batch_size)] with
    the body of the loop in [sync]. *)
Fixpoint mongo_batches (fuel : nat) (collection_name : string) (batch_size skip : Z)
         (pg_table : string) : Eng unit :=
  match fuel with
  | O => diverge
  | S fuel' =>
      documents <- call (find collection_name skip (Some batch_size)) ;;
      match documents with
      | [] => ret tt
      | _ =>
          synced <- _sync_to_postgres documents pg_table ;;
          modify_heap (add_synced synced) ;;;
          logger DEBUG "Synced batch of {synced} records" [FInt synced] ;;;
          mongo_batches fuel' collection_name batch_size (skip + batch_size) pg_table
      end
  end.

(** The [try] block of [sync] for one mapping. *)
Definition sync_body (fuel : nat) (cfg : sync_config) (m : mapping) : Eng unit :=
  let direction := cfg_direction cfg in
  (if in_list direction ["postgres_to_mongo"; "bidirectional"] then
     logger INFO "Syncing {pg_table} -> {mongo_collection}"
            [FStr (postgres_table m); FStr (mongo_collection m)] ;;;
     pg_cursor ;;;
     postgres_batches fuel (postgres_table m) (batch_size cfg) 0 (mongo_collection m)
   else ret tt) ;;;
  (if in_list direction ["mongo_to_postgres"; "bidirectional"] then
     logger INFO "Syncing {mongo_collection} -> {pg_table}"
            [FStr (mongo_collection m); FStr (postgres_table m)] ;;;
     mongo_collection_of ;;;
     mongo_batches fuel (mongo_collection m) (batch_size cfg) 0 (postgres_table m)
   else ret tt) ;;;
  l <- get_heap ;;
  logger INFO "Completed {pg_table}: {table_stats['synced']} records"
         [FStr (postgres_table m); FInt (synced (current l))].

(** One [mapping] of the [for mapping in mappings] loop of [sync]. *)
Definition sync_mapping (fuel : nat) (cfg : sync_config) (m : mapping) : Eng unit :=
  modify_heap new_table_stats ;;;
  try_except
    (sync_body fuel cfg m)
    (fun e =>
       logger ERROR "Error syncing {pg_table}: {e}" [FStr (postgres_table m); FExn e] ;;;
       modify_heap add_error ;;;
       raise e) ;;;
  modify_heap (record_table (postgres_table m)).

(** [DataSync.sync] *)
Definition sync (fuel : nat) (cfg : sync_config) : Eng sync_stats :=
  t0 <- utcnow ;;
  modify_heap (fun l => mk_locals (mk_sync_stats (cfg_direction cfg) t0 [] 0 None) (current l)) ;;;
  logger INFO "Starting sync: {direction}" [FStr (cfg_direction cfg)] ;;;
  for_each (mappings cfg) (sync_mapping fuel cfg) ;;;
  t1 <- utcnow ;;
  modify_heap (set_completed t1) ;;;
  l <- get_heap ;;
  logger INFO "Sync completed. Total: {stats['total_synced']} records"
         [FInt (total_synced (stats l))] ;;;
  ret (stats l).

End Engine.

End datasync_sync.

(* ===================================================================== *)
(** ** sequential-1770261425547/.../datasync/datasync/sync_engine.py *)
(* ===================================================================== *)

Module seq_sync_engine.

(** [SyncResult] *)
Record SyncResult : Type := mk_SyncResult {
  records_synced : Z;
  records_skipped : Z;
  conflicts_resolved : Z;
  errors : list fstring
}.

(** [SyncResult.success] *)
Definition success (r : SyncResult) : bool :=
  match errors r with [] => true | _ => false end.

Definition incr_synced (r : SyncResult) : SyncResult :=
  mk_SyncResult (records_synced r + 1) (records_skipped r) (conflicts_resolved r) (errors r).

Definition incr_skipped (r : SyncResult) : SyncResult :=
  mk_SyncResult (records_synced r) (records_skipped r + 1) (conflicts_resolved r) (errors r).

Definition append_error (m : fstring) (r : SyncResult) : SyncResult :=
  mk_SyncResult (records_synced r) (records_skipped r) (conflicts_resolved r)
                (errors r ++ [m]).

(** What the engine reads of [config.sync]. *)
Record SyncConfig : Type := mk_SyncConfig {
  direction : string;
  batch_size : Z;
  tables : list string;
  conflict_resolution : string
}.

(** The reserved fields of a document: the native identifier and the two
    synchronisation markers. *)
Definition reserved (k : string) : bool :=
  (k =? "_id")%string || (k =? "_sync_source")%string || (k =? "_sync_at")%string.

(** [SyncEngine._convert_for_mongo], [now] being what [datetime.utcnow()]
    returns.  The loop over the datetime values assigns each to itself. *)
Definition _convert_for_mongo (now : datetime) (record : dict) (pk_col : string) : dict :=
  let doc := record in
  let doc :=
    if negb (pk_col =? "_id")%string && dict_mem doc pk_col
    then dict_set (dict_remove doc pk_col) "_id" (dict_get doc pk_col)
    else doc in
  let doc := dict_set doc "_sync_source" (VStr "postgres") in
  dict_set doc "_sync_at" (VDatetime now).

(** [SyncEngine._convert_for_postgres] *)
Definition _convert_for_postgres (doc : dict) (pk_col : string) : dict :=
  let record := doc in
  let record :=
    if dict_mem record "_id"
    then dict_set (dict_remove record "_id") pk_col (dict_get record "_id")
    else record in
  let record := dict_remove record "_sync_source" in
  dict_remove record "_sync_at".

Definition in_list (s : string) (l : list string) : bool := existsb (String.eqb s) l.

Section Engine.
Context {RT : Runtime} {W : Type} `{Store W}.
Local Open Scope eff_scope.

Local Notation "'Eng'" := (M SyncResult W).

(** [self._pg_pool.getconn()]: [_pg_pool] is [None] until [connect]. *)
Definition pool_getconn : Eng unit :=
  fun s =>
    if negb (pool_open (store s))
    then (Raise (AttributeError "'NoneType' object has no attribute 'getconn'"), s)
    else call getconn s.

(** [self._mongo_db[collection]]: [_mongo_db] is [None] until [connect]. *)
Definition mongo_coll : Eng unit :=
  fun s =>
    if negb (mongo_open (store s))
    then (Raise (TypeError "'NoneType' object is not subscriptable"), s)
    else (Ok tt, s).

(** [row[0]] of a row of a catalogue query, whose first column is a name. *)
Definition row0 (row : dict) : result string :=
  match row with
  | [] => Raise (IndexError "tuple index out of range")
  | (_, VStr s) :: _ => Ok s
  | (_, _) :: _ => Raise (TypeError "a catalogue name is a string")
  end.

(** [row[0] if row else 'id'] on what [fetchone] gave. *)
Definition first_column (rows : list dict) : result string :=
  match rows with
  | [] => Ok "id"
  | [] :: _ => Ok "id"
  | row :: _ => row0 row
  end.

(** [[row[0] for row in cur.fetchall()]] *)
Fixpoint first_columns (rows : list dict) : result (list string) :=
  match rows with
  | [] => Ok []
  | row :: rest =>
      match row0 row with
      | Ok s =>
          match first_columns rest with
          | Ok ss => Ok (s :: ss)
          | Raise e => Raise e
          | Diverge => Diverge
          end
      | Raise e => Raise e
      | Diverge => Diverge
      end
  end.

(** [list(set(a))] and [list(set(a) | set(b))] on names. *)
Definition set_of_names (names : list string) : list string :=
  fold_right (fun v acc => match v with VStr s => s :: acc | _ => acc end) []
             (set_iter (map VStr (nodup string_dec names))).

(** [SyncEngine._get_primary_key] *)
Definition _get_primary_key (table : string) : Eng string :=
  pool_getconn ;;;
  try_finally
    (try_except
       (r <- call (execute (SelectPrimaryKey table)) ;;
        lift (first_column (fetchall r)))
       (fun _ => ret "id"))
    (call putconn).

(** [SyncEngine._fetch_postgres_batch] *)
Definition _fetch_postgres_batch (config : SyncConfig) (table : string) (offset : Z)
           (pk_col : string) : Eng (list dict) :=
  pool_getconn ;;;
  try_finally
    (r <- call (execute (SelectPage table pk_col (batch_size config) offset)) ;;
     ret (fetchall r))
    (call putconn).

(** The loop of [_fetch_mongo_batch]: an [ObjectId] under [_id] becomes its
    string. *)
Definition stringify_id (doc : dict) : dict :=
  match dict_lookup doc "_id" with
  | Some (VObjectId hex) => dict_set doc "_id" (VStr hex)
  | _ => doc
  end.

(** [SyncEngine._fetch_mongo_batch] *)
Definition _fetch_mongo_batch (config : SyncConfig) (collection : string) (skip : Z)
  : Eng (list dict) :=
  mongo_coll ;;;
  docs <- call (find collection skip (Some (batch_size config))) ;;
  ret (map stringify_id docs).

(** [SyncEngine._upsert_to_mongo] *)
Definition _upsert_to_mongo (collection : string) (doc : dict) : Eng bool :=
  try_except
    (mongo_coll ;;;
     let doc_id := dict_get doc "_id" in
     (if truthy doc_id
      then call (replace_one collection "_id" doc_id doc)
      else call (insert_one collection doc)) ;;;
     ret true)
    (fun e =>
       logger ERROR "MongoDB upsert failed: {e}" [FExn e] ;;;
       ret false).

(** [SyncEngine._upsert_to_postgres] *)
Definition _upsert_to_postgres (table : string) (record : dict) (pk_col : string)
  : Eng bool :=
  pool_getconn ;;;
  try_finally
    (try_except
       (call (execute (InsertOnConflictUpdate table pk_col record)) ;;;
        call commit ;;;
        ret true)
       (fun e =>
          call rollback ;;;
          logger ERROR "PostgreSQL upsert failed: {e}" [FExn e] ;;;
          ret false))
    (call putconn).

(** One [record] of the [for record in records] loop of
    [_sync_postgres_to_mongo]. *)
Definition postgres_to_mongo_record (table pk_col : string) (record : dict) : Eng unit :=
  now <- utcnow ;;
  let doc := _convert_for_mongo now record pk_col in
  ok <- _upsert_to_mongo table doc ;;
  if ok then modify_heap incr_synced
  else modify_heap (append_error ("Failed to sync record {record.get(pk_col)} to MongoDB",
                                  [FVal (dict_get record pk_col)])).

(** [SyncEngine._sync_postgres_to_mongo] *)
Fixpoint _sync_postgres_to_mongo (fuel : nat) (config : SyncConfig) (table pk_col : string)
         (offset : Z) : Eng unit :=
  match fuel with
  | O => diverge
  | S fuel' =>
      records <- _fetch_postgres_batch config table offset pk_col ;;
      match records with
      | [] => ret tt
      | _ =>
          for_each records (postgres_to_mongo_record table pk_col) ;;;
          let offset := offset + Z.of_nat (List.length records) in
          logger DEBUG "Synced {offset} records from PostgreSQL to MongoDB for {table}"
                 [FInt offset; FStr table] ;;;
          _sync_postgres_to_mongo fuel' config table pk_col offset
      end
  end.

(** [doc.get('_sync_source') == 'postgres'] *)
Definition from_postgres (doc : dict) : bool :=
  match dict_get doc "_sync_source" with
  | VStr s => (s =? "postgres")%string
  | _ => false
  end.

(** One [doc] of the [for doc in docs] loop of [_sync_mongo_to_postgres]. *)
Definition mongo_to_postgres_doc (table pk_col : string) (doc : dict) : Eng unit :=
  if from_postgres doc then modify_heap incr_skipped
  else
    let record := _convert_for_postgres doc pk_col in
    ok <- _upsert_to_postgres table record pk_col ;;
    if ok then modify_heap incr_synced
    else modify_heap (append_error ("Failed to sync document {doc.get('_id')} to PostgreSQL",
                                    [FVal (dict_get doc "_id")])).

(** [SyncEngine._sync_mongo_to_postgres] *)
Fixpoint _sync_mongo_to_postgres (fuel : nat) (config : SyncConfig) (table pk_col : string)
         (skip : Z) : Eng unit :=
  match fuel with
  | O => diverge
  | S fuel' =>
      docs <- _fetch_mongo_batch config table skip ;;
      match docs with
      | [] => ret tt
      | _ =>
          for_each docs (mongo_to_postgres_doc table pk_col) ;;;
          let skip := skip + Z.of_nat (List.length docs) in
          logger DEBUG "Synced {skip} documents from MongoDB to PostgreSQL for {table}"
                 [FInt skip; FStr table] ;;;
          _sync_mongo_to_postgres fuel' config table pk_col skip
      end
  end.

(** The [try] block of [sync_table]. *)
Definition sync_directions (fuel : nat) (config : SyncConfig) (table pk_col : string)
  : Eng unit :=
  (if in_list (direction config) ["postgres_to_mongo"; "bidirectional"]
   then _sync_postgres_to_mongo fuel config table pk_col 0 else ret tt) ;;;
  (if in_list (direction config) ["mongo_to_postgres"; "bidirectional"]
   then _sync_mongo_to_postgres fuel config table pk_col 0 else ret tt).

(** [SyncEngine.sync_table] *)
Definition sync_table (fuel : nat) (config : SyncConfig) (table : string) : Eng SyncResult :=
  modify_heap (fun _ => mk_SyncResult 0 0 0 []) ;;;
  pk_col <- _get_primary_key table ;;
  logger INFO "Syncing table: {table} (direction: {direction})"
         [FStr table; FStr (direction config)] ;;;
  try_except
    (sync_directions fuel config table pk_col)
    (fun e =>
       modify_heap (append_error ("Error syncing {table}: {str(e)}", [FStr table; FExn e])) ;;;
       logger ERROR "Error syncing table {table}" [FStr table; FExn e]) ;;;
  get_heap.

(** [results[table] = ...] *)
Fixpoint results_set (rs : list (string * SyncResult)) (k : string) (v : SyncResult)
  : list (string * SyncResult) :=
  match rs with
  | [] => [(k, v)]
  | (k', v') :: rs' =>
      if (k' =? k)%string then (k', v) :: rs' else (k', v') :: results_set rs' k v
  end.

(** The [for table in tables] loop of [sync_all]. *)
Fixpoint sync_tables (fuel : nat) (config : SyncConfig) (tables : list string)
         (results : list (string * SyncResult)) : Eng (list (string * SyncResult)) :=
  match tables with
  | [] => ret results
  | table :: rest =>
      r <- sync_table fuel config table ;;
      sync_tables fuel config rest (results_set results table r)
  end.

(** [SyncEngine.get_postgres_tables] *)
Definition get_postgres_tables : Eng (list string) :=
  pool_getconn ;;;
  try_finally
    (r <- call (execute SelectTables) ;;
     lift (first_columns (fetchall r)))
    (call putconn).

(** [SyncEngine.get_mongo_collections] *)
Definition get_mongo_collections : Eng (list string) :=
  fun s =>
    if negb (mongo_open (store s))
    then (Raise (AttributeError "'NoneType' object has no attribute 'list_collection_names'"), s)
    else call list_collection_names s.

(** [SyncEngine._get_tables_to_sync] *)
Definition _get_tables_to_sync (config : SyncConfig) : Eng (list string) :=
  match tables config with
  | _ :: _ => ret (tables config)
  | [] =>
      pg_tables <- get_postgres_tables ;;
      mongo_collections <- get_mongo_collections ;;
      if (direction config =? "postgres_to_mongo")%string then ret (set_of_names pg_tables)
      else if (direction config =? "mongo_to_postgres")%string
           then ret (set_of_names mongo_collections)
           else ret (set_of_names (pg_tables ++ mongo_collections))
  end.

(** [SyncEngine.sync_all] *)
Definition sync_all (fuel : nat) (config : SyncConfig)
  : Eng (list (string * SyncResult)) :=
  tables <- _get_tables_to_sync config ;;
  logger INFO "Starting sync for {len(tables)} tables: {tables}"
         (FInt (Z.of_nat (List.length tables)) :: map FStr tables) ;;;
  results <- sync_tables fuel config tables [] ;;
  logger INFO "Sync complete: {total_synced} records synced, {total_errors} errors"
         [FInt (fold_right (fun r acc => records_synced (snd r) + acc) 0 results);
          FInt (fold_right (fun r acc => Z.of_nat (List.length (errors (snd r))) + acc) 0 results)] ;;;
  ret results.

End Engine.

End seq_sync_engine.

(* ===================================================================== *)
(** ** An in-memory pair of databases *)
(* ===================================================================== *)

(** A small PostgreSQL and MongoDB that hold their tables and collections
    as lists.  It gives the statements of [sql] and the pymongo calls their
    meaning, and is what the engines are run against in the examples. *)
Module memdb.

Local Open Scope list_scope.

Record pg_table : Type := mk_pg_table {
  columns : list string;
  pkey : option string;
  rows : list dict
}.

Record world : Type := mk_world {
  connected : bool;
  pg : list (string * pg_table);
  mongo : list (string * list dict);
  next_oid : nat;
  page_log : list (list dict)     (* what each SELECT ... LIMIT ... OFFSET returned *)
}.

Definition value_eqb (a b : value) : bool :=
  if value_eq_dec a b then true else false.

(** The order of [ORDER BY ... ASC]: integers and strings by value, [NULL]
    last. *)
Definition value_leb (a b : value) : bool :=
  match a, b with
  | VInt x, VInt y => x <=? y
  | VStr x, VStr y => String.leb x y
  | VNone, VNone => true
  | VNone, _ => false
  | _, _ => true
  end.

Fixpoint insert_row (key : string) (r : dict) (sorted : list dict) : list dict :=
  match sorted with
  | [] => [r]
  | x :: rest =>
      if value_leb (dict_get r key) (dict_get x key)
      then r :: sorted
      else x :: insert_row key r rest
  end.

Definition order_by (key : string) (rs : list dict) : list dict :=
  fold_right (insert_row key) [] rs.

Fixpoint lookup {A} (l : list (string * A)) (k : string) : option A :=
  match l with
  | [] => None
  | (k', a) :: l' => if (k' =? k)%string then Some a else lookup l' k
  end.

Fixpoint update {A} (l : list (string * A)) (k : string) (a : A) : list (string * A) :=
  match l with
  | [] => [(k, a)]
  | (k', a') :: l' =>
      if (k' =? k)%string then (k', a) :: l' else (k', a') :: update l' k a
  end.

(** [d.update(e)] *)
Definition dict_update (d e : dict) : dict :=
  fold_left (fun acc kv => dict_set acc (fst kv) (snd kv)) e d.

Definition matches (field : string) (v : value) (d : dict) : bool :=
  match dict_lookup d field with
  | Some v' => value_eqb v' v
  | None => false
  end.

(** The first element that satisfies [p] is replaced by its image. *)
Fixpoint replace_first {A} (p : A -> bool) (f : A -> A) (l : list A) : list A :=
  match l with
  | [] => []
  | x :: l' => if p x then f x :: l' else x :: replace_first p f l'
  end.

Definition object_id (n : nat) : value :=
  VObjectId (NilZero.string_of_uint (Nat.to_uint n)).

(** A document as it is stored: with an [_id], a fresh one if it brings none. *)
Definition with_id (n : nat) (d : dict) : dict :=
  if dict_mem d "_id" then d else ("_id", object_id n) :: d.

Definition set_pg (w : world) (pg' : list (string * pg_table)) : world :=
  mk_world (connected w) pg' (mongo w) (next_oid w) (page_log w).

Definition set_mongo (w : world) (m : list (string * list dict)) (n : nat) : world :=
  mk_world (connected w) (pg w) m n (page_log w).

Definition log_page (w : world) (page : list dict) : world :=
  mk_world (connected w) (pg w) (mongo w) (next_oid w) (page_log w ++ [page]).

Definition collection_of (w : world) (c : string) : list dict :=
  match lookup (mongo w) c with Some docs => docs | None => [] end.

Definition no_table (t : string) : exn :=
  DatabaseError ("relation does not exist: " ++ t)%string.

(** [INSERT ... ON CONFLICT (col) DO UPDATE SET ...] on one table. *)
Definition upsert_row (t : pg_table) (col : string) (row : dict) : result pg_table :=
  if negb (forallb (fun k => existsb (String.eqb k) (columns t)) (dict_keys row))
  then Raise (DatabaseError "column does not exist")
  else match pkey t with
       | None => Raise (DatabaseError "no unique constraint matches ON CONFLICT")
       | Some pk =>
           if negb (pk =? col)%string
           then Raise (DatabaseError "no unique constraint matches ON CONFLICT")
           else match dict_remove row col with
                | [] => Raise (DatabaseError "syntax error at end of input")
                | _ =>
                    match dict_lookup row col with
                    | None | Some VNone =>
                        Raise (DatabaseError "null value in primary key column")
                    | Some v =>
                        if existsb (matches col v) (rows t)
                        then Ok (mk_pg_table (columns t) (pkey t)
                                   (replace_first (matches col v)
                                                  (fun old => dict_update old row) (rows t)))
                        else Ok (mk_pg_table (columns t) (pkey t)
                                   (rows t ++ [map (fun c => (c, dict_get row c)) (columns t)]))
                    end
                end
       end.

(** [cursor.execute(statement)] *)
Definition mem_execute (q : sql) (w : world) : result reply * world :=
  match q with
  | SelectTables =>
      (Ok (mk_reply (map (fun t => [("table_name", VStr (fst t))]) (pg w)) (-1)), w)
  | SelectCount t =>
      match lookup (pg w) t with
      | None => (Raise (no_table t), w)
      | Some tb => (Ok (mk_reply [[("count", VInt (Z.of_nat (List.length (rows tb))))]] 1), w)
      end
  | SelectAll t =>
      match lookup (pg w) t with
      | None => (Raise (no_table t), w)
      | Some tb => (Ok (mk_reply (rows tb) (Z.of_nat (List.length (rows tb)))), w)
      end
  | SelectPage t key limit offset =>
      match lookup (pg w) t with
      | None => (Raise (no_table t), w)
      | Some tb =>
          if negb (existsb (String.eqb key) (columns tb))
          then (Raise (DatabaseError "column does not exist"), w)
          else if (limit <? 0) || (offset <? 0)
          then (Raise (DatabaseError "LIMIT and OFFSET must not be negative"), w)
          else
            let page := firstn (Z.to_nat limit)
                               (skipn (Z.to_nat offset) (order_by key (rows tb))) in
            (Ok (mk_reply page (Z.of_nat (List.length page))), log_page w page)
      end
  | SelectColumns t =>
      match lookup (pg w) t with
      | None => (Ok (mk_reply [] 0), w)
      | Some tb =>
          (Ok (mk_reply (map (fun c => [("column_name", VStr c)]) (columns tb))
                        (Z.of_nat (List.length (columns tb)))), w)
      end
  | SelectPrimaryKey t =>
      match lookup (pg w) t with
      | None => (Raise (no_table t), w)
      | Some tb =>
          match pkey tb with
          | Some pk => (Ok (mk_reply [[("attname", VStr pk)]] 1), w)
          | None => (Ok (mk_reply [] 0), w)
          end
      end
  | InsertOnConflictUpdate t col row =>
      match lookup (pg w) t with
      | None => (Raise (no_table t), w)
      | Some tb =>
          match upsert_row tb col row with
          | Ok tb' => (Ok (mk_reply [] 1), set_pg w (update (pg w) t tb'))
          | Raise e => (Raise e, w)
          | Diverge => (Diverge, w)
          end
      end
  end.

(** [find().skip(skip).limit(limit)]; a limit of 0 is no limit. *)
Definition mem_find (c : string) (skip : Z) (limit : option Z) (w : world)
  : result (list dict) * world :=
  if skip <? 0 then (Raise (ValueError "skip must be >= 0"), w)
  else
    let rest := skipn (Z.to_nat skip) (collection_of w c) in
    match limit with
    | None => (Ok rest, w)
    | Some n => if n =? 0 then (Ok rest, w)
                else (Ok (firstn (Z.to_nat (Z.abs n)) rest), w)
    end.

Definition mem_find_one (c field : string) (v : value) (w : world)
  : result (option dict) * world :=
  (Ok (List.find (matches field v) (collection_of w c)), w).

(** One [UpdateOne(filter, {'$set': doc}, upsert=True)]. *)
Definition apply_update (docs : list dict) (n : nat) (op : update_one)
  : list dict * nat * bulk_result :=
  if existsb (matches (filter_field op) (filter_value op)) docs
  then
    let docs' := replace_first (matches (filter_field op) (filter_value op))
                               (fun old => dict_update old (set_doc op)) docs in
    (docs', n,
     mk_bulk 1 (if list_eq_dec dict_eq_dec docs docs' then 0 else 1) 0)
  else
    ((docs ++ [with_id n (dict_update [(filter_field op, filter_value op)] (set_doc op))])%list,
     S n, mk_bulk 0 0 1).

(** [collection.bulk_write(operations, ordered=False)] *)
Fixpoint apply_updates (docs : list dict) (n : nat) (ops : list update_one)
         (acc : bulk_result) : list dict * nat * bulk_result :=
  match ops with
  | [] => (docs, n, acc)
  | op :: rest =>
      match apply_update docs n op with
      | (docs', n', r) =>
          apply_updates docs' n' rest
            (mk_bulk (matched_count acc + matched_count r)
                     (modified_count acc + modified_count r)
                     (upserted_count acc + upserted_count r))
      end
  end.

Definition mem_bulk_write (c : string) (ops : list update_one) (w : world)
  : result bulk_result * world :=
  match apply_updates (collection_of w c) (next_oid w) ops (mk_bulk 0 0 0) with
  | (docs', n', r) => (Ok r, set_mongo w (update (mongo w) c docs') n')
  end.

(** [collection.replace_one({field: v}, doc, upsert=True)]: the stored
    document keeps its [_id]. *)
Definition mem_replace_one (c field : string) (v : value) (doc : dict) (w : world)
  : result unit * world :=
  let docs := collection_of w c in
  if existsb (matches field v) docs
  then
    let keep_id old :=
      if dict_mem doc "_id" then doc else ("_id", dict_get old "_id") :: doc in
    (Ok tt, set_mongo w (update (mongo w) c (replace_first (matches field v) keep_id docs))
                      (next_oid w))
  else
    (Ok tt, set_mongo w (update (mongo w) c (docs ++ [with_id (next_oid w) doc]))
                      (S (next_oid w))).

(** [collection.insert_one(doc)] *)
Definition mem_insert_one (c : string) (doc : dict) (w : world) : result unit * world :=
  let docs := collection_of w c in
  if dict_mem doc "_id" && existsb (matches "_id" (dict_get doc "_id")) docs
  then (Raise (DatabaseError "duplicate key error"), w)
  else (Ok tt, set_mongo w (update (mongo w) c (docs ++ [with_id (next_oid w) doc]))
                         (S (next_oid w))).

#[export] Instance mem_store : Store world := {
  pool_open := connected;
  getconn := fun w => (Ok tt, w);
  putconn := fun w => (Ok tt, w);
  execute := mem_execute;
  commit := fun w => (Ok tt, w);
  rollback := fun w => (Ok tt, w);
  mongo_open := connected;
  list_collection_names := fun w => (Ok (map fst (mongo w)), w);
  find := mem_find;
  find_one := mem_find_one;
  count_documents := fun c w => (Ok (Z.of_nat (List.length (collection_of w c))), w);
  bulk_write := mem_bulk_write;
  replace_one := mem_replace_one;
  insert_one := mem_insert_one
}.

(** A runtime for the examples: values are equal when they are the same
    value, a set iterates in insertion order, and a datetime prints as its
    count of microseconds. *)
Definition print_datetime (d : datetime) : string :=
  match d with
  | Naive n => NilZero.string_of_int (Z.to_int n)
  | Aware n => (NilZero.string_of_int (Z.to_int n) ++ "+00:00")%string
  end.

#[export] Instance example_runtime : Runtime := {
  isoformat := print_datetime;
  fromisoformat := fun _ => None;
  py_str := fun v => match v with VStr s => s | _ => "" end;
  float_of_decimal := fun m _ => m;
  py_eq := value_eqb;
  set_iter := fun l => l
}.

(** The chunks of [l] of length [n], the last one shorter: what paging
    through [l] with [LIMIT n] returns. *)
Fixpoint chunks (fuel : nat) (n : nat) (l : list dict) : list (list dict) :=
  match fuel with
  | O => []
  | S fuel' =>
      match l with
      | [] => []
      | _ => firstn n l :: chunks fuel' n (skipn n l)
      end
  end.

(** What the MongoDB calls leave alone in the world. *)
Definition same_postgres (w w' : world) : Prop :=
  connected w' = connected w /\ pg w' = pg w /\ page_log w' = page_log w.



Definition initial_state {H} (h : H) (w : world) : state H world :=
  mk_state h w 0 [].

End memdb.

(* ===================================================================== *)
(** ** Example data *)
(* ===================================================================== *)

Module examples.

Import memdb.
Local Open Scope list_scope.

(** A table of two users, stored out of key order. *)
Definition users : pg_table :=
  mk_pg_table ["id"; "name"; "_sync_updated_at"] (Some "id")
    [ [("id", VInt 2); ("name", VStr "Bob"); ("_sync_updated_at", VNone)];
      [("id", VInt 1); ("name", VStr "Ann"); ("_sync_updated_at", VNone)] ].

(** PostgreSQL holds [users], MongoDB is empty. *)
Definition w0 : world := mk_world true [("users", users)] [] 0 [].

Definition ann : dict := [("id", VInt 1); ("name", VStr "Ann")].

Definition stats0 : sync.SyncStats :=
  sync.mk_SyncStats "" "" (Naive 0) None 0 0 0 0 [].

Definition users_config : sync.table_config :=
  sync.mk_table_config "users" "users" "id".

Definition latest_wins_sync : sync.DataSync :=
  sync.mk_DataSync (sync.mk_ConflictResolver "latest_wins") 1000 "postgres_to_mongo".

(** Two versions of record 42 that differ in [name] and carry the same
    [updated_at]. *)
Definition pg_42 : dict :=
  [("id", VInt 42); ("name", VStr "Ann"); ("updated_at", VDatetime (Aware 5))].

Definition mongo_42 : dict :=
  [("id", VInt 42); ("name", VStr "Anna"); ("updated_at", VDatetime (Aware 5))].

Definition engine_stats0 : sync_engine.SyncStats :=
  sync_engine.mk_SyncStats (Naive 0) 0 0 0 0.

Definition latest_wins_config : sync_engine.Config :=
  sync_engine.mk_Config "latest_wins" "bidirectional" 1000.

Definition manual_config : sync_engine.Config :=
  sync_engine.mk_Config "manual" "bidirectional" 1000.

Definition users_mapping : sync_engine.TableMapping :=
  sync_engine.mk_TableMapping "users" "users" "id" None None.

(** One run of [sync_postgres_to_mongo] over [users] into the empty
    collection. *)
Definition run_users : result sync.SyncStats * state sync.SyncStats world :=
  sync.sync_postgres_to_mongo 10 latest_wins_sync users_config (initial_state stats0 w0).

Definition run_users_stats : sync.SyncStats :=
  match fst run_users with Ok st => st | _ => stats0 end.

(** Scenario C: record 42 is on both sides under different names. *)
Definition w_conflict : world :=
  mk_world true
    [("users", mk_pg_table ["id"; "name"; "updated_at"] (Some "id") [pg_42])]
    [("users", [("_id", object_id 0) :: mongo_42])] 1 [].

(** The two passes of the baseline engine over [users], one after the
    other: PostgreSQL to MongoDB, then MongoDB to PostgreSQL. *)
Definition baseline_pass1
  : result sync_engine.SyncStats * state sync_engine.SyncStats world :=
  sync_engine.sync_once 10 (sync_engine.mk_Config "latest_wins" "pg_to_mongo" 1000)
    [users_mapping] (initial_state engine_stats0 w0).

Definition baseline_pass2
  : result sync_engine.SyncStats * state sync_engine.SyncStats world :=
  sync_engine.sync_once 10 (sync_engine.mk_Config "latest_wins" "mongo_to_pg" 1000)
    [users_mapping] (snd baseline_pass1).

(** A cycle of [DataSync.sync] of datasync/datasync/sync.py over two
    mappings, the first of which names a table that does not exist. *)
Definition locals0 : datasync_sync.locals :=
  datasync_sync.mk_locals
    (datasync_sync.mk_sync_stats "" (Naive 0) [] 0 None)
    (datasync_sync.mk_table_stats 0 0).

Definition ghost_then_users : datasync_sync.sync_config :=
  datasync_sync.mk_sync_config "postgres_to_mongo"
    [datasync_sync.mk_mapping "ghost" "ghost"; datasync_sync.mk_mapping "users" "users"]
    1000.

Definition users_alone : datasync_sync.sync_config :=
  datasync_sync.mk_sync_config "postgres_to_mongo"
    [datasync_sync.mk_mapping "users" "users"] 1000.

Definition run_ghost_then_users
  : result datasync_sync.sync_stats * state datasync_sync.locals world :=
  datasync_sync.sync 10 ghost_then_users (initial_state locals0 w0).

Definition run_users_alone
  : result datasync_sync.sync_stats * state datasync_sync.locals world :=
  datasync_sync.sync 10 users_alone (initial_state locals0 w0).

(** The same two mappings for the baseline engine. *)
Definition ghost_mapping : sync_engine.TableMapping :=
  sync_engine.mk_TableMapping "ghost" "ghost" "id" None None.

Definition pg_to_mongo_config : sync_engine.Config :=
  sync_engine.mk_Config "latest_wins" "pg_to_mongo" 1000.

(** Scenario D: a table of 2,500 rows, numbered from [first] on. *)
Fixpoint numbered (first : Z) (n : nat) : list dict :=
  match n with
  | O => []
  | S n' => [("id", VInt first); ("name", VStr "row")] :: numbered (first + 1) n'
  end.

Definition big_table : pg_table :=
  mk_pg_table ["id"; "name"] (Some "id") (numbered 1 2500).

Definition w_big : world := mk_world true [("big", big_table)] [] 0 [].

Definition big_config : sync.table_config := sync.mk_table_config "big" "big" "id".

Definition run_big : result sync.SyncStats * state sync.SyncStats world :=
  sync.sync_postgres_to_mongo 2501 latest_wins_sync big_config (initial_state stats0 w_big).

End examples.

(* ===================================================================== *)
(** ** datasync/sync.py, continued: the way back to PostgreSQL *)
(* ===================================================================== *)

Module sync_rest.

Import sync.
Local Open Scope list_scope.

(** The documents a pymongo cursor yields, one call of [next] at a time:
    [cursor_next c n i] is the [i]-th call on [db[c].find().batch_size(n)],
    which yields a document, ends the iteration ([None]) or raises. *)
Class Cursor (W : Type) : Type := {
  cursor_next : string -> Z -> nat -> W -> result (option dict) * W
}.

(** An invariant of the objects of the call is kept by [m]. *)
Definition keeps {H W A} (I : H -> Prop) (m : M H W A) : Prop :=
  forall s, I (heap s) -> I (heap (snd (m s))).

(** The body of the loop of [_convert_mongo_to_pg]. *)
Definition mongo_to_pg_item (converted : dict) (kv : string * value) : dict :=
  if (fst kv =? "_id")%string then converted
  else dict_set converted (fst kv) (snd kv).

(** [DataSync._convert_mongo_to_pg] *)
Definition _convert_mongo_to_pg (doc : dict) : dict :=
  fold_left mongo_to_pg_item doc [].

Section Engine.
Context {RT : Runtime} {W : Type} `{Store W} `{Cursor W}.
Local Open Scope eff_scope.

Local Notation "'Eng'" := (M SyncStats W).

Definition add_row_updated (st : SyncStats) : SyncStats :=
  add_updated (add_processed 1 st).

(** The [for row in rows] loop of [_upsert_pg_batch]; [columns] are the keys
    of the first row. *)
Fixpoint upsert_rows (table primary_key : string) (columns : list string)
         (rows : list dict) : Eng unit :=
  match rows with
  | [] => ret tt
  | row :: rest =>
      let values := map (fun c => (c, dict_get row c)) columns in
      try_except
        (call (execute (InsertOnConflictUpdate table primary_key values)) ;;;
         modify_heap add_row_updated)
        (fun e =>
           modify_heap (append_error ("Row {row.get(primary_key)}: {e}",
                                      [FVal (dict_get row primary_key); FExn e]))) ;;;
      upsert_rows table primary_key columns rest
  end.

(** [DataSync._upsert_pg_batch] *)
Definition _upsert_pg_batch (table : string) (rows : list dict) (primary_key : string)
  : Eng unit :=
  match rows with
  | [] => ret tt
  | first :: _ =>
      db.cursor (upsert_rows table primary_key (dict_keys first) rows)
  end.

(** The [for doc in cursor] loop of [sync_mongo_to_postgres]; it returns the
    batch that is left when the cursor ends. *)
Fixpoint cursor_loop (fuel : nat) (self : DataSync) (tc : table_config)
         (i : nat) (batch : list dict) : Eng (list dict) :=
  match fuel with
  | O => diverge
  | S fuel' =>
      next <- call (cursor_next (collection tc) (batch_size self) i) ;;
      match next with
      | None => ret batch
      | Some doc =>
          let row := _convert_mongo_to_pg doc in
          let batch := batch ++ [row] in
          if batch_size self <=? Z.of_nat (List.length batch) then
            _upsert_pg_batch (name tc) batch (primary_key tc) ;;;
            cursor_loop fuel' self tc (S i) []
          else cursor_loop fuel' self tc (S i) batch
      end
  end.

(** [DataSync.sync_mongo_to_postgres]; [Cursor.batch_size] refuses a
    negative size. *)
Definition sync_mongo_to_postgres (fuel : nat) (self : DataSync) (tc : table_config)
  : Eng SyncStats :=
  t0 <- now_utc ;;
  modify_heap (fun _ => mk_SyncStats (name tc) "mongo_to_postgres" t0 None 0 0 0 0 []) ;;;
  logger INFO "Syncing MongoDB:{collection_name} -> PostgreSQL:{table_name}"
         [FStr (collection tc); FStr (name tc)] ;;;
  try_except
    (db.mongo_db ;;;
     total_docs <- call (count_documents (collection tc)) ;;
     logger INFO "Total documents to process: {total_docs}" [FInt total_docs] ;;;
     (if batch_size self <? 0
      then raise (ValueError "batch_size must be >= 0") else ret tt) ;;;
     batch <- cursor_loop fuel self tc 0 [] ;;
     match batch with
     | [] => ret tt
     | _ => _upsert_pg_batch (name tc) batch (primary_key tc)
     end)
    (fun e =>
       logger ERROR "Error syncing {collection_name}: {e}" [FStr (collection tc); FExn e] ;;;
       modify_heap (append_error ("Error syncing {collection_name}: {e}",
                                  [FStr (collection tc); FExn e]))) ;;;
  t1 <- now_utc ;;
  modify_heap (set_completed_at t1) ;;;
  st <- get_heap ;;
  logger INFO "Completed {collection_name}: {stats.rows_inserted} inserted, {stats.rows_updated} updated, {stats.rows_skipped} skipped"
         [FStr (collection tc); FInt (rows_inserted st); FInt (rows_updated st);
          FInt (rows_skipped st)] ;;;
  ret st.

Definition in_list (s : string) (l : list string) : bool := existsb (String.eqb s) l.

(** [DataSync.sync_table] *)
Definition sync_table (fuel : nat) (self : DataSync) (tc : table_config)
  : Eng (list SyncStats) :=
  all_stats <-
    (if in_list (ds_direction self) ["postgres_to_mongo"; "bidirectional"]
     then stats <- sync_postgres_to_mongo fuel self tc ;; ret [stats]
     else ret []) ;;
  if in_list (ds_direction self) ["mongo_to_postgres"; "bidirectional"]
  then stats <- sync_mongo_to_postgres fuel self tc ;; ret (all_stats ++ [stats])
  else ret all_stats.

End Engine.

End sync_rest.

(* ===================================================================== *)
(** ** sequential sync_engine.py, continued *)
(* ===================================================================== *)

Module seq_rest.

Import seq_sync_engine.

Section Resolve.
(** [a > b] for two values that are not both datetimes, as Python decides
    it. *)
Variable py_gt : value -> value -> result bool.

(** [pg_time > mongo_time] *)
Definition value_gt (a b : value) : result bool :=
  match a, b with
  | VDatetime x, VDatetime y => datetime_gt x y
  | _, _ => py_gt a b
  end.

(** [SyncEngine._resolve_conflict] *)
Definition _resolve_conflict (config : SyncConfig) (pg_record mongo_doc : dict)
  : result string :=
  let strategy := conflict_resolution config in
  if (strategy =? "postgres_priority")%string then Ok "postgres"
  else if (strategy =? "mongo_priority")%string then Ok "mongo"
  else
    let pg_time := py_or (dict_get pg_record "updated_at") (dict_get pg_record "created_at") in
    let mongo_time := py_or (dict_get mongo_doc "_sync_at") (dict_get mongo_doc "updated_at") in
    if truthy pg_time && truthy mongo_time then
      match value_gt pg_time mongo_time with
      | Ok b => Ok (if b then "postgres" else "mongo")
      | Raise e => Raise e
      | Diverge => Diverge
      end
    else if truthy pg_time then Ok "postgres"
    else if truthy mongo_time then Ok "mongo"
    else Ok "postgres".

End Resolve.

End seq_rest.

(* ===================================================================== *)
(** ** More example data *)
(* ===================================================================== *)

Module more_examples.

Import memdb.
Local Open Scope list_scope.

(** The in-memory cursor: the [i]-th document of the collection. *)
#[export] Instance mem_cursor : sync_rest.Cursor world := {
  sync_rest.cursor_next := fun c _ i w => (Ok (nth_error (collection_of w c) i), w)
}.

(** Three users stamped with an aware [updated_at], and a collection that
    holds the second of them with a naive one. *)
Definition stamped (id : Z) (name : string) (t : datetime) : dict :=
  [("id", VInt id); ("name", VStr name); ("updated_at", VDatetime t)].






End more_examples.

(* ===================================================================== *)
(** * Properties *)
(* ===================================================================== *)

Import memdb.
Local Open Scope list_scope.

(** ** The conflict resolvers *)

Lemma datetime_ge_naive x y : datetime_ge (Naive x) (Naive y) = Ok (y <=? x).
Proof. reflexivity. Qed.

Lemma datetime_ge_aware x y : datetime_ge (Aware x) (Aware y) = Ok (y <=? x).
Proof. reflexivity. Qed.

Lemma in_STRATEGIES_latest_wins : sync.in_STRATEGIES "latest_wins" = true.
Proof. reflexivity. Qed.

(** [resolve] under [latest_wins] with a target present, by the timestamps
    [_get_timestamp] finds. *)
Lemma resolve_latest_wins {RT : Runtime} self source target source_type :
  sync.strategy self = "latest_wins" ->
  sync.resolve self source (Some target) source_type =
  match sync._get_timestamp source, sync._get_timestamp target with
  | None, None => Ok (Some source)
  | None, Some _ => Ok None
  | Some _, None => Ok (Some source)
  | Some s, Some t =>
      match datetime_ge s t with
      | Ok b => Ok (if b then Some source else None)
      | Raise e => Raise e
      | Diverge => Diverge
      end
  end.
Proof.
  intros Hs. unfold sync.resolve. rewrite Hs. reflexivity.
Qed.

(** C6: a strategy name outside [STRATEGIES] does not make the constructor
    raise; it logs one warning and builds the very resolver that
    ['latest_wins'] builds, so every later [resolve] answers as under
    [latest_wins]. *)
Theorem C6_unknown_strategy_falls_back :
  forall (RT : Runtime) (H W : Type) (name : string) (s : state H W),
    sync.in_STRATEGIES name = false ->
    exists r,
      sync.ConflictResolver_init name s =
        (Ok r, mk_state (heap s) (store s) (clock s)
                 (logs s ++ [mk_log WARNING
                               "Unknown strategy '{strategy}', using 'latest_wins'"
                               [FStr name]]))
      /\ fst (sync.ConflictResolver_init "latest_wins" s) = Ok r
      /\ sync.strategy r = "latest_wins"
      /\ forall source target source_type,
           sync.resolve r source target source_type =
           sync.resolve (sync.mk_ConflictResolver "latest_wins") source target source_type.
Proof.
  intros RT H W name s Hname.
  exists (sync.mk_ConflictResolver "latest_wins").
  unfold sync.ConflictResolver_init. rewrite Hname. cbn.
  repeat split.
Qed.

Lemma C6_unknown_strategy_falls_back_witness :
  sync.in_STRATEGIES "manual" = false
  /\ exists r,
      sync.ConflictResolver_init "manual" (initial_state tt examples.w0) =
        (Ok r, mk_state tt examples.w0 0
                 [mk_log WARNING "Unknown strategy '{strategy}', using 'latest_wins'"
                         [FStr "manual"]])
      /\ fst (sync.ConflictResolver_init "latest_wins" (initial_state tt examples.w0)) = Ok r
      /\ sync.strategy r = "latest_wins"
      /\ forall source target source_type,
           sync.resolve r source target source_type =
           sync.resolve (sync.mk_ConflictResolver "latest_wins") source target source_type.
Proof.
  split; [reflexivity|].
  apply (C6_unknown_strategy_falls_back example_runtime unit world "manual"
           (initial_state tt examples.w0)).
  reflexivity.
Defined.

Lemma datetime_ge_same_kind a b :
  same_kind a b = true -> datetime_ge a b = Ok (instant b <=? instant a).
Proof. destruct a, b; cbn; intros Hk; try discriminate; reflexivity. Qed.

(** What [_get_timestamp] reads: the datetime under the one timestamp field
    a document has, and nothing from a document that has none of the five
    fields. *)
Lemma get_timestamp_only_field {RT : Runtime} doc field t :
  In field sync.timestamp_fields ->
  dict_lookup doc field = Some (VDatetime t) ->
  (forall f, In f sync.timestamp_fields -> f <> field -> dict_lookup doc f = None) ->
  sync._get_timestamp doc = Some t.
Proof.
  intros Hin Hl Hothers.
  unfold sync._get_timestamp.
  assert (Hgen : forall fields,
             (forall f, In f fields -> In f sync.timestamp_fields) ->
             In field fields ->
             sync.get_timestamp_from fields doc = Some t).
  { induction fields as [|f fields IH]; intros Hsub Hf; [contradiction|].
    cbn [sync.get_timestamp_from].
    destruct (string_dec f field) as [->|Hne].
    - now rewrite Hl.
    - rewrite (Hothers f (Hsub f (or_introl eq_refl)) Hne).
      apply IH; [intros f' Hf'; apply Hsub; now right|].
      destruct Hf as [Heq|Hf]; [contradiction | exact Hf]. }
  apply Hgen; auto.
Qed.

Lemma get_timestamp_no_field {RT : Runtime} doc :
  (forall f, In f sync.timestamp_fields -> dict_lookup doc f = None) ->
  sync._get_timestamp doc = None.
Proof.
  intros Hnone. unfold sync._get_timestamp.
  assert (Hgen : forall fields,
             (forall f, In f fields -> In f sync.timestamp_fields) ->
             sync.get_timestamp_from fields doc = None).
  { induction fields as [|f fields IH]; intros Hsub; [reflexivity|].
    cbn [sync.get_timestamp_from].
    rewrite (Hnone f (Hsub f (or_introl eq_refl))).
    apply IH. intros f' Hf'. apply Hsub. now right. }
  apply Hgen; auto.
Qed.

Lemma datetime_ge_mixed a b :
  same_kind a b = false ->
  datetime_ge a b = Raise (TypeError "can't compare offset-naive and offset-aware datetimes").
Proof. destruct a, b; cbn; intros Hk; try discriminate; reflexivity. Qed.

(** The claim of C1 fails for a pair of records one of whose timestamps is
    aware and the other naive: user 2 with an aware [updated_at] of 5 in
    PostgreSQL and a naive one of 3 in MongoDB.  Both carry a timestamp and
    the PostgreSQL one is the later, yet neither resolver names a winner:
    the comparison raises [TypeError].  And in [_resolve_conflict] a record
    whose [updated_at] is the text ['yesterday'] carries no timestamp, yet
    the record that carries one does not win: the parse raises
    [ValueError]. *)
Lemma C1_counterexample :
  let pg_row := more_examples.stamped 2 "Bob" (Aware 5) in
  let mongo_doc := more_examples.stamped 2 "Bob" (Naive 3) in
  let s := initial_state examples.engine_stats0 examples.w0 in
  sync._get_timestamp pg_row = Some (Aware 5)
  /\ sync._get_timestamp mongo_doc = Some (Naive 3)
  /\ sync.resolve (sync.mk_ConflictResolver "latest_wins") pg_row (Some mongo_doc) "postgres"
     = Raise (TypeError "can't compare offset-naive and offset-aware datetimes")
  /\ sync_engine._resolve_conflict examples.latest_wins_config pg_row mongo_doc (VInt 2) s
     = (Raise (TypeError "can't compare offset-naive and offset-aware datetimes"), s)
  /\ sync_engine._resolve_conflict examples.latest_wins_config pg_row
       [("id", VInt 2); ("updated_at", VStr "yesterday")] (VInt 2) s
     = (Raise (ValueError "Invalid isoformat string"), s).
Proof. vm_compute. repeat split. Qed.

(** C1, amended.  Under [latest_wins], in [SyncEngine._resolve_conflict]
    (side_a is the PostgreSQL row; a record carries a timestamp when its
    [_sync_updated_at] or else its [updated_at] is a true value) and in
    [ConflictResolver.resolve] (side_a is the source document, [None]
    leaves the target in place; the timestamp is what [_get_timestamp]
    reads from the timestamp fields): when both records carry a timestamp
    and the two are both naive or both aware, the later one wins and a tie
    goes to side_a; when one of the two is naive and the other aware the
    comparison raises [TypeError] and there is no winner; in
    [_resolve_conflict] a true value that is no datetime and does not parse
    raises [ValueError]; when one record carries a timestamp that record
    wins; when neither does side_a wins; and the outcome is a function of
    the two records alone, the state of the engine neither read nor
    changed. *)
Theorem C1_latest_wins :
  forall (RT : Runtime),
    (forall (W : Type) (St : Store W) (cfg : sync_engine.Config)
            (pg_row mongo_doc : dict) (key : value)
            (s : state sync_engine.SyncStats W),
        sync_engine.conflict_resolution cfg = "latest_wins" ->
        let pg_updated :=
          py_or (dict_get pg_row "_sync_updated_at") (dict_get pg_row "updated_at") in
        let mongo_updated :=
          py_or (dict_get mongo_doc "_sync_updated_at") (dict_get mongo_doc "updated_at") in
        (forall ta tb,
            truthy pg_updated = true -> truthy mongo_updated = true ->
            sync_engine.as_datetime pg_updated = Ok ta ->
            sync_engine.as_datetime mongo_updated = Ok tb ->
            same_kind ta tb = true ->
            sync_engine._resolve_conflict cfg pg_row mongo_doc key s =
            (Ok (if instant tb <=? instant ta
                 then ("pg", pg_row) else ("mongo", mongo_doc)), s))
        /\ (forall ta tb,
            truthy pg_updated = true -> truthy mongo_updated = true ->
            sync_engine.as_datetime pg_updated = Ok ta ->
            sync_engine.as_datetime mongo_updated = Ok tb ->
            same_kind ta tb = false ->
            sync_engine._resolve_conflict cfg pg_row mongo_doc key s =
            (Raise (TypeError "can't compare offset-naive and offset-aware datetimes"), s))
        /\ (forall e,
            truthy pg_updated = true -> truthy mongo_updated = true ->
            sync_engine.as_datetime pg_updated = Raise e ->
            sync_engine._resolve_conflict cfg pg_row mongo_doc key s = (Raise e, s))
        /\ (forall ta e,
            truthy pg_updated = true -> truthy mongo_updated = true ->
            sync_engine.as_datetime pg_updated = Ok ta ->
            sync_engine.as_datetime mongo_updated = Raise e ->
            sync_engine._resolve_conflict cfg pg_row mongo_doc key s = (Raise e, s))
        /\ (truthy pg_updated = true -> truthy mongo_updated = false ->
            sync_engine._resolve_conflict cfg pg_row mongo_doc key s =
            (Ok ("pg", pg_row), s))
        /\ (truthy pg_updated = false -> truthy mongo_updated = true ->
            sync_engine._resolve_conflict cfg pg_row mongo_doc key s =
            (Ok ("mongo", mongo_doc), s))
        /\ (truthy pg_updated = false -> truthy mongo_updated = false ->
            sync_engine._resolve_conflict cfg pg_row mongo_doc key s =
            (Ok ("pg", pg_row), s))
        /\ (forall s' : state sync_engine.SyncStats W,
               fst (sync_engine._resolve_conflict cfg pg_row mongo_doc key s) =
               fst (sync_engine._resolve_conflict cfg pg_row mongo_doc key s')))
    /\ (forall d, sync_engine.as_datetime (VDatetime d) = Ok d)
    /\ (forall s,
          sync_engine.as_datetime (VStr s)
          = match fromisoformat (py_str (VStr s)) with
            | Some d => Ok d
            | None => Raise (ValueError "Invalid isoformat string")
            end)
    /\
    (forall (self : sync.ConflictResolver) (source target : dict) (source_type : string),
        sync.strategy self = "latest_wins" ->
        (forall ts tt,
            sync._get_timestamp source = Some ts ->
            sync._get_timestamp target = Some tt ->
            same_kind ts tt = true ->
            sync.resolve self source (Some target) source_type =
            Ok (if instant tt <=? instant ts then Some source else None))
        /\ (forall ts tt,
            sync._get_timestamp source = Some ts ->
            sync._get_timestamp target = Some tt ->
            same_kind ts tt = false ->
            sync.resolve self source (Some target) source_type =
            Raise (TypeError "can't compare offset-naive and offset-aware datetimes"))
        /\ (forall ts,
            sync._get_timestamp source = Some ts ->
            sync._get_timestamp target = None ->
            sync.resolve self source (Some target) source_type = Ok (Some source))
        /\ (forall tt,
            sync._get_timestamp source = None ->
            sync._get_timestamp target = Some tt ->
            sync.resolve self source (Some target) source_type = Ok None)
        /\ (sync._get_timestamp source = None ->
            sync._get_timestamp target = None ->
            sync.resolve self source (Some target) source_type = Ok (Some source)))
    /\
    (forall (doc : dict),
        (forall field t,
            In field sync.timestamp_fields ->
            dict_lookup doc field = Some (VDatetime t) ->
            (forall f, In f sync.timestamp_fields -> f <> field ->
                       dict_lookup doc f = None) ->
            sync._get_timestamp doc = Some t)
        /\ ((forall f, In f sync.timestamp_fields -> dict_lookup doc f = None) ->
            sync._get_timestamp doc = None)).
Proof.
  intros RT. split; [|split; [|split; [|split]]].
  - intros W St cfg pg_row mongo_doc key s Hs pg_updated mongo_updated.
    unfold sync_engine._resolve_conflict, sync_engine.SYNC_METADATA_FIELD.
    rewrite Hs. cbn [String.eqb Ascii.eqb Bool.eqb].
    fold pg_updated mongo_updated.
    split; [|split; [|split; [|split; [|split; [|split; [|split]]]]]].
    + intros ta tb Ha Hb Hta Htb Hk.
      rewrite Ha, Hb. cbn [andb].
      unfold bind, lift. rewrite Hta, Htb, (datetime_ge_same_kind _ _ Hk).
      destruct (instant tb <=? instant ta); reflexivity.
    + intros ta tb Ha Hb Hta Htb Hk.
      rewrite Ha, Hb. cbn [andb].
      unfold bind, lift. rewrite Hta, Htb, (datetime_ge_mixed _ _ Hk). reflexivity.
    + intros e Ha Hb Hta. rewrite Ha, Hb. cbn [andb].
      unfold bind, lift. rewrite Hta. reflexivity.
    + intros ta e Ha Hb Hta Htb. rewrite Ha, Hb. cbn [andb].
      unfold bind, lift. rewrite Hta, Htb. reflexivity.
    + intros Ha Hb. rewrite Ha, Hb. reflexivity.
    + intros Ha Hb. rewrite Ha, Hb. reflexivity.
    + intros Ha Hb. rewrite Ha, Hb. reflexivity.
    + intros s'.
      destruct (truthy pg_updated), (truthy mongo_updated); cbn [andb]; try reflexivity.
      unfold bind, lift.
      destruct (sync_engine.as_datetime pg_updated); try reflexivity.
      destruct (sync_engine.as_datetime mongo_updated); try reflexivity.
      destruct (datetime_ge a a0) as [[|]| |]; reflexivity.
  - reflexivity.
  - reflexivity.
  - intros self source target source_type Hs.
    rewrite (resolve_latest_wins _ _ _ _ Hs).
    split; [|split; [|split; [|split]]].
    + intros ts tt Hts Htt Hk. rewrite Hts, Htt, (datetime_ge_same_kind _ _ Hk).
      reflexivity.
    + intros ts tt Hts Htt Hk. rewrite Hts, Htt, (datetime_ge_mixed _ _ Hk).
      reflexivity.
    + intros ts Hts Htt. rewrite Hts, Htt. reflexivity.
    + intros tt Hts Htt. rewrite Hts, Htt. reflexivity.
    + intros Hts Htt. rewrite Hts, Htt. reflexivity.
  - intros doc. split.
    + intros field t. apply get_timestamp_only_field.
    + apply get_timestamp_no_field.
Qed.

Lemma C1_latest_wins_witness :
  sync_engine._resolve_conflict examples.latest_wins_config
    examples.pg_42 examples.mongo_42 (VInt 42)
    (initial_state examples.engine_stats0 examples.w0)
  = (Ok ("pg", examples.pg_42), initial_state examples.engine_stats0 examples.w0)
  /\ sync.resolve (sync.mk_ConflictResolver "latest_wins")
       examples.pg_42 (Some examples.mongo_42) "postgres"
     = Ok (Some examples.pg_42)
  /\ sync._get_timestamp examples.pg_42 = Some (Aware 5).
Proof.
  assert (Hts : forall name,
             sync._get_timestamp
               [("id", VInt 42); ("name", VStr name); ("updated_at", VDatetime (Aware 5))]
             = Some (Aware 5)).
  { intros name.
    apply (proj1 (proj2 (proj2 (proj2 (proj2 (C1_latest_wins example_runtime)))) _)
                 "updated_at" (Aware 5)).
    - now left.
    - reflexivity.
    - intros f Hf Hne. cbn in Hf.
      destruct Hf as [<-|[<-|[<-|[<-|[<-|[]]]]]]; first [congruence | reflexivity]. }
  split; [|split].
  - apply (proj1 (proj1 (C1_latest_wins example_runtime) world mem_store
                    examples.latest_wins_config examples.pg_42 examples.mongo_42
                    (VInt 42) (initial_state examples.engine_stats0 examples.w0)
                    eq_refl)
                 (Aware 5) (Aware 5));
      reflexivity.
  - apply (proj1 (proj1 (proj2 (proj2 (proj2 (C1_latest_wins example_runtime))))
                    (sync.mk_ConflictResolver "latest_wins")
                    examples.pg_42 examples.mongo_42 "postgres" eq_refl)
                 (Aware 5) (Aware 5));
      [apply (Hts "Ann") | apply (Hts "Anna") | reflexivity].
  - apply (Hts "Ann").
Defined.

(** ** Dictionaries *)

Lemma dict_lookup_set d k v k' :
  dict_lookup (dict_set d k v) k' =
  if (k =? k')%string then Some v else dict_lookup d k'.
Proof.
  induction d as [|[k0 v0] d IH]; cbn.
  - reflexivity.
  - destruct (String.eqb_spec k0 k) as [->|Hne]; cbn.
    + destruct (k =? k')%string; reflexivity.
    + rewrite IH.
      destruct (String.eqb_spec k0 k') as [->|Hne'].
      * destruct (String.eqb_spec k k'); [congruence | reflexivity].
      * reflexivity.
Qed.

Lemma dict_lookup_remove d k k' :
  dict_lookup (dict_remove d k) k' =
  if (k =? k')%string then None else dict_lookup d k'.
Proof.
  induction d as [|[k0 v0] d IH]; cbn.
  - destruct (k =? k')%string; reflexivity.
  - destruct (String.eqb_spec k0 k) as [->|Hne]; cbn.
    + rewrite IH. destruct (k =? k')%string; reflexivity.
    + rewrite IH.
      destruct (String.eqb_spec k0 k') as [->|Hne'].
      * destruct (String.eqb_spec k k'); [congruence | reflexivity].
      * reflexivity.
Qed.

Lemma dict_mem_lookup d k :
  dict_mem d k = true -> dict_lookup d k = Some (dict_get d k).
Proof.
  unfold dict_mem, dict_get. destruct (dict_lookup d k); [reflexivity | discriminate].
Qed.

Lemma dict_mem_false d k : dict_mem d k = false -> dict_lookup d k = None.
Proof.
  unfold dict_mem. destruct (dict_lookup d k); [discriminate | reflexivity].
Qed.

(** Case analysis on every comparison of keys in the goal. *)
Ltac key_cases :=
  repeat match goal with
         | |- context [(?a =? ?b)%string] =>
             destruct (String.eqb_spec a b); subst; try discriminate; try congruence
         | H : context [(?a =? ?b)%string] |- _ =>
             destruct (String.eqb_spec a b); subst; try discriminate; try congruence
         end.

(** Lookups through [dict_set] and [dict_remove], and the tests on them. *)
Ltac dict_crush :=
  repeat first
    [ rewrite dict_lookup_set
    | rewrite dict_lookup_remove
    | progress key_cases
    | progress cbv beta iota
    | match goal with
      | |- context [match dict_lookup ?d ?k with Some _ => _ | None => _ end] =>
          is_var d; destruct (dict_lookup d k) eqn:?
      end
    | congruence ].

(** ** The record converters *)

(** C3: a row that goes through [_convert_for_mongo] and back through
    [_convert_for_postgres] holds, under each of its original fields that
    is not reserved ([_id], [_sync_source], [_sync_at]), the value it held;
    this for values of any type. *)
Theorem C3_round_trip :
  forall (now : datetime) (R : dict) (pk_col field : string),
    dict_mem R field = true ->
    seq_sync_engine.reserved field = false ->
    dict_lookup
      (seq_sync_engine._convert_for_postgres
         (seq_sync_engine._convert_for_mongo now R pk_col) pk_col) field
    = dict_lookup R field.
Proof.
  intros now R pk_col field Hin Hres.
  unfold seq_sync_engine.reserved in Hres.
  apply orb_false_elim in Hres as [Hres H3].
  apply orb_false_elim in Hres as [H1 H2].
  unfold seq_sync_engine._convert_for_postgres, seq_sync_engine._convert_for_mongo.
  unfold dict_mem, dict_get in *.
  destruct (dict_lookup R field) as [v|] eqn:HR; [clear Hin | discriminate].
  destruct (String.eqb_spec pk_col "_id") as [->|Hpk]; cbn [negb andb];
    dict_crush.
Qed.

Lemma C3_round_trip_witness :
  dict_mem examples.ann "name" = true
  /\ seq_sync_engine.reserved "name" = false
  /\ dict_lookup
       (seq_sync_engine._convert_for_postgres
          (seq_sync_engine._convert_for_mongo (Naive 7) examples.ann "id") "id") "name"
     = dict_lookup examples.ann "name".
Proof.
  split; [reflexivity|]. split; [reflexivity|].
  apply (C3_round_trip (Naive 7) examples.ann "id" "name"); reflexivity.
Defined.

Lemma dict_lookup_not_in d k : ~ In k (dict_keys d) -> dict_lookup d k = None.
Proof.
  induction d as [|[k0 v0] d IH]; cbn; intros Hn.
  - reflexivity.
  - destruct (String.eqb_spec k0 k) as [->|Hne].
    + exfalso. apply Hn. now left.
    + apply IH. intros Hin. apply Hn. now right.
Qed.

Lemma dict_lookup_in d k : dict_lookup d k <> None -> In k (dict_keys d).
Proof.
  induction d as [|[k0 v0] d IH]; cbn; intros Hn.
  - congruence.
  - destruct (String.eqb_spec k0 k) as [->|Hne]; [now left | right; now apply IH].
Qed.

Lemma dict_keys_set d k v :
  forall k', In k' (dict_keys (dict_set d k v)) <-> k' = k \/ In k' (dict_keys d).
Proof.
  induction d as [|[k0 v0] d IH]; cbn; intros k'.
  - intuition.
  - destruct (String.eqb_spec k0 k) as [->|Hne]; cbn.
    + intuition.
    + rewrite IH. intuition.
Qed.

Lemma dict_set_NoDup d k v : NoDup (dict_keys d) -> NoDup (dict_keys (dict_set d k v)).
Proof.
  induction d as [|[k0 v0] d IH]; cbn; intros Hnd.
  - constructor; [intros [] | constructor].
  - inversion Hnd as [|? ? Hnin Hnd']; subst.
    destruct (String.eqb_spec k0 k) as [->|Hne]; cbn.
    + now constructor.
    + constructor; [|now apply IH].
      rewrite dict_keys_set. intros [->|Hin]; [congruence | contradiction].
Qed.

Lemma dict_in_lookup d k v :
  NoDup (dict_keys d) -> In (k, v) d -> dict_lookup d k = Some v.
Proof.
  induction d as [|[k0 v0] d IH]; cbn; intros Hnd Hin.
  - contradiction.
  - inversion Hnd as [|? ? Hnin Hnd']; subst.
    destruct Hin as [Heq|Hin].
    + inversion Heq; subst. now rewrite String.eqb_refl.
    + destruct (String.eqb_spec k0 k) as [->|Hne].
      * exfalso. apply Hnin. change k with (fst (k, v)). now apply in_map.
      * now apply IH.
Qed.

(** What [_convert_pg_to_mongo] of datasync/datasync/sync.py builds, field
    by field. *)
Lemma pg_to_mongo_fold_NoDup row acc :
  NoDup (dict_keys acc) ->
  NoDup (dict_keys (fold_left datasync_sync.pg_to_mongo_item row acc)).
Proof.
  revert acc. induction row as [|[k v] row IH]; cbn; intros acc Hnd.
  - assumption.
  - apply IH. apply dict_set_NoDup.
    destruct (k =? "id")%string; [now apply dict_set_NoDup | assumption].
Qed.

Lemma pg_to_mongo_fold_other row :
  forall acc k,
    k <> "_pg_id" ->
    NoDup (dict_keys row) ->
    dict_lookup (fold_left datasync_sync.pg_to_mongo_item row acc) k =
    match dict_lookup row k with
    | Some v => Some v
    | None => dict_lookup acc k
    end.
Proof.
  induction row as [|[k0 v0] row IH]; cbn; intros acc k Hk Hnd.
  - reflexivity.
  - inversion Hnd as [|? ? Hnin Hnd']; subst.
    rewrite (IH _ _ Hk Hnd').
    destruct (String.eqb_spec k0 k) as [->|Hne].
    + rewrite (dict_lookup_not_in _ _ Hnin).
      rewrite dict_lookup_set, String.eqb_refl. reflexivity.
    + destruct (dict_lookup row k); [reflexivity|].
      rewrite dict_lookup_set.
      destruct (String.eqb_spec k0 k); [congruence|].
      destruct (k0 =? "id")%string; [|reflexivity].
      rewrite dict_lookup_set.
      destruct (String.eqb_spec "_pg_id" k); [congruence | reflexivity].
Qed.

Lemma pg_to_mongo_fold_pg_id row :
  forall acc,
    NoDup (dict_keys row) ->
    dict_lookup row "_pg_id" = None ->
    dict_lookup (fold_left datasync_sync.pg_to_mongo_item row acc) "_pg_id" =
    match dict_lookup row "id" with
    | Some v => Some v
    | None => dict_lookup acc "_pg_id"
    end.
Proof.
  induction row as [|[k0 v0] row IH]; cbn; intros acc Hnd Hno.
  - reflexivity.
  - inversion Hnd as [|? ? Hnin Hnd']; subst.
    destruct (String.eqb_spec k0 "_pg_id") as [->|Hne]; [discriminate|].
    rewrite (IH _ Hnd' Hno).
    destruct (String.eqb_spec k0 "id") as [->|Hid].
    + rewrite (dict_lookup_not_in _ _ Hnin).
      rewrite !dict_lookup_set. reflexivity.
    + destruct (dict_lookup row "id"); [reflexivity|].
      rewrite dict_lookup_set.
      destruct (String.eqb_spec k0 "_pg_id"); [congruence | reflexivity].
Qed.

(** What [_convert_mongo_to_pg] leaves under [id]: the last value met under
    [_pg_id] or [id]. *)
Lemma mongo_to_pg_fold_id doc v :
  forall acc,
    (forall k x, In (k, x) doc -> k = "_pg_id" \/ k = "id" -> x = v) ->
    dict_lookup acc "id" = Some v \/
      (exists x, In ("_pg_id", x) doc \/ In ("id", x) doc) ->
    dict_lookup (fold_left datasync_sync.mongo_to_pg_item doc acc) "id" = Some v.
Proof.
  induction doc as [|[k0 v0] doc IH]; intros acc Hall Hex.
  - cbn. destruct Hex as [Hacc|[x [[]|[]]]]. exact Hacc.
  - cbn [fold_left]. apply IH.
    + intros k x Hin Hk. apply (Hall k x); [now right | exact Hk].
    + unfold datasync_sync.mongo_to_pg_item.
      destruct (String.eqb_spec k0 "_pg_id") as [->|Hne1].
      * left. cbn. rewrite dict_lookup_set. cbn.
        f_equal. apply (Hall "_pg_id"); [now left | now left].
      * destruct (String.eqb_spec k0 "id") as [->|Hne2].
        -- left. cbn. rewrite dict_lookup_set. cbn.
           f_equal. apply (Hall "id"); [now left | now right].
        -- destruct Hex as [Hacc|[x [Hin|Hin]]].
           ++ left. destruct (startswith_underscore k0); [exact Hacc|].
              rewrite dict_lookup_set.
              destruct (String.eqb_spec k0 "id"); [congruence | exact Hacc].
           ++ destruct Hin as [Heq|Hin]; [inversion Heq; congruence|].
              right. exists x. now left.
           ++ destruct Hin as [Heq|Hin]; [inversion Heq; congruence|].
              right. exists x. now right.
Qed.

Lemma dict_lookup_In d k v : dict_lookup d k = Some v -> In (k, v) d.
Proof.
  induction d as [|[k0 v0] d IH]; cbn; intros Hl.
  - discriminate.
  - destruct (String.eqb_spec k0 k) as [->|Hne].
    + inversion Hl; subst. now left.
    + right. now apply IH.
Qed.

(** The claim of C2 as the specification words it fails on
    [SyncEngine._convert_for_mongo]: the row [{id: 1, name: 'Ann'}] with
    primary key [id] becomes a document whose native identifier [_id] is
    written with the key, and no other field of which holds it. *)
Lemma C2_counterexample :
  let doc := seq_sync_engine._convert_for_mongo (Naive 0) examples.ann "id" in
  dict_lookup doc "_id" = Some (VInt 1)
  /\ dict_lookup doc "_pg_id" = None
  /\ forall side, side <> "_id" -> dict_lookup doc side <> Some (VInt 1).
Proof.
  split; [reflexivity|]. split; [reflexivity|].
  intros side Hside.
  set (d := seq_sync_engine._convert_for_mongo (Naive 0) examples.ann "id").
  vm_compute in d. subst d.
  cbv [dict_lookup].
  key_cases.
Qed.

(** C2, amended.  [DataSync._convert_pg_to_mongo] (primary key [id]) stores
    the key of a row under [_pg_id] and writes no [_id], for a row that has
    no column of either name; [SyncEngine._convert_for_mongo] moves the key
    into the native identifier [_id] itself.  In both engines the way back
    ([_convert_mongo_to_pg], also on the stored document with the [_id] the
    store gave it; [_convert_for_postgres]) puts the original key under the
    primary-key field again. *)
Theorem C2_key_preserved :
  (forall (now : datetime) (row : dict) (v : value),
      NoDup (dict_keys row) ->
      dict_lookup row "id" = Some v ->
      dict_lookup row "_pg_id" = None ->
      dict_lookup row "_id" = None ->
      let doc := datasync_sync._convert_pg_to_mongo now row in
      dict_lookup doc "_pg_id" = Some v
      /\ dict_lookup doc "_id" = None
      /\ (exists record,
             datasync_sync._convert_mongo_to_pg doc = Some record
             /\ dict_lookup record "id" = Some v)
      /\ (forall oid, exists record,
             datasync_sync._convert_mongo_to_pg (("_id", oid) :: doc) = Some record
             /\ dict_lookup record "id" = Some v))
  /\
  (forall (now : datetime) (row : dict) (pk_col : string) (v : value),
      pk_col <> "_sync_source" -> pk_col <> "_sync_at" ->
      dict_lookup row pk_col = Some v ->
      let doc := seq_sync_engine._convert_for_mongo now row pk_col in
      dict_lookup doc "_id" = Some v
      /\ dict_lookup (seq_sync_engine._convert_for_postgres doc pk_col) pk_col = Some v).
Proof.
  split.
  - intros now row v Hnd Hid Hpg Hnative doc.
    assert (Hdoc_pg : dict_lookup doc "_pg_id" = Some v).
    { unfold doc, datasync_sync._convert_pg_to_mongo.
      rewrite dict_lookup_set. cbn [String.eqb Ascii.eqb Bool.eqb].
      rewrite (pg_to_mongo_fold_pg_id _ _ Hnd Hpg), Hid. reflexivity. }
    assert (Hdoc_id : dict_lookup doc "id" = Some v).
    { unfold doc, datasync_sync._convert_pg_to_mongo.
      rewrite dict_lookup_set. cbn [String.eqb Ascii.eqb Bool.eqb].
      rewrite (pg_to_mongo_fold_other row [] "id"); [|discriminate|exact Hnd].
      rewrite Hid. reflexivity. }
    assert (Hdoc_nd : NoDup (dict_keys doc)).
    { unfold doc, datasync_sync._convert_pg_to_mongo.
      apply dict_set_NoDup, pg_to_mongo_fold_NoDup. constructor. }
    assert (Hback : dict_lookup (fold_left datasync_sync.mongo_to_pg_item doc []) "id"
                    = Some v).
    { apply mongo_to_pg_fold_id.
      - intros k x Hin [->| ->].
        + pose proof (dict_in_lookup _ _ _ Hdoc_nd Hin). congruence.
        + pose proof (dict_in_lookup _ _ _ Hdoc_nd Hin). congruence.
      - right. exists v. right. now apply dict_lookup_In. }
    assert (Hsome : exists record,
               datasync_sync._convert_mongo_to_pg doc = Some record
               /\ dict_lookup record "id" = Some v).
    { unfold datasync_sync._convert_mongo_to_pg.
      destruct (fold_left datasync_sync.mongo_to_pg_item doc []) as [|e r] eqn:Hf.
      - discriminate.
      - exists (e :: r). split; [reflexivity | exact Hback]. }
    split; [exact Hdoc_pg|].
    split.
    { unfold doc, datasync_sync._convert_pg_to_mongo.
      rewrite dict_lookup_set. cbn [String.eqb Ascii.eqb Bool.eqb].
      rewrite (pg_to_mongo_fold_other row [] "_id"); [|discriminate|exact Hnd].
      rewrite Hnative. reflexivity. }
    split; [exact Hsome|].
    intros oid. exact Hsome.
  - intros now row pk_col v Hs1 Hs2 Hpk doc. unfold doc.
    unfold seq_sync_engine._convert_for_postgres, seq_sync_engine._convert_for_mongo.
    unfold dict_mem, dict_get.
    rewrite Hpk.
    destruct (String.eqb_spec pk_col "_id") as [->|Hne]; cbn [negb andb].
    + split; dict_crush.
    + split; dict_crush.
Qed.

(** ** Reasoning about runs *)

Section Wp.
Context {H W : Type}.

Lemma wp_run {A} (m : M H W A) Q s r s' :
  m s = (r, s') -> wp m Q s -> Q r s'.
Proof. unfold wp. intros ->. auto. Qed.

Lemma wp_mono {A} (m : M H W A) (P Q : result A -> state H W -> Prop) s :
  (forall r s', P r s' -> Q r s') -> wp m P s -> wp m Q s.
Proof. unfold wp. auto. Qed.

Lemma wp_ret {A} (a : A) (Q : result A -> state H W -> Prop) s :
  Q (Ok a) s -> wp (ret a) Q s.
Proof. auto. Qed.

Lemma wp_raise {A} e (Q : result A -> state H W -> Prop) s :
  Q (Raise e) s -> wp (raise e) Q s.
Proof. auto. Qed.

Lemma wp_diverge {A} (Q : result A -> state H W -> Prop) s :
  Q Diverge s -> wp diverge Q s.
Proof. auto. Qed.

Lemma wp_lift {A} (r : result A) (Q : result A -> state H W -> Prop) s :
  Q r s -> wp (lift r) Q s.
Proof. auto. Qed.

Lemma wp_bind {A B} (m : M H W A) (k : A -> M H W B) Q s :
  wp m (fun r s1 =>
          match r with
          | Ok a => wp (k a) Q s1
          | Raise e => Q (Raise e) s1
          | Diverge => Q Diverge s1
          end) s ->
  wp (bind m k) Q s.
Proof.
  unfold wp, bind. destruct (m s) as [[a|e|] s1]; cbn; auto.
Qed.

Lemma wp_try_except {A} (body : M H W A) handler Q s :
  wp body (fun r s1 =>
             match r with
             | Raise e => wp (handler e) Q s1
             | _ => Q r s1
             end) s ->
  wp (try_except body handler) Q s.
Proof.
  unfold wp, try_except. destruct (body s) as [[a|e|] s1]; cbn; auto.
Qed.

Lemma wp_try_finally {A} (body : M H W A) final Q s :
  wp body (fun r s1 =>
             wp final (fun r' s2 =>
                         match r, r' with
                         | Diverge, _ => True
                         | _, Raise e' => Q (Raise e') s2
                         | _, Diverge => Q Diverge s2
                         | _, Ok _ => Q r s2
                         end) s1
             /\ (r = Diverge -> Q Diverge s1)) s ->
  wp (try_finally body final) Q s.
Proof.
  unfold wp, try_finally. destruct (body s) as [[a|e|] s1]; cbn.
  - intros [Hf _]. destruct (final s1) as [[[]|e'|] s2]; cbn in *; auto.
  - intros [Hf _]. destruct (final s1) as [[[]|e'|] s2]; cbn in *; auto.
  - intros [_ Hd]. auto.
Qed.

Lemma wp_get_heap (Q : result H -> state H W -> Prop) s :
  Q (Ok (heap s)) s -> wp get_heap Q s.
Proof. auto. Qed.

Lemma wp_modify_heap f (Q : result unit -> state H W -> Prop) s :
  Q (Ok tt) (mk_state (f (heap s)) (store s) (clock s) (logs s)) ->
  wp (modify_heap f) Q s.
Proof. auto. Qed.

Lemma wp_logger l msg args (Q : result unit -> state H W -> Prop) s :
  Q (Ok tt) (mk_state (heap s) (store s) (clock s) (logs s ++ [mk_log l msg args])) ->
  wp (logger l msg args) Q s.
Proof. auto. Qed.

Lemma wp_now_utc (Q : result datetime -> state H W -> Prop) s :
  Q (Ok (Aware (clock s))) (mk_state (heap s) (store s) (clock s + 1) (logs s)) ->
  wp now_utc Q s.
Proof. auto. Qed.

Lemma wp_utcnow (Q : result datetime -> state H W -> Prop) s :
  Q (Ok (Naive (clock s))) (mk_state (heap s) (store s) (clock s + 1) (logs s)) ->
  wp utcnow Q s.
Proof. auto. Qed.

Lemma wp_call {A} (op : W -> result A * W) (Q : result A -> state H W -> Prop) s :
  (forall r w, op (store s) = (r, w) -> Q r (mk_state (heap s) w (clock s) (logs s))) ->
  wp (call op) Q s.
Proof.
  unfold wp, call. intros HQ. destruct (op (store s)) as [r w] eqn:E. cbn. auto.
Qed.

Lemma wp_keeps_heap {A} (m : M H W A) (Q : result A -> state H W -> Prop) s :
  keeps_heap m ->
  (forall r s', heap s' = heap s -> Q r s') ->
  wp m Q s.
Proof. unfold wp, keeps_heap. auto. Qed.

(** *** What leaves the heap alone *)

Lemma keeps_heap_ret {A} (a : A) : keeps_heap (ret a : M H W A).
Proof. intros s. reflexivity. Qed.

Lemma keeps_heap_raise {A} e : keeps_heap (raise e : M H W A).
Proof. intros s. reflexivity. Qed.

Lemma keeps_heap_lift {A} (r : result A) : keeps_heap (lift r : M H W A).
Proof. intros s. reflexivity. Qed.

Lemma keeps_heap_call {A} (op : W -> result A * W) : keeps_heap (call op : M H W A).
Proof. intros s. unfold call. destruct (op (store s)). reflexivity. Qed.

Lemma keeps_heap_logger l msg args : keeps_heap (logger l msg args : M H W unit).
Proof. intros s. reflexivity. Qed.

Lemma keeps_heap_now_utc : keeps_heap (now_utc : M H W datetime).
Proof. intros s. reflexivity. Qed.

Lemma keeps_heap_utcnow : keeps_heap (utcnow : M H W datetime).
Proof. intros s. reflexivity. Qed.

Lemma keeps_heap_bind {A B} (m : M H W A) (k : A -> M H W B) :
  keeps_heap m -> (forall a, keeps_heap (k a)) -> keeps_heap (bind m k).
Proof.
  intros Hm Hk s. unfold bind. specialize (Hm s).
  destruct (m s) as [[a|e|] s1]; cbn in *; auto.
  rewrite (Hk a s1). exact Hm.
Qed.

Lemma keeps_heap_try_except {A} (body : M H W A) handler :
  keeps_heap body -> (forall e, keeps_heap (handler e)) ->
  keeps_heap (try_except body handler).
Proof.
  intros Hb Hh s. unfold try_except. specialize (Hb s).
  destruct (body s) as [[a|e|] s1]; cbn in *; auto.
  rewrite (Hh e s1). exact Hb.
Qed.

Lemma keeps_heap_try_finally {A} (body : M H W A) final :
  keeps_heap body -> keeps_heap final -> keeps_heap (try_finally body final).
Proof.
  intros Hb Hf s. unfold try_finally. specialize (Hb s).
  destruct (body s) as [[a|e|] s1]; cbn in *; auto.
  - specialize (Hf s1). destruct (final s1) as [[[]|e'|] s2]; cbn in *; congruence.
  - specialize (Hf s1). destruct (final s1) as [[[]|e'|] s2]; cbn in *; congruence.
Qed.

Lemma keeps_heap_for_each {A} (xs : list A) (body : A -> M H W unit) :
  (forall x, keeps_heap (body x)) -> keeps_heap (for_each xs body).
Proof.
  intros Hb. induction xs as [|x xs IH]; cbn.
  - apply keeps_heap_ret.
  - apply keeps_heap_bind; auto.
Qed.

End Wp.

Arguments wp : simpl never.

(** One step through the head of the computation in a [wp] goal. *)
Ltac wp_step :=
  lazymatch goal with
  | |- wp (bind _ _) _ _ => apply wp_bind
  | |- wp (ret _) _ _ => apply wp_ret
  | |- wp (raise _) _ _ => apply wp_raise
  | |- wp diverge _ _ => apply wp_diverge
  | |- wp (lift _) _ _ => apply wp_lift
  | |- wp (logger _ _ _) _ _ => apply wp_logger
  | |- wp (modify_heap _) _ _ => apply wp_modify_heap
  | |- wp get_heap _ _ => apply wp_get_heap
  | |- wp now_utc _ _ => apply wp_now_utc
  | |- wp utcnow _ _ => apply wp_utcnow
  | |- wp (try_except _ _) _ _ => apply wp_try_except
  end; cbv beta iota.

Ltac wp_steps := repeat wp_step.

Create HintDb heap.
#[local] Hint Resolve keeps_heap_ret keeps_heap_raise keeps_heap_lift keeps_heap_call
  keeps_heap_logger keeps_heap_now_utc keeps_heap_utcnow : heap.

(** Goals [keeps_heap m] for a computation built from binds of operations
    that keep the heap. *)
Ltac keeps :=
  repeat first
    [ apply keeps_heap_bind; [|intros ?]
    | apply keeps_heap_try_except; [|intros ?]
    | apply keeps_heap_try_finally
    | solve [auto with heap] ].

Section DbHeap.
Context {H W : Type} `{Store W}.

Lemma keeps_heap_cursor {A} (block : M H W A) :
  keeps_heap block -> keeps_heap (db.cursor block).
Proof.
  intros Hb s. unfold db.cursor.
  destruct (negb (pool_open (store s))); [reflexivity|].
  revert s. change (keeps_heap
    (bind (call getconn) (fun _ =>
       try_finally
         (try_except (bind block (fun a => bind (call commit) (fun _ => ret a)))
                     (fun e => bind (call rollback) (fun _ => raise e)))
         (call putconn)) : M H W A)).
  keeps.
Qed.

Lemma keeps_heap_fetch_batch t pk n o :
  keeps_heap (db.fetch_batch t pk n o : M H W (list dict)).
Proof. unfold db.fetch_batch. apply keeps_heap_cursor. keeps. Qed.

Lemma keeps_heap_get_row_count t :
  keeps_heap (db.get_row_count t : M H W value).
Proof.
  unfold db.get_row_count. apply keeps_heap_cursor. keeps.
  destruct (fetchall a); auto with heap.
Qed.

Lemma keeps_heap_mongo_db : keeps_heap (db.mongo_db : M H W unit).
Proof.
  intros s. unfold db.mongo_db. destruct (negb (mongo_open (store s))); reflexivity.
Qed.

Lemma keeps_heap_get_document c pk k :
  keeps_heap (db.get_document c pk k : M H W (option dict)).
Proof. unfold db.get_document. keeps. apply keeps_heap_mongo_db. Qed.

Lemma keeps_heap_upsert_batch c docs pk :
  keeps_heap (db.upsert_batch c docs pk : M H W bulk_result).
Proof.
  unfold db.upsert_batch. destruct docs; keeps. apply keeps_heap_mongo_db.
Qed.

End DbHeap.

(** ** sync.py: the counters of [sync_postgres_to_mongo] *)

Section SyncCounters.
Context {RT : Runtime} {W : Type} `{Store W}.

(** A batch that is processed to its end counts each of its rows in one of
    the three outcome counters; the other fields are not touched. *)
Lemma process_batch_counts self tc batch :
  forall acc s,
    wp (sync.process_batch self tc batch acc)
       (fun r s' =>
          sync.errors (heap s') = sync.errors (heap s)
          /\ sync.rows_processed (heap s') = sync.rows_processed (heap s)
          /\ (forall docs, r = Ok docs ->
                sync.rows_inserted (heap s') + sync.rows_updated (heap s')
                + sync.rows_skipped (heap s')
                = sync.rows_inserted (heap s) + sync.rows_updated (heap s)
                  + sync.rows_skipped (heap s) + Z.of_nat (List.length batch)))
       s.
Proof.
  induction batch as [|row batch IH]; intros acc s; cbn [sync.process_batch].
  - apply wp_ret. repeat split. intros _ _. cbn. lia.
  - apply wp_bind, wp_lift.
    destruct (dict_item (sync._convert_pg_to_mongo row) (sync.primary_key tc)) as [key|e|];
      [|repeat split; discriminate..].
    apply wp_bind, wp_keeps_heap; [apply keeps_heap_get_document|].
    intros [existing|e|] s1 Hs1; [|rewrite Hs1; repeat split; discriminate..].
    apply wp_bind, wp_lift.
    destruct (sync.resolve (sync.resolver self) (sync._convert_pg_to_mongo row)
                           existing "postgres") as [[resolved|]|e|];
      [| |rewrite Hs1; repeat split; discriminate..].
    + apply wp_bind.
      destruct existing; apply wp_modify_heap;
        (eapply wp_mono; [|apply IH]);
        cbn; rewrite Hs1; intros r s' (He & Hp & Hc);
        (split; [exact He|]; split; [exact Hp|]);
        intros docs Hr; rewrite (Hc docs Hr); lia.
    + apply wp_bind, wp_modify_heap.
      eapply wp_mono; [|apply IH].
      cbn. rewrite Hs1. intros r s' (He & Hp & Hc).
      split; [exact He|]. split; [exact Hp|].
      intros docs Hr. rewrite (Hc docs Hr). lia.
Qed.

(** The loop over the pages keeps the errors as they are, and when it ends
    normally it has added to [rows_processed] what it added to the three
    outcome counters. *)
Lemma while_offset_counts fuel self tc total_rows :
  forall offset s,
    wp (sync.while_offset fuel self tc total_rows offset)
       (fun r s' =>
          sync.errors (heap s') = sync.errors (heap s)
          /\ (r = Ok tt ->
              sync.rows_inserted (heap s') + sync.rows_updated (heap s')
              + sync.rows_skipped (heap s') - sync.rows_processed (heap s')
              = sync.rows_inserted (heap s) + sync.rows_updated (heap s)
                + sync.rows_skipped (heap s) - sync.rows_processed (heap s)))
       s.
Proof.
  induction fuel as [|fuel IH]; intros offset s; cbn [sync.while_offset].
  - apply wp_diverge. split; [reflexivity | discriminate].
  - apply wp_bind, wp_lift.
    destruct (sync.offset_lt offset total_rows) as [[|]|e|];
      [| apply wp_ret; split; reflexivity
       | split; [reflexivity | discriminate]..].
    apply wp_bind, wp_keeps_heap; [apply keeps_heap_fetch_batch|].
    intros [batch|e|] s1 Hs1; [|rewrite Hs1; split; [reflexivity | discriminate]..].
    destruct batch as [|row batch].
    { apply wp_ret. rewrite Hs1. split; reflexivity. }
    apply wp_bind.
    eapply wp_mono; [|apply process_batch_counts].
    intros [docs|e|] s2 (He & Hp & Hc);
      [|rewrite He, Hs1; split; [reflexivity | discriminate]..].
    specialize (Hc docs eq_refl).
    apply wp_bind.
    assert (Hup : forall (m : M sync.SyncStats W unit) (Q : _ -> _ -> Prop),
               keeps_heap m ->
               (forall r s', heap s' = heap s2 -> Q r s') -> wp m Q s2).
    { intros m Q Hk HQ. apply wp_keeps_heap; assumption. }
    apply Hup.
    { destruct docs; [apply keeps_heap_ret|].
      apply keeps_heap_bind; [apply keeps_heap_upsert_batch | intros ?; apply keeps_heap_ret]. }
    intros [[]|e|] s3 Hs3;
      [|rewrite Hs3, He, Hs1; split; [reflexivity | discriminate]..].
    apply wp_bind, wp_modify_heap.
    apply wp_bind, wp_get_heap.
    apply wp_bind, wp_lift. cbn [heap].
    destruct (sync.percent _ total_rows) as [[]|e|];
      [|cbn; rewrite Hs3, He, Hs1; split; [reflexivity | discriminate]..].
    apply wp_bind, wp_logger.
    eapply wp_mono; [|apply IH].
    cbn. rewrite Hs3, He, Hs1. intros r s' (He' & Hc').
    split; [exact He'|].
    intros Hr. rewrite (Hc' Hr).
    change (Z.pos (Pos.of_succ_nat (List.length batch)))
      with (Z.of_nat (List.length (row :: batch))).
    rewrite Hc, Hp, Hs1. lia.
Qed.

End SyncCounters.

(** C10: a call of [sync_postgres_to_mongo] that returns statistics with an
    empty [errors] list returns them with
    [rows_processed = rows_inserted + rows_updated + rows_skipped]. *)
Theorem C10_processed_is_sum_of_outcomes :
  forall (RT : Runtime) (W : Type) (St : Store W) (fuel : nat)
         (self : sync.DataSync) (tc : sync.table_config)
         (s s' : state sync.SyncStats W) (stats : sync.SyncStats),
    sync.sync_postgres_to_mongo fuel self tc s = (Ok stats, s') ->
    sync.errors stats = [] ->
    sync.rows_processed stats =
    sync.rows_inserted stats + sync.rows_updated stats + sync.rows_skipped stats.
Proof.
  intros RT W St fuel self tc s s' stats Hrun.
  refine (wp_run _ (fun r _ => forall st, r = Ok st -> sync.errors st = [] ->
                      sync.rows_processed st =
                      sync.rows_inserted st + sync.rows_updated st + sync.rows_skipped st)
                 _ _ _ Hrun _ stats eq_refl).
  unfold sync.sync_postgres_to_mongo.
  wp_steps.
  apply wp_keeps_heap; [apply keeps_heap_get_row_count|].
  cbn [heap]. intros [total_rows|e|] s1 Hs1.
  - wp_steps.
    eapply wp_mono; [|apply while_offset_counts].
    cbn [heap]. rewrite Hs1. cbn [sync.errors sync.rows_inserted sync.rows_updated
                                  sync.rows_skipped sync.rows_processed].
    intros [[]|e|] s2 (He & Hc).
    + specialize (Hc eq_refl).
      wp_steps.
      cbn. intros st Hst _. inversion Hst; subst st. cbn. lia.
    + wp_steps.
      cbn. intros st Hst Herr. inversion Hst; subst st. cbn in Herr.
      apply app_eq_nil in Herr as [_ Herr]. discriminate.
    + intros st Hst. discriminate.
  - wp_steps.
    cbn. intros st Hst Herr. inversion Hst; subst st. cbn in Herr.
    apply app_eq_nil in Herr as [_ Herr]. discriminate.
  - intros st Hst. discriminate.
Qed.

Lemma C10_processed_is_sum_of_outcomes_witness :
  examples.run_users = (Ok examples.run_users_stats, snd examples.run_users)
  /\ sync.errors examples.run_users_stats = []
  /\ sync.rows_processed examples.run_users_stats =
     sync.rows_inserted examples.run_users_stats
     + sync.rows_updated examples.run_users_stats
     + sync.rows_skipped examples.run_users_stats.
Proof.
  split; [vm_compute; reflexivity|].
  split; [vm_compute; reflexivity|].
  apply (C10_processed_is_sum_of_outcomes example_runtime world mem_store 10
           examples.latest_wins_sync examples.users_config
           (initial_state examples.stats0 examples.w0) (snd examples.run_users)
           examples.run_users_stats);
    vm_compute; reflexivity.
Defined.

Lemma C2_key_preserved_witness :
  NoDup (dict_keys examples.ann)
  /\ dict_lookup examples.ann "id" = Some (VInt 1)
  /\ dict_lookup (datasync_sync._convert_pg_to_mongo (Naive 3) examples.ann) "_pg_id"
     = Some (VInt 1)
  /\ dict_lookup
       (seq_sync_engine._convert_for_postgres
          (seq_sync_engine._convert_for_mongo (Naive 3) examples.ann "id") "id") "id"
     = Some (VInt 1).
Proof.
  assert (Hnd : NoDup (dict_keys examples.ann)).
  { repeat constructor; cbn; intuition discriminate. }
  split; [exact Hnd|]. split; [reflexivity|].
  split.
  - apply (proj1 C2_key_preserved (Naive 3) examples.ann (VInt 1) Hnd);
      reflexivity.
  - apply (proj2 C2_key_preserved (Naive 3) examples.ann "id" (VInt 1));
      solve [discriminate | reflexivity].
Defined.

(** ** sync_engine.py: conflicts that need an operator *)



(** Scenario C as a whole cycle: under ['manual'] the bidirectional pass
    over a store whose two sides disagree on record 42 counts one conflict,
    applies nothing and leaves both databases as they were. *)
Example scenario_C :
  let run := sync_engine.sync_once 10 examples.manual_config [examples.users_mapping]
               (initial_state examples.engine_stats0 examples.w_conflict) in
  fst run = Ok (sync_engine.mk_SyncStats (Aware 0) 0 0 1 0)
  /\ store (snd run) = examples.w_conflict.
Proof. vm_compute. split; reflexivity. Qed.

(** ** The way back from MongoDB *)

(** The claim of C7 fails on the baseline [SyncEngine.sync_mongo_to_pg],
    which knows no origin marker: after one [pg_to_mongo] cycle over the
    two rows of [users], a [mongo_to_pg] cycle writes both documents the
    engine has just exported back into PostgreSQL, counts them in
    [mongo_to_pg] (the statistics have no counter for skipped records) and
    changes the rows. *)
Lemma C7_counterexample :
  fst examples.baseline_pass1 = Ok (sync_engine.mk_SyncStats (Aware 0) 2 0 0 0)
  /\ fst examples.baseline_pass2 = Ok (sync_engine.mk_SyncStats (Aware 4) 0 2 0 0)
  /\ pg (store (snd examples.baseline_pass1)) = [("users", examples.users)]
  /\ pg (store (snd examples.baseline_pass2)) =
     [("users",
       mk_pg_table ["id"; "name"; "_sync_updated_at"] (Some "id")
         [ [("id", VInt 2); ("name", VStr "Bob");
            ("_sync_updated_at", VDatetime (Aware 6))];
           [("id", VInt 1); ("name", VStr "Ann");
            ("_sync_updated_at", VDatetime (Aware 5))] ])].
Proof. vm_compute. repeat split. Qed.

Lemma from_postgres_convert_for_mongo now record pk_col :
  seq_sync_engine.from_postgres
    (seq_sync_engine.stringify_id
       (seq_sync_engine._convert_for_mongo now record pk_col)) = true.
Proof.
  unfold seq_sync_engine.from_postgres, seq_sync_engine.stringify_id,
    seq_sync_engine._convert_for_mongo, dict_get.
  set (doc := if negb (pk_col =? "_id")%string && dict_mem record pk_col
              then dict_set (dict_remove record pk_col) "_id" (dict_get record pk_col)
              else record).
  assert (Hsrc : forall d, dict_lookup
             (dict_set (dict_set d "_sync_source" (VStr "postgres")) "_sync_at"
                       (VDatetime now)) "_sync_source" = Some (VStr "postgres")).
  { intros d. rewrite !dict_lookup_set. reflexivity. }
  destruct (dict_lookup _ "_id") as [[]|]; rewrite ?dict_lookup_set, ?Hsrc;
    reflexivity.
Qed.

(** C7, amended.  In [SyncEngine._sync_mongo_to_postgres] of the sequential
    engine a document whose [_sync_source] is ['postgres'] is counted in
    [records_skipped] and nothing else happens: no call reaches PostgreSQL
    and [records_synced] stays; so is every document of a page of such
    documents; and every document [_convert_for_mongo] builds carries that
    marker, also as [_fetch_mongo_batch] returns it.  The baseline
    [SyncEngine.sync_mongo_to_pg] tests no marker: whenever the filtered
    document has a true primary key and the upsert succeeds, the document
    is written and counted in [mongo_to_pg]. *)
Theorem C7_origin_marker_skips :
  forall (RT : Runtime) (W : Type) (St : Store W),
    (forall (table pk_col : string) (doc : dict) (s : state seq_sync_engine.SyncResult W),
        dict_get doc "_sync_source" = VStr "postgres" ->
        seq_sync_engine.mongo_to_postgres_doc table pk_col doc s =
        (Ok tt, mk_state (seq_sync_engine.incr_skipped (heap s)) (store s)
                         (clock s) (logs s)))
    /\ (forall (table pk_col : string) (docs : list dict)
               (s : state seq_sync_engine.SyncResult W),
        (forall doc, In doc docs -> dict_get doc "_sync_source" = VStr "postgres") ->
        for_each docs (seq_sync_engine.mongo_to_postgres_doc table pk_col) s =
        (Ok tt,
         mk_state
           (seq_sync_engine.mk_SyncResult
              (seq_sync_engine.records_synced (heap s))
              (seq_sync_engine.records_skipped (heap s) + Z.of_nat (List.length docs))
              (seq_sync_engine.conflicts_resolved (heap s))
              (seq_sync_engine.errors (heap s)))
           (store s) (clock s) (logs s)))
    /\ (forall now record pk_col,
        dict_get (seq_sync_engine.stringify_id
                    (seq_sync_engine._convert_for_mongo now record pk_col))
                 "_sync_source" = VStr "postgres")
    /\ (forall (mapping : sync_engine.TableMapping) (pg_columns : list value)
               (doc : dict) (s : state sync_engine.SyncStats W) (r : reply) (w : W),
        sync_engine.transform_to_pg mapping = None ->
        let filtered :=
          dict_set (sync_engine.filter_columns pg_columns (sync_engine._normalize_doc doc))
                   "_sync_updated_at" (VDatetime (Aware (clock s))) in
        truthy (dict_get filtered (sync_engine.primary_key mapping)) = true ->
        execute (InsertOnConflictUpdate (sync_engine.postgres_table mapping)
                                        (sync_engine.primary_key mapping) filtered)
                (store s) = (Ok r, w) ->
        sync_engine.mongo_to_pg_doc mapping pg_columns doc s =
        (Ok tt, mk_state (sync_engine.incr_mongo_to_pg (heap s)) w
                         (clock s + 1) (logs s))).
Proof.
  intros RT W St.
  assert (Hdoc : forall table pk_col doc (s : state seq_sync_engine.SyncResult W),
             dict_get doc "_sync_source" = VStr "postgres" ->
             seq_sync_engine.mongo_to_postgres_doc table pk_col doc s =
             (Ok tt, mk_state (seq_sync_engine.incr_skipped (heap s)) (store s)
                              (clock s) (logs s))).
  { intros table pk_col doc s Hsrc.
    unfold seq_sync_engine.mongo_to_postgres_doc, seq_sync_engine.from_postgres.
    rewrite Hsrc. reflexivity. }
  split; [exact Hdoc|].
  split.
  { intros table pk_col docs.
    induction docs as [|doc docs IH]; intros s Hall.
    - cbn. destruct s as [[] ? ? ?]. cbn. rewrite Z.add_0_r. reflexivity.
    - cbn [for_each]. unfold bind.
      rewrite (Hdoc table pk_col doc s (Hall doc (or_introl eq_refl))).
      rewrite IH; [|intros d Hd; apply Hall; now right].
      cbn [heap store clock logs seq_sync_engine.incr_skipped
           seq_sync_engine.records_synced seq_sync_engine.records_skipped
           seq_sync_engine.conflicts_resolved seq_sync_engine.errors].
      do 3 f_equal. cbn [List.length]. lia. }
  split.
  { intros now record pk_col.
    pose proof (from_postgres_convert_for_mongo now record pk_col) as Hf.
    unfold seq_sync_engine.from_postgres in Hf.
    destruct (dict_get _ "_sync_source"); try discriminate.
    apply String.eqb_eq in Hf. now subst. }
  intros mapping pg_columns doc s r w Htr filtered Hpk Hexec.
  unfold sync_engine.mongo_to_pg_doc, try_except. rewrite Htr.
  unfold bind at 1, ret at 1.
  unfold bind at 1, now_utc at 1.
  fold filtered. unfold sync_engine.SYNC_METADATA_FIELD. fold filtered.
  rewrite Hpk. cbn [negb].
  unfold bind at 1, sync_engine.pg_execute, bind at 1, call at 1.
  cbn [store heap clock logs]. rewrite Hexec.
  reflexivity.
Qed.

Lemma C7_origin_marker_skips_witness :
  let doc := seq_sync_engine.stringify_id
               (seq_sync_engine._convert_for_mongo (Naive 0) examples.ann "id") in
  dict_get doc "_sync_source" = VStr "postgres"
  /\ seq_sync_engine.mongo_to_postgres_doc "users" "id" doc
       (initial_state (seq_sync_engine.mk_SyncResult 0 0 0 []) examples.w0)
     = (Ok tt, initial_state (seq_sync_engine.mk_SyncResult 0 1 0 []) examples.w0).
Proof.
  split; [reflexivity|].
  apply (proj1 (C7_origin_marker_skips example_runtime world mem_store) "users" "id"
               (seq_sync_engine.stringify_id
                  (seq_sync_engine._convert_for_mongo (Naive 0) examples.ann "id"))
               (initial_state (seq_sync_engine.mk_SyncResult 0 0 0 []) examples.w0)).
  reflexivity.
Defined.

(** ** One mapping's failure and the rest of the cycle *)

Section Loops.
Context {H W : Type}.

Lemma for_each_app {A} (xs ys : list A) (body : A -> M H W unit) s :
  for_each (xs ++ ys) body s =
  match for_each xs body s with
  | (Ok _, s1) => for_each ys body s1
  | other => other
  end.
Proof.
  revert s. induction xs as [|x xs IH]; intros s; cbn [app for_each].
  - reflexivity.
  - unfold bind. destruct (body x s) as [[[]|e|] s1]; [apply IH | reflexivity..].
Qed.

Lemma for_each_never_raises {A} (xs : list A) (body : A -> M H W unit) :
  (forall x s e, fst (body x s) <> Raise e) ->
  forall s e, fst (for_each xs body s) <> Raise e.
Proof.
  intros Hb. induction xs as [|x xs IH]; intros s e; cbn [for_each].
  - discriminate.
  - unfold bind. specialize (Hb x s).
    destruct (body x s) as [[[]|e'|] s1]; cbn in *.
    + apply IH.
    + exfalso. now apply (Hb e').
    + discriminate.
Qed.

End Loops.

Section Baseline.
Context {RT : Runtime} {W : Type} `{Store W}.

Lemma sync_mapping_caught fuel cfg m (s s' : state sync_engine.SyncStats W) e :
  sync_engine.dispatch fuel cfg m s = (Raise e, s') ->
  sync_engine.sync_mapping fuel cfg m s =
  (Ok tt,
   mk_state (sync_engine.incr_errors (heap s')) (store s') (clock s')
            (logs s' ++ [mk_log ERROR "Error syncing {mapping.postgres_table}: {e}"
                                [FStr (sync_engine.postgres_table m); FExn e]])).
Proof.
  intros Hd. unfold sync_engine.sync_mapping, try_except. rewrite Hd. reflexivity.
Qed.

Lemma sync_mapping_never_raises fuel cfg m (s : state sync_engine.SyncStats W) e :
  fst (sync_engine.sync_mapping fuel cfg m s) <> Raise e.
Proof.
  unfold sync_engine.sync_mapping, try_except.
  destruct (sync_engine.dispatch fuel cfg m s) as [[[]|e'|] s1]; cbn; discriminate.
Qed.

Lemma sync_once_never_raises fuel cfg ms (s : state sync_engine.SyncStats W) e :
  fst (sync_engine.sync_once fuel cfg ms s) <> Raise e.
Proof.
  unfold sync_engine.sync_once.
  unfold bind at 1, now_utc at 1.
  unfold bind at 1, modify_heap at 1.
  unfold bind at 1, logger at 1.
  unfold bind at 1.
  match goal with |- context [for_each ms ?b ?s0] =>
    pose proof (for_each_never_raises ms b (sync_mapping_never_raises fuel cfg) s0) as Hl;
    destruct (for_each ms b s0) as [[[]|e'|] s1]
  end; cbn in *.
  - discriminate.
  - exfalso. now apply (Hl e').
  - discriminate.
Qed.

End Baseline.

(** The claim of C4 fails on [DataSync.sync] of datasync/datasync/sync.py,
    whose handler ends in [raise]: with the mappings [ghost] (no such
    table) and [users], the exception of the first mapping leaves [sync],
    nothing is recorded in [stats['tables']] and the second mapping is never
    processed, MongoDB staying empty, although alone it syncs two
    records. *)
Lemma C4_counterexample :
  fst examples.run_ghost_then_users =
    Raise (DatabaseError "relation does not exist: ghost")
  /\ datasync_sync.tables (datasync_sync.stats (heap (snd examples.run_ghost_then_users)))
     = []
  /\ mongo (store (snd examples.run_ghost_then_users)) = []
  /\ (exists st, fst examples.run_users_alone = Ok st
                 /\ datasync_sync.total_synced st = 2)
  /\ List.length (collection_of (store (snd examples.run_users_alone)) "users") = 2%nat.
Proof.
  vm_compute. repeat split. eexists. split; reflexivity.
Qed.

(** C4, amended.  In the baseline [SyncEngine.sync_once] an exception that
    the directional sync of one mapping raises is caught at that mapping,
    logged and counted in [errors], and the loop goes on with the mappings
    that are left; [sync_once] itself never raises.  In the sequential
    [SyncEngine.sync_table] an exception raised by the directional passes
    is appended to the [errors] of that table's result and [sync_all] goes
    on with the tables that are left; once the primary key has been looked
    up, [sync_table] never raises.  [DataSync.sync] of
    datasync/datasync/sync.py counts the error in the mapping's
    [table_stats] and raises it again: the exception ends the loop and the
    mappings that are left are not processed. *)
Theorem C4_failure_of_one_mapping :
  forall (RT : Runtime) (W : Type) (St : Store W),
    (forall fuel cfg before m after (s s1 s1' : state sync_engine.SyncStats W) e,
        for_each before (sync_engine.sync_mapping fuel cfg) s = (Ok tt, s1) ->
        sync_engine.dispatch fuel cfg m s1 = (Raise e, s1') ->
        for_each (before ++ m :: after) (sync_engine.sync_mapping fuel cfg) s =
        for_each after (sync_engine.sync_mapping fuel cfg)
          (mk_state (sync_engine.incr_errors (heap s1')) (store s1') (clock s1')
             (logs s1' ++ [mk_log ERROR "Error syncing {mapping.postgres_table}: {e}"
                                  [FStr (sync_engine.postgres_table m); FExn e]])))
    /\ (forall fuel cfg ms (s : state sync_engine.SyncStats W) e,
        fst (sync_engine.sync_once fuel cfg ms s) <> Raise e)
    /\ (forall fuel config table rest results
               (s s1 s2 : state seq_sync_engine.SyncResult W) pk_col e,
        seq_sync_engine._get_primary_key table
          (mk_state (seq_sync_engine.mk_SyncResult 0 0 0 []) (store s) (clock s) (logs s))
        = (Ok pk_col, s1) ->
        seq_sync_engine.sync_directions fuel config table pk_col
          (mk_state (heap s1) (store s1) (clock s1)
             (logs s1 ++ [mk_log INFO "Syncing table: {table} (direction: {direction})"
                                 [FStr table; FStr (seq_sync_engine.direction config)]]))
        = (Raise e, s2) ->
        let r := seq_sync_engine.append_error
                   ("Error syncing {table}: {str(e)}", [FStr table; FExn e]) (heap s2) in
        seq_sync_engine.sync_tables fuel config (table :: rest) results s =
        seq_sync_engine.sync_tables fuel config rest
          (seq_sync_engine.results_set results table r)
          (mk_state r (store s2) (clock s2)
             (logs s2 ++ [mk_log ERROR "Error syncing table {table}"
                                 [FStr table; FExn e]])))
    /\ (forall fuel config table (s s1 : state seq_sync_engine.SyncResult W) pk_col e,
        seq_sync_engine._get_primary_key table
          (mk_state (seq_sync_engine.mk_SyncResult 0 0 0 []) (store s) (clock s) (logs s))
        = (Ok pk_col, s1) ->
        fst (seq_sync_engine.sync_table fuel config table s) <> Raise e)
    /\ (forall fuel cfg m rest (s s' : state datasync_sync.locals W) e,
        datasync_sync.sync_body fuel cfg m
          (mk_state (datasync_sync.new_table_stats (heap s)) (store s) (clock s) (logs s))
        = (Raise e, s') ->
        for_each (m :: rest) (datasync_sync.sync_mapping fuel cfg) s =
        (Raise e,
         mk_state (datasync_sync.add_error (heap s')) (store s') (clock s')
           (logs s' ++ [mk_log ERROR "Error syncing {pg_table}: {e}"
                               [FStr (datasync_sync.postgres_table m); FExn e]]))).
Proof.
  intros RT W St. repeat split.
  - intros fuel cfg before m after s s1 s1' e Hbefore Hm.
    rewrite for_each_app, Hbefore. cbn [for_each]. unfold bind at 1.
    rewrite (sync_mapping_caught _ _ _ _ _ _ Hm). reflexivity.
  - intros fuel cfg ms s e. apply sync_once_never_raises.
  - intros fuel config table rest results s s1 s2 pk_col e Hpk Hdir r.
    cbn [seq_sync_engine.sync_tables]. unfold bind at 1.
    unfold seq_sync_engine.sync_table.
    unfold bind at 1, modify_heap at 1. cbn [heap store clock logs].
    unfold bind at 1. rewrite Hpk.
    unfold bind at 1, logger at 1.
    unfold bind at 1, try_except at 1. rewrite Hdir.
    reflexivity.
  - intros fuel config table s s1 pk_col e Hpk.
    unfold seq_sync_engine.sync_table.
    unfold bind at 1, modify_heap at 1. cbn [heap store clock logs].
    unfold bind at 1. rewrite Hpk.
    unfold bind at 1, logger at 1.
    unfold bind at 1, try_except at 1.
    match goal with |- context [seq_sync_engine.sync_directions ?a ?b ?c ?d ?s0] =>
      destruct (seq_sync_engine.sync_directions a b c d s0) as [[[]|e'|] s2]
    end; cbn; discriminate.
  - intros fuel cfg m rest s s' e Hbody.
    cbn [for_each]. unfold bind at 1.
    unfold datasync_sync.sync_mapping.
    unfold bind at 1, modify_heap at 1.
    unfold bind at 1, try_except at 1. rewrite Hbody.
    reflexivity.
Qed.

(** ** Paging through a table *)

Lemma insert_row_perm key r l : Permutation (insert_row key r l) (r :: l).
Proof.
  induction l as [|x l IH]; cbn.
  - apply Permutation_refl.
  - destruct (value_leb _ _).
    + apply Permutation_refl.
    + apply perm_trans with (x :: r :: l).
      * now apply perm_skip.
      * apply perm_swap.
Qed.

Lemma order_by_perm key rs : Permutation (order_by key rs) rs.
Proof.
  induction rs as [|r rs IH]; cbn.
  - apply perm_nil.
  - apply perm_trans with (r :: order_by key rs).
    + apply insert_row_perm.
    + now apply perm_skip.
Qed.

Lemma order_by_length key rs : List.length (order_by key rs) = List.length rs.
Proof. apply Permutation_length, order_by_perm. Qed.

Lemma chunks_fuel n l :
  (0 < n)%nat ->
  forall f1 f2,
    (List.length l <= f1)%nat -> (List.length l <= f2)%nat ->
    chunks f1 n l = chunks f2 n l.
Proof.
  intros Hn f1. revert l.
  induction f1 as [|f1 IH]; intros l f2 H1 H2.
  - destruct l; [|cbn in H1; lia]. destruct f2; reflexivity.
  - destruct l as [|x l]; [destruct f2; reflexivity|].
    destruct f2 as [|f2]; [cbn in H2; lia|].
    cbn [chunks]. f_equal.
    apply IH; rewrite length_skipn; cbn [List.length] in *; lia.
Qed.




Lemma existsb_eqb_In k l : In k l -> existsb (String.eqb k) l = true.
Proof.
  intros Hin. apply existsb_exists. exists k. split; [exact Hin | apply String.eqb_refl].
Qed.

Lemma same_postgres_refl w : same_postgres w w.
Proof. repeat split. Qed.

Lemma same_postgres_trans w1 w2 w3 :
  same_postgres w1 w2 -> same_postgres w2 w3 -> same_postgres w1 w3.
Proof.
  unfold same_postgres. intros (A1 & B1 & C1) (A2 & B2 & C2).
  repeat split; congruence.
Qed.

(** *** The connection handlers over the in-memory store *)

Section MemDb.
Context {H : Type}.

Lemma mem_fetch_batch (s : state H world) t tb key L off :
  connected (store s) = true ->
  lookup (pg (store s)) t = Some tb ->
  In key (columns tb) ->
  0 <= L -> 0 <= off ->
  let page := firstn (Z.to_nat L) (skipn (Z.to_nat off) (order_by key (rows tb))) in
  db.fetch_batch t key L off s =
  (Ok page, mk_state (heap s) (log_page (store s) page) (clock s) (logs s)).
Proof.
  intros Hc Ht Hk HL Hoff page.
  unfold db.fetch_batch, db.cursor.
  cbn [pool_open mem_store]. rewrite Hc. cbn [negb].
  unfold bind at 1, call at 1. cbn [getconn mem_store].
  unfold try_finally, try_except.
  unfold bind at 1. unfold bind at 1, call at 1.
  cbn [execute mem_store store heap clock logs mem_execute].
  rewrite Ht, (existsb_eqb_In _ _ Hk). cbn [negb].
  destruct (Z.ltb_spec L 0); [lia|]. destruct (Z.ltb_spec off 0); [lia|].
  cbn [orb]. reflexivity.
Qed.

Lemma mem_get_row_count (s : state H world) t tb :
  connected (store s) = true ->
  lookup (pg (store s)) t = Some tb ->
  db.get_row_count t s = (Ok (VInt (Z.of_nat (List.length (rows tb)))), s).
Proof.
  intros Hc Ht. destruct s as [h w c l]. cbn [store] in *.
  unfold db.get_row_count, db.cursor.
  cbn [pool_open mem_store store]. rewrite Hc. cbn [negb].
  unfold bind at 1, call at 1. cbn [getconn mem_store].
  unfold try_finally, try_except.
  unfold bind at 1. unfold bind at 1, call at 1.
  cbn [execute mem_store store heap clock logs mem_execute].
  rewrite Ht. reflexivity.
Qed.

Lemma mem_get_document (s : state H world) c pk k :
  wp (db.get_document c pk k)
     (fun r s' => r <> Diverge /\ heap s' = heap s /\ store s' = store s) s.
Proof.
  unfold wp, db.get_document, bind, db.mongo_db.
  destruct (negb (mongo_open (store s))); cbn.
  - repeat split. discriminate.
  - repeat split. discriminate.
Qed.

Lemma operations_never_diverge docs pk : db.operations docs pk <> Diverge.
Proof.
  induction docs as [|d docs IH]; cbn.
  - discriminate.
  - unfold dict_item. destruct (dict_lookup d pk); [|discriminate].
    destruct (db.operations docs pk); [discriminate | discriminate | contradiction].
Qed.

Lemma mem_bulk_write_same c ops w :
  exists r w', mem_bulk_write c ops w = (Ok r, w') /\ same_postgres w w'.
Proof.
  unfold mem_bulk_write.
  destruct (apply_updates (collection_of w c) (next_oid w) ops (mk_bulk 0 0 0))
    as [[docs' n'] r].
  eexists. eexists. split; [reflexivity|]. repeat split.
Qed.

Lemma wp_mongo_db (Q : result unit -> state H world -> Prop) s :
  Q (Raise (RuntimeError "MongoDB not connected")) s ->
  Q (Ok tt) s ->
  wp db.mongo_db Q s.
Proof.
  intros HR HO. unfold wp, db.mongo_db.
  destruct (negb (mongo_open (store s))); assumption.
Qed.

Lemma mem_upsert_batch (s : state H world) c docs pk :
  wp (db.upsert_batch c docs pk)
     (fun r s' => r <> Diverge /\ heap s' = heap s /\ same_postgres (store s) (store s')) s.
Proof.
  unfold db.upsert_batch.
  destruct docs as [|d docs].
  - wp_step. split; [discriminate|]. split; [reflexivity | apply same_postgres_refl].
  - wp_step. wp_step.
    pose proof (operations_never_diverge (d :: docs) pk) as Hnd.
    destruct (db.operations (d :: docs) pk) as [ops|e|]; [| |contradiction].
    + wp_step. apply wp_mongo_db.
      * split; [discriminate|]. split; [reflexivity | apply same_postgres_refl].
      * apply wp_call. intros r w Hb. cbn [bulk_write mem_store] in Hb.
        destruct (mem_bulk_write_same c ops (store s)) as (r0 & w' & Hb' & Hsame).
        rewrite Hb' in Hb. inversion Hb; subst.
        split; [discriminate|]. split; [reflexivity | exact Hsame].
    + split; [discriminate|]. split; [reflexivity | apply same_postgres_refl].
Qed.

End MemDb.

Lemma resolve_never_diverges {RT : Runtime} self source target source_type :
  sync.resolve self source target source_type <> Diverge.
Proof.
  unfold sync.resolve.
  destruct target as [target|]; [|discriminate].
  destruct (sync.strategy self =? "source_wins")%string; [discriminate|].
  destruct (sync.strategy self =? "postgres_priority")%string; [discriminate|].
  destruct (sync.strategy self =? "mongo_priority")%string; [discriminate|].
  destruct (sync.strategy self =? "latest_wins")%string; [|discriminate].
  destruct (sync._get_timestamp source) as [ts|], (sync._get_timestamp target) as [tt|];
    try discriminate.
  destruct ts, tt; cbn; discriminate.
Qed.

(** A batch is processed without a word to PostgreSQL, and the loop over
    its rows always ends. *)
Lemma process_batch_mem {RT : Runtime} self tc batch :
  forall acc (s : state sync.SyncStats world),
    wp (sync.process_batch self tc batch acc)
       (fun r s' => r <> Diverge /\ same_postgres (store s) (store s')) s.
Proof.
  induction batch as [|row batch IH]; intros acc s; cbn [sync.process_batch].
  - wp_step. split; [discriminate | apply same_postgres_refl].
  - wp_step. wp_step.
    unfold dict_item.
    destruct (dict_lookup (sync._convert_pg_to_mongo row) (sync.primary_key tc)) as [key|];
      [|split; [discriminate | apply same_postgres_refl]].
    wp_step.
    eapply wp_mono; [|apply mem_get_document].
    intros [existing|e|] s1 (Hnd & Hh & Hs);
      [| split; [discriminate | rewrite Hs; apply same_postgres_refl] | contradiction].
    wp_step. wp_step.
    pose proof (resolve_never_diverges (sync.resolver self)
                  (sync._convert_pg_to_mongo row) existing "postgres") as Hr.
    destruct (sync.resolve (sync.resolver self) (sync._convert_pg_to_mongo row)
                           existing "postgres") as [[resolved|]|e|];
      [| | split; [discriminate | rewrite Hs; apply same_postgres_refl] | contradiction].
    + wp_step.
      destruct existing; wp_step;
        (eapply wp_mono; [|apply IH]);
        cbn [store]; rewrite Hs; auto.
    + wp_step. wp_step.
      eapply wp_mono; [|apply IH].
      cbn [store]. rewrite Hs. auto.
Qed.

Lemma wp_conj {H W A} (m : M H W A) (P Q : result A -> state H W -> Prop) s :
  wp m P s -> wp m Q s -> wp m (fun r s' => P r s' /\ Q r s') s.
Proof. unfold wp. auto. Qed.

(** The write of one batch: MongoDB only, the statistics untouched. *)
Lemma write_batch_mem (s : state sync.SyncStats world) c docs pk :
  wp (match docs with
      | [] => ret tt
      | _ => bind (db.upsert_batch c docs pk) (fun _ => ret tt)
      end)
     (fun r s' => r <> Diverge /\ heap s' = heap s /\ same_postgres (store s) (store s')) s.
Proof.
  destruct docs as [|d docs].
  - wp_step. split; [discriminate|]. split; [reflexivity | apply same_postgres_refl].
  - wp_step. eapply wp_mono; [|apply mem_upsert_batch].
    intros [r|e|] s1 (Hnd & Hh & Hs); [| |contradiction].
    + wp_step. split; [discriminate|]. split; assumption.
    + split; [discriminate|]. split; assumption.
Qed.

(** The loop of [sync_postgres_to_mongo] over the in-memory store: with
    enough fuel it ends, and when it ends normally it has fetched the
    chunks of the ordered table from [offset] on, each once and in order,
    and added their rows to [rows_processed]. *)
Lemma while_offset_mem {RT : Runtime} self tc tb :
  1 <= sync.batch_size self ->
  In (sync.primary_key tc) (columns tb) ->
  forall fuel offset (s : state sync.SyncStats world),
    connected (store s) = true ->
    lookup (pg (store s)) (sync.name tc) = Some tb ->
    0 <= offset ->
    let rest := skipn (Z.to_nat offset) (order_by (sync.primary_key tc) (rows tb)) in
    (List.length rest < fuel)%nat ->
    wp (sync.while_offset fuel self tc (VInt (Z.of_nat (List.length (rows tb)))) offset)
       (fun r s' =>
          r <> Diverge
          /\ (r = Ok tt ->
              page_log (store s') =
                page_log (store s)
                ++ chunks (List.length rest) (Z.to_nat (sync.batch_size self)) rest
              /\ sync.rows_processed (heap s') =
                 sync.rows_processed (heap s) + Z.of_nat (List.length rest)))
       s.
Proof.
  intros HL Hpk.
  remember (order_by (sync.primary_key tc) (rows tb)) as ordered eqn:Eord.
  assert (Hlen : List.length ordered = List.length (rows tb))
    by (subst ordered; apply order_by_length).
  induction fuel as [|fuel IH]; intros offset s Hc Ht Hoff rest Hfuel; [lia|].
  cbn [sync.while_offset]. wp_step. wp_step.
  unfold sync.offset_lt.
  destruct (Z.ltb_spec offset (Z.of_nat (List.length (rows tb)))) as [Hlt|Hge].
  - (* one more page *)
    wp_step.
    unfold wp at 1.
    rewrite (mem_fetch_batch s (sync.name tc) tb (sync.primary_key tc)
               (sync.batch_size self) offset Hc Ht Hpk ltac:(lia) Hoff).
    cbn [fst snd]. rewrite <- Eord.
    change (skipn (Z.to_nat offset) ordered) with rest.
    assert (Hrest : List.length rest = (List.length (rows tb) - Z.to_nat offset)%nat).
    { unfold rest. rewrite length_skipn, Hlen. reflexivity. }
    destruct rest as [|x rest0] eqn:Erest; [cbn [List.length] in Hrest; lia|].
    destruct (Z.to_nat (sync.batch_size self)) as [|L'] eqn:EL; [lia|].
    cbn [firstn].
    set (page := x :: firstn L' rest0).
    wp_step.
    eapply wp_mono; [|apply wp_conj; [apply process_batch_counts | apply process_batch_mem]].
    cbn [heap store].
    intros [docs|e|] s2 ((He & Hp & _) & (Hnd & Hsame));
      [| split; [discriminate | discriminate] | contradiction].
    wp_step.
    eapply wp_mono; [|apply write_batch_mem].
    intros [[]|e|] s3 (Hnd3 & Hh3 & Hsame3);
      [| split; [discriminate | discriminate] | contradiction].
    wp_step. wp_step. wp_step. wp_step. wp_step. wp_step.
    cbn [heap sync.add_processed sync.rows_processed].
    unfold sync.percent.
    destruct (Z.of_nat (List.length (rows tb))) as [|p|p] eqn:EN; [lia | | lia].
    wp_step. wp_step.
    pose proof (same_postgres_trans _ _ _ Hsame Hsame3) as (Hc3 & Hpg3 & Hlog3).
    cbn [connected pg page_log log_page] in Hc3, Hpg3, Hlog3.
    assert (Hskip : skipn (Z.to_nat (offset + sync.batch_size self)) ordered
                    = skipn L' rest0).
    { rewrite Z2Nat.inj_add by lia. rewrite EL, Nat.add_comm.
      rewrite <- skipn_skipn.
      change (skipn (Z.to_nat offset) ordered) with rest. rewrite Erest. reflexivity. }
    eapply wp_mono; [|apply (IH (offset + sync.batch_size self))].
    + cbn [heap store clock logs]. rewrite Hskip.
      intros r s' (Hnd' & Hok). split; [exact Hnd'|].
      intros Hr. destruct (Hok Hr) as (Hlog & Hproc). split.
      * rewrite Hlog, Hlog3. rewrite <- app_assoc. cbn [app].
        cbn [List.length chunks firstn skipn].
        do 2 f_equal. apply chunks_fuel; [lia | reflexivity |].
        rewrite length_skipn. lia.
      * rewrite Hproc.
        cbn [sync.add_processed sync.rows_processed].
        rewrite Hh3, Hp.
        unfold page. cbn [List.length].
        rewrite length_firstn, length_skipn. lia.
    + cbn [store]. congruence.
    + cbn [store]. rewrite Hpg3. exact Ht.
    + lia.
    + rewrite Hskip, length_skipn.
      cbn [List.length] in Hfuel. lia.
  - (* past the end *)
    wp_step.
    assert (Hnil : rest = []).
    { unfold rest. apply skipn_all2. rewrite Hlen. lia. }
    split; [discriminate|]. intros _. rewrite Hnil. cbn.
    rewrite app_nil_r, Z.add_0_r. split; reflexivity.
Qed.

(** [sync_postgres_to_mongo] over the in-memory store, whatever MongoDB
    holds: with more fuel than rows the call returns its statistics, and
    statistics without errors report every row as processed, the pages
    fetched being the chunks of the ordered table. *)
Lemma sync_postgres_to_mongo_mem {RT : Runtime} self tc tb :
  1 <= sync.batch_size self ->
  In (sync.primary_key tc) (columns tb) ->
  forall fuel (s : state sync.SyncStats world),
    connected (store s) = true ->
    lookup (pg (store s)) (sync.name tc) = Some tb ->
    (List.length (rows tb) < fuel)%nat ->
    exists stats s',
      sync.sync_postgres_to_mongo fuel self tc s = (Ok stats, s')
      /\ (sync.errors stats = [] ->
          sync.rows_processed stats = Z.of_nat (List.length (rows tb))
          /\ page_log (store s') =
             page_log (store s)
             ++ chunks (List.length (rows tb)) (Z.to_nat (sync.batch_size self))
                       (order_by (sync.primary_key tc) (rows tb))).
Proof.
  intros HL Hpk fuel s Hc Ht Hfuel.
  enough (Hwp : wp (sync.sync_postgres_to_mongo fuel self tc)
                   (fun r s' =>
                      exists stats, r = Ok stats
                        /\ (sync.errors stats = [] ->
                            sync.rows_processed stats = Z.of_nat (List.length (rows tb))
                            /\ page_log (store s') =
                               page_log (store s)
                               ++ chunks (List.length (rows tb))
                                         (Z.to_nat (sync.batch_size self))
                                         (order_by (sync.primary_key tc) (rows tb))))
                   s).
  { unfold wp in Hwp.
    destruct (sync.sync_postgres_to_mongo fuel self tc s) as [r s'].
    cbn [fst snd] in Hwp. destruct Hwp as (stats & -> & Hst).
    exists stats, s'. split; [reflexivity | exact Hst]. }
  unfold sync.sync_postgres_to_mongo.
  wp_steps.
  unfold wp at 1.
  rewrite (mem_get_row_count _ (sync.name tc) tb); [|exact Hc | exact Ht].
  cbn [fst snd].
  wp_steps.
  eapply wp_mono;
    [|apply wp_conj;
      [apply while_offset_counts
      |apply (while_offset_mem self tc tb HL Hpk fuel 0);
       [exact Hc | exact Ht | lia
       | cbn [Z.to_nat skipn]; rewrite order_by_length; exact Hfuel]]].
  cbn [heap store clock logs sync.errors sync.rows_processed Z.to_nat skipn].
  rewrite order_by_length.
  intros [[]|e|] s2 ((He & _) & (Hnd & Hok)); [| |contradiction].
  - destruct (Hok eq_refl) as (Hlog & Hproc).
    wp_steps. eexists. split; [reflexivity|].
    intros _. cbn [sync.set_completed_at sync.rows_processed store heap].
    split; [rewrite Hproc; lia | exact Hlog].
  - wp_steps. eexists. split; [reflexivity|].
    cbn [sync.set_completed_at sync.append_error sync.errors heap].
    intros Herr. apply app_eq_nil in Herr as [_ Herr]. discriminate.
Qed.

(** *** Documents in the in-memory collection *)














Section MemWrites.
Context {H : Type}.



End MemWrites.

(** *** [sync_postgres_to_mongo] when no row can fail *)


Section MemPass.
Context {RT : Runtime}.
Variables (self : sync.DataSync) (tc : sync.table_config) (tb : pg_table).

(** Every row of the table has the key column, and conflict resolution
    cannot raise on it. *)
Hypothesis rows_keyed :
  forall row, In row (rows tb) -> dict_mem row (sync.primary_key tc) = true.
Hypothesis rows_safe :
  (sync.strategy (sync.resolver self) =? "latest_wins")%string = false
  \/ forall row, In row (rows tb) ->
       sync._get_timestamp (sync._convert_pg_to_mongo row) = None.



Hypothesis page_size : 1 <= sync.batch_size self.
Hypothesis key_column : In (sync.primary_key tc) (columns tb).



End MemPass.








Lemma C4_failure_of_one_mapping_witness :
  let s0 := initial_state examples.engine_stats0 examples.w0 in
  let body := sync_engine.sync_mapping 10 examples.pg_to_mongo_config in
  fst (sync_engine.dispatch 10 examples.pg_to_mongo_config examples.ghost_mapping s0)
    = Raise (DatabaseError "relation does not exist: ghost")
  /\ for_each ([] ++ examples.ghost_mapping :: [examples.users_mapping]) body s0 =
     for_each [examples.users_mapping] body
       (mk_state (sync_engine.incr_errors examples.engine_stats0) examples.w0 0
          [mk_log INFO "Syncing {table} -> {collection}" [FStr "ghost"; FStr "ghost"];
           mk_log ERROR "Error syncing {mapping.postgres_table}: {e}"
                  [FStr "ghost"; FExn (DatabaseError "relation does not exist: ghost")]]).
Proof.
  split; [reflexivity|].
  apply (proj1 (C4_failure_of_one_mapping example_runtime world mem_store)
               10%nat examples.pg_to_mongo_config [] examples.ghost_mapping
               [examples.users_mapping]
               (initial_state examples.engine_stats0 examples.w0)
               (initial_state examples.engine_stats0 examples.w0)
               (mk_state examples.engine_stats0 examples.w0 0
                  [mk_log INFO "Syncing {table} -> {collection}"
                          [FStr "ghost"; FStr "ghost"]])
               (DatabaseError "relation does not exist: ghost"));
    reflexivity.
Defined.

(** A cycle of the baseline engine over the same two mappings ends
    normally: one error counted, the two users exported. *)
Example baseline_cycle_survives_ghost :
  fst (sync_engine.sync_once 10 examples.pg_to_mongo_config
         [examples.ghost_mapping; examples.users_mapping]
         (initial_state examples.engine_stats0 examples.w0))
  = Ok (sync_engine.mk_SyncStats (Aware 0) 2 0 0 1).
Proof. vm_compute. reflexivity. Qed.

(** Scenario D run on the in-memory store: three pages of 1000, 1000 and
    500 rows, 2,500 rows processed, no error. *)
Example scenario_D :
  map (@List.length dict) (page_log (store (snd examples.run_big))) =
    [1000; 1000; 500]%nat
  /\ (exists st, fst examples.run_big = Ok st
                 /\ sync.rows_processed st = 2500
                 /\ sync.rows_inserted st = 2500
                 /\ sync.errors st = []).
Proof.
  vm_compute. split; [reflexivity|]. eexists. repeat split.
Qed.

(* ===================================================================== *)
(** * Further properties of the engines *)
(* ===================================================================== *)

Import more_examples.

(** ** Dictionaries built entry by entry *)

Lemma dict_set_fresh d k v :
  ~ In k (dict_keys d) -> dict_set d k v = d ++ [(k, v)].
Proof.
  induction d as [|[k0 v0] d IH]; cbn; intros Hn.
  - reflexivity.
  - destruct (String.eqb_spec k0 k) as [->|Hne].
    + exfalso. apply Hn. now left.
    + f_equal. apply IH. intros Hin. apply Hn. now right.
Qed.

Lemma dict_keys_app (a b : dict) : dict_keys (a ++ b) = dict_keys a ++ dict_keys b.
Proof. unfold dict_keys. apply map_app. Qed.

(** Rebuilding a dictionary with unique keys, each value through [f], gives
    the entries in their order. *)
Lemma fold_dict_set_map (f : value -> value) (row : dict) :
  forall acc,
    NoDup (dict_keys acc ++ dict_keys row) ->
    fold_left (fun converted kv => dict_set converted (fst kv) (f (snd kv))) row acc
    = acc ++ map (fun kv => (fst kv, f (snd kv))) row.
Proof.
  induction row as [|[k v] row IH]; intros acc Hnd; cbn [fold_left map].
  - now rewrite app_nil_r.
  - cbn [fst snd]. rewrite dict_set_fresh.
    + rewrite IH.
      * rewrite <- app_assoc. reflexivity.
      * rewrite dict_keys_app. cbn. rewrite <- app_assoc. exact Hnd.
    + intros Hin. cbn in Hnd. apply NoDup_remove_2 in Hnd.
      apply Hnd. apply in_or_app. now left.
Qed.

Lemma In_dict_set k v d k0 v0 :
  In (k, v) (dict_set d k0 v0) -> (k, v) = (k0, v0) \/ In (k, v) d.
Proof.
  induction d as [|[k1 v1] d IH]; cbn.
  - intros [Heq|[]]. left. now symmetry.
  - destruct (String.eqb_spec k1 k0) as [->|Hne]; cbn.
    + intros [Heq|Hin]; [left; now symmetry | right; now right].
    + intros [Heq|Hin]; [right; now left|].
      destruct (IH Hin) as [Heq|Hin']; [now left | right; now right].
Qed.

(** ** sync.py: the record converters *)

Lemma convert_value_idempotent {RT : Runtime} v :
  sync.convert_value (sync.convert_value v) = sync.convert_value v.
Proof. destruct v; reflexivity. Qed.

Lemma convert_pg_to_mongo_map {RT : Runtime} (row : dict) :
  NoDup (dict_keys row) ->
  sync._convert_pg_to_mongo row
  = map (fun kv => (fst kv, sync.convert_value (snd kv))) row.
Proof.
  intros Hnd. unfold sync._convert_pg_to_mongo.
  rewrite (fold_dict_set_map sync.convert_value row []); [reflexivity | exact Hnd].
Qed.



(** [sync_rest._convert_mongo_to_pg] drops [_id] and nothing else. *)
Lemma convert_mongo_to_pg_filter (doc : dict) :
  forall acc,
    NoDup (dict_keys acc ++ dict_keys doc) ->
    fold_left sync_rest.mongo_to_pg_item doc acc
    = acc ++ filter (fun kv => negb (fst kv =? "_id")%string) doc.
Proof.
  induction doc as [|[k v] doc IH]; intros acc Hnd; cbn [fold_left filter].
  - now rewrite app_nil_r.
  - unfold sync_rest.mongo_to_pg_item at 2. cbn [fst snd].
    assert (Hnd' : NoDup (dict_keys acc ++ dict_keys doc)).
    { cbn in Hnd. now apply NoDup_remove_1 in Hnd. }
    destruct (k =? "_id")%string; cbn [negb].
    + now apply IH.
    + rewrite dict_set_fresh.
      * rewrite IH.
        -- rewrite <- app_assoc. reflexivity.
        -- rewrite dict_keys_app. cbn. rewrite <- app_assoc. exact Hnd.
      * intros Hin. cbn in Hnd. apply NoDup_remove_2 in Hnd.
        apply Hnd. apply in_or_app. now left.
Qed.

(** X2: The round trip of sync.py: a row without an [_id] column whose values
    need no conversion comes back from [_convert_pg_to_mongo] and
    [_convert_mongo_to_pg] as it was, also when the store has put its own
    [_id] in front of the document. *)
Theorem sync_convert_round_trip :
  forall (RT : Runtime) (row : dict),
    NoDup (dict_keys row) ->
    dict_lookup row "_id" = None ->
    (forall k v, In (k, v) row -> sync.convert_value v = v) ->
    sync_rest._convert_mongo_to_pg (sync._convert_pg_to_mongo row) = row
    /\ forall oid,
        sync_rest._convert_mongo_to_pg (("_id", oid) :: sync._convert_pg_to_mongo row)
        = row.
Proof.
  intros RT row Hnd Hid Hplain.
  pose proof (convert_pg_to_mongo_map row Hnd) as Hmap.
  assert (Hsame : sync._convert_pg_to_mongo row = row).
  { rewrite Hmap. clear Hmap Hnd Hid.
    induction row as [|[k v] row IH]; [reflexivity|].
    cbn [map fst snd]. rewrite (Hplain k v) by now left.
    f_equal. apply IH. intros k' v' Hin. apply (Hplain k' v'). now right. }
  assert (Hback : sync_rest._convert_mongo_to_pg row = row).
  { unfold sync_rest._convert_mongo_to_pg.
    rewrite convert_mongo_to_pg_filter by exact Hnd. cbn [app].
    clear Hsame Hmap Hnd Hplain.
    induction row as [|[k v] row IH]; [reflexivity|].
    cbn [filter fst]. cbn [dict_lookup] in Hid.
    destruct (String.eqb_spec k "_id") as [->|Hne]; [discriminate|].
    cbn [negb]. f_equal. now apply IH. }
  rewrite Hsame. split; [exact Hback|].
  intros oid. unfold sync_rest._convert_mongo_to_pg. cbn [fold_left].
  exact Hback.
Qed.

Lemma sync_convert_round_trip_witness :
  NoDup (dict_keys examples.ann)
  /\ sync_rest._convert_mongo_to_pg
       (("_id", VObjectId "0") :: sync._convert_pg_to_mongo (RT := example_runtime) examples.ann)
     = examples.ann.
Proof.
  assert (Hnd : NoDup (dict_keys examples.ann)).
  { repeat constructor; cbn; intuition discriminate. }
  split; [exact Hnd|].
  assert (Hplain : forall k v, In (k, v) examples.ann ->
                     sync.convert_value (RT := example_runtime) v = v).
  { intros k v [Heq|[Heq|[]]]; inversion Heq; reflexivity. }
  apply (proj2 (sync_convert_round_trip example_runtime examples.ann Hnd eq_refl Hplain)).
Defined.

(** ** sync.py: what [ConflictResolver.resolve] can answer *)

(** X3: [ConflictResolver.resolve] answers with the source document itself or
    with [None]: the target is never returned and nothing is merged.  It
    raises only under [latest_wins], and then the [TypeError] of comparing a
    naive with an aware timestamp. *)
Theorem resolve_source_or_skip :
  forall (RT : Runtime) (self : sync.ConflictResolver) (source_doc : dict)
         (target_doc : option dict) (source_type : string),
    sync.resolve self source_doc target_doc source_type = Ok (Some source_doc)
    \/ sync.resolve self source_doc target_doc source_type = Ok None
    \/ (sync.strategy self = "latest_wins"
        /\ exists target source_time target_time,
            target_doc = Some target
            /\ sync._get_timestamp source_doc = Some source_time
            /\ sync._get_timestamp target = Some target_time
            /\ same_kind source_time target_time = false
            /\ sync.resolve self source_doc target_doc source_type
               = Raise (TypeError "can't compare offset-naive and offset-aware datetimes")).
Proof.
  intros RT self source_doc [target|] source_type; [|now left].
  unfold sync.resolve.
  destruct (sync.strategy self =? "source_wins")%string; [now left|].
  destruct (sync.strategy self =? "postgres_priority")%string.
  { destruct (source_type =? "postgres")%string; [now left | right; now left]. }
  destruct (sync.strategy self =? "mongo_priority")%string.
  { destruct (source_type =? "mongo")%string; [now left | right; now left]. }
  destruct (String.eqb_spec (sync.strategy self) "latest_wins") as [Hs|_]; [|now left].
  destruct (sync._get_timestamp source_doc) as [st|] eqn:Est;
    destruct (sync._get_timestamp target) as [tt'|] eqn:Ett;
    [| now left | right; now left | now left].
  destruct st as [x|x], tt' as [y|y]; cbn [datetime_ge].
  - destruct (y <=? x); [now left | right; now left].
  - right; right. split; [exact Hs|].
    exists target, (Naive x), (Aware y). repeat split; assumption.
  - right; right. split; [exact Hs|].
    exists target, (Aware x), (Naive y). repeat split; assumption.
  - destruct (y <=? x); [now left | right; now left].
Qed.

(** ** sync_engine.py: [_normalize_doc] *)

Lemma normalize_fold_values {RT : Runtime} (P : value -> Prop) :
  (forall s, P (VStr s)) ->
  forall doc acc,
    (forall k v, In (k, v) acc -> P v) ->
    (forall k v, In (k, v) doc -> P v \/ (exists h, v = VObjectId h) \/ (exists d, v = VDatetime d)) ->
    forall k v, In (k, v) (fold_left sync_engine.normalize_item doc acc) -> P v.
Proof.
  intros HP doc. induction doc as [|[k0 v0] doc IH]; intros acc Hacc Hdoc k v; cbn [fold_left].
  - apply Hacc.
  - apply IH.
    + intros k1 v1 Hin. unfold sync_engine.normalize_item in Hin.
      destruct (Hdoc k0 v0 (or_introl eq_refl)) as [Hp|[[h ->]|[d ->]]].
      * assert (Hset : In (k1, v1) (dict_set acc k0 v0) -> P v1).
        { intros Hi. apply In_dict_set in Hi as [Heq|Hi];
            [inversion Heq; subst; exact Hp | now apply (Hacc k1)]. }
        destruct v0; try (now apply Hset).
        -- apply In_dict_set in Hin as [Heq|Hi];
             [inversion Heq; subst; apply HP | now apply (Hacc k1)].
        -- destruct (k0 =? "_id")%string; [now apply (Hacc k1)|].
           apply In_dict_set in Hin as [Heq|Hi];
             [inversion Heq; subst; apply HP | now apply (Hacc k1)].
      * destruct (k0 =? "_id")%string; [now apply (Hacc k1)|].
        apply In_dict_set in Hin as [Heq|Hi];
          [inversion Heq; subst; apply HP | now apply (Hacc k1)].
      * apply In_dict_set in Hin as [Heq|Hi];
          [inversion Heq; subst; apply HP | now apply (Hacc k1)].
    + intros k1 v1 Hin. apply (Hdoc k1). now right.
Qed.

Lemma normalize_fold_NoDup {RT : Runtime} doc :
  forall acc, NoDup (dict_keys acc) ->
              NoDup (dict_keys (fold_left sync_engine.normalize_item doc acc)).
Proof.
  induction doc as [|[k v] doc IH]; intros acc Hnd; cbn [fold_left].
  - exact Hnd.
  - apply IH. unfold sync_engine.normalize_item.
    destruct v; try (now apply dict_set_NoDup).
    destruct (k =? "_id")%string; [exact Hnd | now apply dict_set_NoDup].
Qed.

Lemma normalize_fold_plain {RT : Runtime} doc :
  forall acc,
    NoDup (dict_keys acc ++ dict_keys doc) ->
    (forall k v, In (k, v) doc -> (forall h, v <> VObjectId h) /\ (forall d, v <> VDatetime d)) ->
    fold_left sync_engine.normalize_item doc acc = acc ++ doc.
Proof.
  induction doc as [|[k v] doc IH]; intros acc Hnd Hplain; cbn [fold_left].
  - now rewrite app_nil_r.
  - assert (Hitem : sync_engine.normalize_item acc (k, v) = acc ++ [(k, v)]).
    { destruct (Hplain k v (or_introl eq_refl)) as [Ho Hd].
      unfold sync_engine.normalize_item.
      rewrite <- (dict_set_fresh acc k v).
      - destruct v; try reflexivity; [now destruct (Hd d) | now destruct (Ho hex)].
      - intros Hin. cbn in Hnd. apply NoDup_remove_2 in Hnd.
        apply Hnd. apply in_or_app. now left. }
    rewrite Hitem, IH.
    + rewrite <- app_assoc. reflexivity.
    + rewrite dict_keys_app. cbn. rewrite <- app_assoc. exact Hnd.
    + intros k' v' Hin. apply (Hplain k'). now right.
Qed.

(** X4: [SyncEngine._normalize_doc] leaves no [ObjectId] and no [datetime] in a
    document, and normalising a second time changes nothing. *)
Theorem normalize_doc_idempotent :
  forall (RT : Runtime) (doc : dict),
    (forall k v, In (k, v) (sync_engine._normalize_doc doc) ->
       (forall h, v <> VObjectId h) /\ (forall d, v <> VDatetime d))
    /\ sync_engine._normalize_doc (sync_engine._normalize_doc doc)
       = sync_engine._normalize_doc doc.
Proof.
  intros RT doc.
  assert (Hplain : forall k v, In (k, v) (sync_engine._normalize_doc doc) ->
                     (forall h, v <> VObjectId h) /\ (forall d, v <> VDatetime d)).
  { unfold sync_engine._normalize_doc.
    apply (normalize_fold_values
             (fun v => (forall h, v <> VObjectId h) /\ (forall d, v <> VDatetime d))).
    - intros s. split; discriminate.
    - intros k v [].
    - intros k v _. destruct v; try (left; split; discriminate).
      + right; right. now exists d.
      + right; left. now exists hex. }
  split; [exact Hplain|].
  unfold sync_engine._normalize_doc at 1.
  rewrite normalize_fold_plain; [reflexivity | | exact Hplain].
  cbn [dict_keys map app]. apply normalize_fold_NoDup. constructor.
Qed.

(** ** datasync/datasync/sync.py: the way back *)

Lemma mongo_to_pg_fold_keys doc :
  forall acc,
    (forall k, In k (dict_keys acc) -> startswith_underscore k = false) ->
    forall k, In k (dict_keys (fold_left datasync_sync.mongo_to_pg_item doc acc)) ->
              startswith_underscore k = false.
Proof.
  induction doc as [|[k0 v0] doc IH]; intros acc Hacc; cbn [fold_left].
  - exact Hacc.
  - apply IH. intros k Hin. unfold datasync_sync.mongo_to_pg_item in Hin.
    destruct (startswith_underscore k0) eqn:Hu.
    + destruct (k0 =? "_pg_id")%string; [|now apply Hacc].
      apply dict_keys_set in Hin as [->|Hin]; [reflexivity | now apply Hacc].
    + apply dict_keys_set in Hin as [->|Hin]; [exact Hu | now apply Hacc].
Qed.



Lemma mongo_to_pg_record_keys doc :
  forall k, In k (dict_keys (fold_left datasync_sync.mongo_to_pg_item doc [])) ->
            startswith_underscore k = false.
Proof. apply mongo_to_pg_fold_keys. intros k []. Qed.


Lemma mongo_to_pg_fold_other doc :
  forall acc k,
    startswith_underscore k = false ->
    (k = "id" -> dict_lookup doc "_pg_id" = None) ->
    NoDup (dict_keys doc) ->
    dict_lookup (fold_left datasync_sync.mongo_to_pg_item doc acc) k =
    match dict_lookup doc k with
    | Some v => Some v
    | None => dict_lookup acc k
    end.
Proof.
  induction doc as [|[k0 v0] doc IH]; intros acc k Hk Hid Hnd; cbn [fold_left dict_lookup].
  - reflexivity.
  - inversion Hnd as [|? ? Hnin Hnd']; subst.
    assert (Hid' : k = "id" -> dict_lookup doc "_pg_id" = None).
    { intros Hk'. specialize (Hid Hk'). cbn [dict_lookup] in Hid.
      destruct (k0 =? "_pg_id")%string; [discriminate | exact Hid]. }
    rewrite (IH _ _ Hk Hid' Hnd').
    destruct (String.eqb_spec k0 k) as [->|Hne].
    + rewrite (dict_lookup_not_in _ _ Hnin).
      unfold datasync_sync.mongo_to_pg_item. rewrite Hk.
      rewrite dict_lookup_set, String.eqb_refl. reflexivity.
    + destruct (dict_lookup doc k); [reflexivity|].
      unfold datasync_sync.mongo_to_pg_item.
      destruct (startswith_underscore k0) eqn:Hu.
      * destruct (String.eqb_spec k0 "_pg_id") as [->|Hne'].
        -- rewrite dict_lookup_set.
           destruct (String.eqb_spec "id" k) as [<-|Hne'']; [|reflexivity].
           specialize (Hid eq_refl). cbn in Hid. discriminate.
        -- reflexivity.
      * rewrite dict_lookup_set.
        destruct (String.eqb_spec k0 k); [congruence | reflexivity].
Qed.

(** X6: The round trip of datasync/datasync/sync.py, field by field: a row
    without a [_pg_id] column comes back from [_convert_pg_to_mongo] and
    [_convert_mongo_to_pg] with every column whose name does not start with
    an underscore, and without the others. *)
Theorem datasync_round_trip_fields :
  forall (now : datetime) (row : dict),
    NoDup (dict_keys row) ->
    dict_lookup row "_pg_id" = None ->
    match datasync_sync._convert_mongo_to_pg
            (datasync_sync._convert_pg_to_mongo now row) with
    | Some record =>
        forall k, dict_lookup record k
                  = if startswith_underscore k then None else dict_lookup row k
    | None =>
        forall k, startswith_underscore k = false -> dict_lookup row k = None
    end.
Proof.
  intros now row Hnd Hpg.
  set (doc := datasync_sync._convert_pg_to_mongo now row).
  assert (Hdoc : forall k, startswith_underscore k = false ->
                           dict_lookup doc k = dict_lookup row k).
  { intros k Hk. unfold doc, datasync_sync._convert_pg_to_mongo.
    rewrite dict_lookup_set.
    destruct (String.eqb_spec "_synced_at" k) as [<-|_]; [discriminate|].
    rewrite (pg_to_mongo_fold_other row [] k); [|intros ->; discriminate | exact Hnd].
    destruct (dict_lookup row k); reflexivity. }
  assert (Hdoc_pg : dict_lookup doc "_pg_id" = dict_lookup row "id").
  { unfold doc, datasync_sync._convert_pg_to_mongo.
    rewrite dict_lookup_set. cbn [String.eqb Ascii.eqb Bool.eqb].
    rewrite (pg_to_mongo_fold_pg_id _ _ Hnd Hpg).
    destruct (dict_lookup row "id"); reflexivity. }
  assert (Hdoc_nd : NoDup (dict_keys doc)).
  { unfold doc, datasync_sync._convert_pg_to_mongo.
    apply dict_set_NoDup, pg_to_mongo_fold_NoDup. constructor. }
  assert (Hfold : forall k, startswith_underscore k = false ->
             dict_lookup (fold_left datasync_sync.mongo_to_pg_item doc []) k
             = dict_lookup row k).
  { intros k Hk.
    destruct (String.eqb_spec k "id") as [->|Hne].
    - destruct (dict_lookup row "id") as [v|] eqn:Hid.
      + apply mongo_to_pg_fold_id.
        * intros k x Hin [->| ->];
            pose proof (dict_in_lookup _ _ _ Hdoc_nd Hin) as Hl.
          -- rewrite Hdoc_pg in Hl. congruence.
          -- rewrite (Hdoc "id" eq_refl), Hid in Hl. congruence.
        * right. exists v. right. apply dict_lookup_In.
          now rewrite (Hdoc "id" eq_refl).
      + rewrite (mongo_to_pg_fold_other doc [] "id" eq_refl); [|now intros _ | exact Hdoc_nd].
        rewrite (Hdoc "id" eq_refl), Hid. reflexivity.
    - rewrite (mongo_to_pg_fold_other doc [] k Hk); [|congruence | exact Hdoc_nd].
      rewrite (Hdoc k Hk). destruct (dict_lookup row k); reflexivity. }
  pose proof (mongo_to_pg_record_keys doc) as Hkeys.
  unfold datasync_sync._convert_mongo_to_pg.
  destruct (fold_left datasync_sync.mongo_to_pg_item doc []) as [|e r] eqn:Hf;
    cbn [dict_truthy].
  - intros k Hk. rewrite <- (Hfold k Hk). reflexivity.
  - intros k. destruct (startswith_underscore k) eqn:Hu.
    + apply dict_lookup_not_in. intros Hin. specialize (Hkeys k Hin). congruence.
    + apply (Hfold k Hu).
Qed.

Lemma datasync_round_trip_fields_witness :
  NoDup (dict_keys examples.ann)
  /\ dict_lookup examples.ann "_pg_id" = None
  /\ match datasync_sync._convert_mongo_to_pg
             (datasync_sync._convert_pg_to_mongo (Naive 0) examples.ann) with
     | Some record =>
         forall k, dict_lookup record k
                   = if startswith_underscore k then None else dict_lookup examples.ann k
     | None =>
         forall k, startswith_underscore k = false -> dict_lookup examples.ann k = None
     end.
Proof.
  assert (Hnd : NoDup (dict_keys examples.ann)).
  { repeat constructor; cbn; intuition discriminate. }
  split; [exact Hnd|]. split; [reflexivity|].
  apply (datasync_round_trip_fields (Naive 0) examples.ann Hnd eq_refl).
Defined.

(** ** Loops over a page *)

Section PageLoops.
Context {H W : Type}.

(** What every step keeps, the loop keeps, however it ends. *)
Lemma for_each_frame {A B} (xs : list A) (body : A -> M H W unit) (g : H -> B) :
  (forall x s, wp (body x) (fun _ s' => g (heap s') = g (heap s)) s) ->
  forall s, wp (for_each xs body) (fun _ s' => g (heap s') = g (heap s)) s.
Proof.
  intros Hb. induction xs as [|x xs IH]; intros s; cbn [for_each].
  - apply wp_ret. reflexivity.
  - apply wp_bind. eapply wp_mono; [|apply Hb].
    intros [[]|e|] s1 Hg; cbv beta iota; [|exact Hg..].
    eapply wp_mono; [|apply IH]. cbv beta. intros _ s2 Hg2. congruence.
Qed.

(** A measure that each completed step raises by one is raised by the
    length of the page when the loop completes. *)
Lemma for_each_count {A} (xs : list A) (body : A -> M H W unit) (f : H -> Z) :
  (forall x s, wp (body x) (fun r s' => r = Ok tt -> f (heap s') = f (heap s) + 1) s) ->
  forall s, wp (for_each xs body)
               (fun r s' => r = Ok tt -> f (heap s') = f (heap s) + Z.of_nat (List.length xs)) s.
Proof.
  intros Hb. induction xs as [|x xs IH]; intros s; cbn [for_each].
  - apply wp_ret. intros _. cbn. lia.
  - apply wp_bind. eapply wp_mono; [|apply Hb].
    intros [[]|e|] s1 Hf; cbv beta iota; [|discriminate..].
    eapply wp_mono; [|apply IH]. cbv beta. intros r s2 Hf2 Hr.
    rewrite (Hf2 Hr), (Hf eq_refl).
    change (List.length (x :: xs)) with (S (List.length xs)). lia.
Qed.

(** A measure that each step raises by one at most is raised by the length
    of the page at most, however the loop ends. *)
Lemma for_each_bound {A} (xs : list A) (body : A -> M H W unit) (f : H -> Z) :
  (forall x s, wp (body x) (fun _ s' => f (heap s) <= f (heap s') <= f (heap s) + 1) s) ->
  forall s, wp (for_each xs body)
               (fun _ s' => f (heap s) <= f (heap s')
                                       <= f (heap s) + Z.of_nat (List.length xs)) s.
Proof.
  intros Hb. induction xs as [|x xs IH]; intros s; cbn [for_each].
  - apply wp_ret. cbn. lia.
  - change (List.length (x :: xs)) with (S (List.length xs)).
    apply wp_bind. eapply wp_mono; [|apply Hb].
    intros [[]|e|] s1 Hf; cbv beta iota; [|lia..].
    eapply wp_mono; [|apply IH]. cbv beta. intros _ s2 Hf2. lia.
Qed.

End PageLoops.

(** ** sync_engine.py: the counters of a page *)

Section BaselinePages.
Context {RT : Runtime} {W : Type} `{Store W}.

Lemma keeps_heap_mongo_upsert c doc pk :
  keeps_heap (sync_engine.mongo_upsert c doc pk : M sync_engine.SyncStats W unit).
Proof. unfold sync_engine.mongo_upsert. keeps. Qed.

Lemma keeps_heap_pg_execute q :
  keeps_heap (sync_engine.pg_execute q : M sync_engine.SyncStats W unit).
Proof. unfold sync_engine.pg_execute. keeps. Qed.



(** One row of a page either reaches MongoDB and is counted in
    [pg_to_mongo], or fails and is counted in [errors]. *)
Lemma pg_to_mongo_row_counts mapping row s :
  wp (sync_engine.pg_to_mongo_row mapping row)
     (fun r s' =>
        (forall e, r <> Raise e)
        /\ sync_engine.mongo_to_pg (heap s') = sync_engine.mongo_to_pg (heap s)
        /\ sync_engine.conflicts (heap s') = sync_engine.conflicts (heap s)
        /\ sync_engine.started_at (heap s') = sync_engine.started_at (heap s)
        /\ (r = Ok tt ->
            sync_engine.pg_to_mongo (heap s') + sync_engine.errors (heap s')
            = sync_engine.pg_to_mongo (heap s) + sync_engine.errors (heap s) + 1))
     s.
Proof.
  unfold sync_engine.pg_to_mongo_row.
  apply wp_try_except.
  assert (Hfail : forall e (s1 : state sync_engine.SyncStats W),
             heap s1 = heap s ->
             wp (bind (logger ERROR "Error syncing row {row.get(pk)}: {e}"
                              [FVal (dict_get row (sync_engine.primary_key mapping)); FExn e])
                      (fun _ => modify_heap sync_engine.incr_errors))
                (fun r s' =>
                   (forall e, r <> Raise e)
                   /\ sync_engine.mongo_to_pg (heap s') = sync_engine.mongo_to_pg (heap s)
                   /\ sync_engine.conflicts (heap s') = sync_engine.conflicts (heap s)
                   /\ sync_engine.started_at (heap s') = sync_engine.started_at (heap s)
                   /\ (r = Ok tt ->
                       sync_engine.pg_to_mongo (heap s') + sync_engine.errors (heap s')
                       = sync_engine.pg_to_mongo (heap s) + sync_engine.errors (heap s) + 1))
                s1).
  { intros e s1 Hs1. wp_steps. cbn. rewrite Hs1.
    split; [discriminate|]. repeat split. intros _. lia. }
  wp_step. wp_step. wp_step.
  apply wp_keeps_heap.
  { destruct (sync_engine.transform_to_mongo mapping); auto with heap. }
  intros [doc|e|] s1 Hs1; cbn [heap] in Hs1.
  - wp_step. apply wp_keeps_heap; [apply keeps_heap_mongo_upsert|].
    intros [[]|e|] s2 Hs2.
    + wp_step. cbn. rewrite Hs2, Hs1.
      split; [discriminate|]. repeat split. intros _. lia.
    + apply Hfail. congruence.
    + rewrite Hs2, Hs1. split; [discriminate|]. repeat split. discriminate.
  - apply Hfail. exact Hs1.
  - rewrite Hs1. split; [discriminate|]. repeat split. discriminate.
Qed.

End BaselinePages.

(** X7: The page loop of [sync_pg_to_mongo] never raises, whatever the clients
    and the transform do; it touches neither [mongo_to_pg] nor [conflicts];
    and when it completes, every row of the page is counted once, in
    [pg_to_mongo] or in [errors]. *)
Theorem pg_to_mongo_page_counts :
  forall (RT : Runtime) (W : Type) (St : Store W)
         (mapping : sync_engine.TableMapping) (rows : list dict)
         (s : state sync_engine.SyncStats W),
    let out := for_each rows (sync_engine.pg_to_mongo_row mapping) s in
    (forall e, fst out <> Raise e)
    /\ sync_engine.mongo_to_pg (heap (snd out)) = sync_engine.mongo_to_pg (heap s)
    /\ sync_engine.conflicts (heap (snd out)) = sync_engine.conflicts (heap s)
    /\ (fst out = Ok tt ->
        sync_engine.pg_to_mongo (heap (snd out)) + sync_engine.errors (heap (snd out))
        = sync_engine.pg_to_mongo (heap s) + sync_engine.errors (heap s)
          + Z.of_nat (List.length rows)).
Proof.
  intros RT W St mapping rows s out. subst out.
  split.
  { apply for_each_never_raises. intros x s0.
    exact (proj1 (pg_to_mongo_row_counts mapping x s0)). }
  split.
  { apply (for_each_frame rows _ sync_engine.mongo_to_pg).
    intros x s0. eapply wp_mono; [|apply pg_to_mongo_row_counts].
    cbv beta. intros r s' Hr. apply Hr. }
  split.
  { apply (for_each_frame rows _ sync_engine.conflicts).
    intros x s0. eapply wp_mono; [|apply pg_to_mongo_row_counts].
    cbv beta. intros r s' Hr. apply Hr. }
  apply (for_each_count rows _
           (fun h => sync_engine.pg_to_mongo h + sync_engine.errors h)).
  intros x s0. eapply wp_mono; [|apply pg_to_mongo_row_counts].
  cbv beta. intros r s' Hr. apply Hr.
Qed.

(** ** sync_engine.py: a document that is dropped without a trace *)

Lemma normalize_fold_absent {RT : Runtime} doc k :
  forall acc,
    dict_lookup doc k = None ->
    dict_lookup (fold_left sync_engine.normalize_item doc acc) k = dict_lookup acc k.
Proof.
  induction doc as [|[k0 v0] doc IH]; intros acc Hk; cbn [fold_left].
  - reflexivity.
  - cbn [dict_lookup] in Hk.
    destruct (String.eqb_spec k0 k) as [->|Hne]; [discriminate|].
    rewrite (IH _ Hk). unfold sync_engine.normalize_item.
    assert (Hset : forall v, dict_lookup (dict_set acc k0 v) k = dict_lookup acc k).
    { intros v. rewrite dict_lookup_set.
      destruct (String.eqb_spec k0 k); [congruence | reflexivity]. }
    destruct v0; try apply Hset.
    destruct (k0 =? "_id")%string; [reflexivity | apply Hset].
Qed.

Lemma normalize_fold_falsy {RT : Runtime} doc k v :
  forall acc,
    NoDup (dict_keys doc) ->
    dict_lookup doc k = Some v ->
    truthy v = false ->
    dict_lookup (fold_left sync_engine.normalize_item doc acc) k = Some v.
Proof.
  induction doc as [|[k0 v0] doc IH]; intros acc Hnd Hk Hv; cbn [fold_left].
  - discriminate.
  - inversion Hnd as [|? ? Hnin Hnd']; subst.
    cbn [dict_lookup] in Hk.
    destruct (String.eqb_spec k0 k) as [->|Hne].
    + inversion Hk; subst v0.
      rewrite normalize_fold_absent by now apply dict_lookup_not_in.
      unfold sync_engine.normalize_item.
      destruct v; try discriminate; rewrite dict_lookup_set, String.eqb_refl; reflexivity.
    + now apply IH.
Qed.

Lemma filter_columns_fold {RT : Runtime} cols d k :
  forall acc,
    dict_lookup
      (fold_left (fun filtered kv =>
                    if sync_engine.in_columns cols (fst kv)
                    then dict_set filtered (fst kv) (snd kv) else filtered) d acc) k
    = match dict_lookup acc k with
      | Some v =>
          Some (if sync_engine.in_columns cols k
                then match dict_lookup (rev d) k with Some v' => v' | None => v end
                else v)
      | None =>
          if sync_engine.in_columns cols k then dict_lookup (rev d) k else None
      end.
Proof.
  induction d as [|[k0 v0] d IH]; intros acc; cbn [fold_left rev].
  - cbn. destruct (dict_lookup acc k), (sync_engine.in_columns cols k); reflexivity.
  - rewrite IH. cbn [fst snd].
    assert (Hrev : dict_lookup (rev d ++ [(k0, v0)]) k
                   = match dict_lookup (rev d) k with
                     | Some v => Some v
                     | None => if (k0 =? k)%string then Some v0 else None
                     end).
    { generalize (rev d). intros l. induction l as [|[k1 v1] l IHl]; cbn.
      - reflexivity.
      - destruct (k1 =? k)%string; [reflexivity | exact IHl]. }
    rewrite Hrev.
    destruct (sync_engine.in_columns cols k0) eqn:Hc0.
    + rewrite dict_lookup_set.
      destruct (String.eqb_spec k0 k) as [->|Hne].
      * rewrite Hc0. destruct (dict_lookup (rev d) k), (dict_lookup acc k); reflexivity.
      * destruct (dict_lookup acc k), (sync_engine.in_columns cols k),
          (dict_lookup (rev d) k); reflexivity.
    + destruct (String.eqb_spec k0 k) as [->|Hne].
      * rewrite Hc0. destruct (dict_lookup acc k); reflexivity.
      * destruct (dict_lookup acc k), (sync_engine.in_columns cols k),
          (dict_lookup (rev d) k); reflexivity.
Qed.

Lemma dict_lookup_rev d k :
  NoDup (dict_keys d) -> dict_lookup (rev d) k = dict_lookup d k.
Proof.
  intros Hnd.
  destruct (dict_lookup d k) as [v|] eqn:Hl.
  - apply dict_in_lookup.
    + unfold dict_keys. rewrite map_rev. apply NoDup_rev. exact Hnd.
    + apply in_rev. rewrite rev_involutive. now apply dict_lookup_In.
  - apply dict_lookup_not_in. unfold dict_keys. rewrite map_rev.
    intros Hin. apply in_rev in Hin.
    destruct (dict_lookup d k) eqn:Hl'; [discriminate|].
    revert Hl'. clear Hl. induction d as [|[k0 v0] d IH]; cbn in *; [contradiction|].
    inversion Hnd; subst.
    destruct (String.eqb_spec k0 k) as [->|Hne]; [discriminate|].
    destruct Hin as [Heq|Hin]; [congruence | now apply IH].
Qed.

Lemma filter_columns_lookup {RT : Runtime} cols d k :
  NoDup (dict_keys d) ->
  dict_lookup (sync_engine.filter_columns cols d) k
  = if sync_engine.in_columns cols k then dict_lookup d k else None.
Proof.
  intros Hnd. unfold sync_engine.filter_columns.
  rewrite filter_columns_fold. cbn [dict_lookup].
  now rewrite dict_lookup_rev.
Qed.

(** X8: A document whose key is missing or false ([None], [0], [''], ...), or
    whose key field is not a column of the table, is dropped by the loop of
    [sync_mongo_to_pg] without a statement, a counter or a log line: only
    the clock has been read. *)
Theorem mongo_to_pg_doc_drops_silently :
  forall (RT : Runtime) (W : Type) (St : Store W)
         (mapping : sync_engine.TableMapping) (pg_columns : list value)
         (doc : dict) (s : state sync_engine.SyncStats W),
    NoDup (dict_keys doc) ->
    sync_engine.transform_to_pg mapping = None ->
    sync_engine.primary_key mapping <> sync_engine.SYNC_METADATA_FIELD ->
    truthy (dict_get doc (sync_engine.primary_key mapping)) = false
    \/ sync_engine.in_columns pg_columns (sync_engine.primary_key mapping) = false ->
    sync_engine.mongo_to_pg_doc mapping pg_columns doc s
    = (Ok tt, mk_state (heap s) (store s) (clock s + 1) (logs s)).
Proof.
  intros RT W St mapping pg_columns doc s Hnd Htr Hpk Hdrop.
  assert (Hfalsy :
            forall t,
              truthy (dict_get
                        (dict_set (sync_engine.filter_columns pg_columns
                                     (sync_engine._normalize_doc doc))
                                  sync_engine.SYNC_METADATA_FIELD (VDatetime t))
                        (sync_engine.primary_key mapping)) = false).
  { intros t. unfold dict_get. rewrite dict_lookup_set.
    destruct (String.eqb_spec sync_engine.SYNC_METADATA_FIELD
                              (sync_engine.primary_key mapping)) as [Heq|_];
      [congruence|].
    rewrite filter_columns_lookup
      by (apply normalize_fold_NoDup; constructor).
    destruct Hdrop as [Hv|Hc]; [|now rewrite Hc].
    destruct (sync_engine.in_columns pg_columns (sync_engine.primary_key mapping));
      [|reflexivity].
    unfold sync_engine._normalize_doc. unfold dict_get in Hv.
    destruct (dict_lookup doc (sync_engine.primary_key mapping)) as [v|] eqn:Hl.
    - rewrite (normalize_fold_falsy doc _ v [] Hnd Hl Hv). exact Hv.
    - rewrite (normalize_fold_absent doc _ [] Hl). reflexivity. }
  unfold sync_engine.mongo_to_pg_doc. rewrite Htr.
  unfold try_except, bind, ret, now_utc. cbn [heap store clock logs].
  rewrite Hfalsy. reflexivity.
Qed.

Lemma mongo_to_pg_doc_drops_silently_witness :
  let doc := [("id", VInt 0); ("name", VStr "Zed")] in
  NoDup (dict_keys doc)
  /\ truthy (dict_get doc "id") = false
  /\ sync_engine.mongo_to_pg_doc examples.users_mapping [VStr "id"; VStr "name"] doc
       (initial_state examples.engine_stats0 examples.w0)
     = (Ok tt, mk_state examples.engine_stats0 examples.w0 1 []).
Proof.
  intros doc.
  assert (Hnd : NoDup (dict_keys doc)).
  { repeat constructor; cbn; intuition discriminate. }
  split; [exact Hnd|]. split; [reflexivity|].
  apply (mongo_to_pg_doc_drops_silently example_runtime world mem_store
           examples.users_mapping [VStr "id"; VStr "name"] doc
           (initial_state examples.engine_stats0 examples.w0) Hnd eq_refl).
  - discriminate.
  - left. reflexivity.
Defined.

Section BaselineBounds.
Context {RT : Runtime} {W : Type} `{Store W}.

(** One document of a page is written and counted in [mongo_to_pg], fails
    and is counted in [errors], or is dropped and counted nowhere. *)
Lemma mongo_to_pg_doc_counts mapping cols doc s :
  wp (sync_engine.mongo_to_pg_doc mapping cols doc)
     (fun r s' =>
        (forall e, r <> Raise e)
        /\ sync_engine.pg_to_mongo (heap s') = sync_engine.pg_to_mongo (heap s)
        /\ sync_engine.conflicts (heap s') = sync_engine.conflicts (heap s)
        /\ sync_engine.mongo_to_pg (heap s) + sync_engine.errors (heap s)
           <= sync_engine.mongo_to_pg (heap s') + sync_engine.errors (heap s')
           <= sync_engine.mongo_to_pg (heap s) + sync_engine.errors (heap s) + 1)
     s.
Proof.
  unfold sync_engine.mongo_to_pg_doc.
  apply wp_try_except.
  assert (Hfail : forall e (s1 : state sync_engine.SyncStats W),
             heap s1 = heap s ->
             wp (bind (logger ERROR "Error syncing doc {doc.get(pk)}: {e}"
                              [FVal (dict_get doc (sync_engine.primary_key mapping)); FExn e])
                      (fun _ => modify_heap sync_engine.incr_errors))
                (fun r s' =>
                   (forall e, r <> Raise e)
                   /\ sync_engine.pg_to_mongo (heap s') = sync_engine.pg_to_mongo (heap s)
                   /\ sync_engine.conflicts (heap s') = sync_engine.conflicts (heap s)
                   /\ sync_engine.mongo_to_pg (heap s) + sync_engine.errors (heap s)
                      <= sync_engine.mongo_to_pg (heap s') + sync_engine.errors (heap s')
                      <= sync_engine.mongo_to_pg (heap s) + sync_engine.errors (heap s) + 1)
                s1).
  { intros e s1 Hs1. wp_steps. cbn. rewrite Hs1.
    split; [discriminate|]. repeat split; lia. }
  wp_step.
  apply wp_keeps_heap.
  { destruct (sync_engine.transform_to_pg mapping); auto with heap. }
  intros [normalized|e|] s1 Hs1.
  - wp_step. wp_step.
    match goal with |- context [if ?c then _ else _] => destruct c end.
    + wp_step. cbn. rewrite Hs1. split; [discriminate|]. repeat split; lia.
    + wp_step. apply wp_keeps_heap; [apply keeps_heap_pg_execute|].
      cbn [heap]. intros [[]|e|] s2 Hs2.
      * wp_step. cbn. rewrite Hs2, Hs1. split; [discriminate|]. repeat split; lia.
      * apply Hfail. congruence.
      * rewrite Hs2, Hs1. split; [discriminate|]. repeat split; lia.
  - apply Hfail. exact Hs1.
  - rewrite Hs1. split; [discriminate|]. repeat split; lia.
Qed.



End BaselineBounds.

(** X9: The page loop of [sync_mongo_to_pg] never raises and touches neither
    [pg_to_mongo] nor [conflicts]; a document is counted once at most, in
    [mongo_to_pg] or in [errors], so the two counters together grow by the
    length of the page at most. *)
Theorem mongo_to_pg_page_bound :
  forall (RT : Runtime) (W : Type) (St : Store W)
         (mapping : sync_engine.TableMapping) (pg_columns : list value)
         (docs : list dict) (s : state sync_engine.SyncStats W),
    let out := for_each docs (sync_engine.mongo_to_pg_doc mapping pg_columns) s in
    (forall e, fst out <> Raise e)
    /\ sync_engine.pg_to_mongo (heap (snd out)) = sync_engine.pg_to_mongo (heap s)
    /\ sync_engine.conflicts (heap (snd out)) = sync_engine.conflicts (heap s)
    /\ sync_engine.mongo_to_pg (heap s) + sync_engine.errors (heap s)
       <= sync_engine.mongo_to_pg (heap (snd out)) + sync_engine.errors (heap (snd out))
       <= sync_engine.mongo_to_pg (heap s) + sync_engine.errors (heap s)
          + Z.of_nat (List.length docs).
Proof.
  intros RT W St mapping pg_columns docs s out. subst out.
  split.
  { apply for_each_never_raises. intros x s0.
    exact (proj1 (mongo_to_pg_doc_counts mapping pg_columns x s0)). }
  split.
  { apply (for_each_frame docs _ sync_engine.pg_to_mongo).
    intros x s0. eapply wp_mono; [|apply mongo_to_pg_doc_counts].
    cbv beta. intros r s' Hr. apply Hr. }
  split.
  { apply (for_each_frame docs _ sync_engine.conflicts).
    intros x s0. eapply wp_mono; [|apply mongo_to_pg_doc_counts].
    cbv beta. intros r s' Hr. apply Hr. }
  apply (for_each_bound docs _
           (fun h => sync_engine.mongo_to_pg h + sync_engine.errors h)).
  intros x s0. eapply wp_mono; [|apply mongo_to_pg_doc_counts].
  cbv beta. intros r s' Hr. apply Hr.
Qed.


(** ** sync_engine.py: a direction the engine does not know *)

Lemma unknown_direction_mappings {RT : Runtime} {W : Type} `{Store W}
      fuel config mappings (s : state sync_engine.SyncStats W) :
  sync_engine.sync_direction config <> "pg_to_mongo" ->
  sync_engine.sync_direction config <> "mongo_to_pg" ->
  sync_engine.sync_direction config <> "bidirectional" ->
  for_each mappings (sync_engine.sync_mapping fuel config) s
  = (Ok tt,
     mk_state (heap s) (store s) (clock s)
       (logs s ++ map (fun _ => mk_log ERROR "Unknown sync direction: {direction}"
                                       [FStr (sync_engine.sync_direction config)])
                      mappings)).
Proof.
  intros H1 H2 H3. revert s.
  induction mappings as [|m ms IH]; intros s; cbn [for_each map].
  - rewrite app_nil_r. destruct s; reflexivity.
  - unfold bind at 1.
    assert (Hm : sync_engine.sync_mapping fuel config m s
                 = (Ok tt, mk_state (heap s) (store s) (clock s)
                             (logs s ++ [mk_log ERROR "Unknown sync direction: {direction}"
                                           [FStr (sync_engine.sync_direction config)]]))).
    { unfold sync_engine.sync_mapping, sync_engine.dispatch.
      destruct (String.eqb_spec (sync_engine.sync_direction config) "pg_to_mongo");
        [contradiction|].
      destruct (String.eqb_spec (sync_engine.sync_direction config) "mongo_to_pg");
        [contradiction|].
      destruct (String.eqb_spec (sync_engine.sync_direction config) "bidirectional");
        [contradiction|].
      reflexivity. }
    rewrite Hm, IH. cbn [heap store clock logs].
    rewrite <- app_assoc. reflexivity.
Qed.

(** X11: With a [sync_direction] other than [pg_to_mongo], [mongo_to_pg] and
    [bidirectional], [sync_once] reports success with every counter at zero:
    no client is called, nothing is counted in [errors], and the only trace
    is one ERROR line for each mapping in the log. *)
Theorem unknown_direction_syncs_nothing :
  forall (RT : Runtime) (W : Type) (St : Store W) (fuel : nat)
         (config : sync_engine.Config) (mappings : list sync_engine.TableMapping)
         (s : state sync_engine.SyncStats W),
    sync_engine.sync_direction config <> "pg_to_mongo" ->
    sync_engine.sync_direction config <> "mongo_to_pg" ->
    sync_engine.sync_direction config <> "bidirectional" ->
    let out := sync_engine.sync_once fuel config mappings s in
    fst out = Ok (sync_engine.mk_SyncStats (Aware (clock s)) 0 0 0 0)
    /\ store (snd out) = store s
    /\ logs (snd out)
       = logs s
         ++ [mk_log INFO "Starting sync cycle (direction: {direction})"
               [FStr (sync_engine.sync_direction config)]]
         ++ map (fun _ => mk_log ERROR "Unknown sync direction: {direction}"
                            [FStr (sync_engine.sync_direction config)]) mappings
         ++ [mk_log INFO "Sync complete: PG->Mongo={stats.pg_to_mongo}, Mongo->PG={stats.mongo_to_pg}, conflicts={stats.conflicts}, errors={stats.errors}"
               [FInt 0; FInt 0; FInt 0; FInt 0]].
Proof.
  intros RT W St fuel config mappings s H1 H2 H3 out.
  assert (Hrun : exists s',
             out = (Ok (sync_engine.mk_SyncStats (Aware (clock s)) 0 0 0 0), s')
             /\ store s' = store s
             /\ logs s'
                = ((logs s
                    ++ [mk_log INFO "Starting sync cycle (direction: {direction})"
                          [FStr (sync_engine.sync_direction config)]])
                   ++ map (fun _ => mk_log ERROR "Unknown sync direction: {direction}"
                                      [FStr (sync_engine.sync_direction config)]) mappings)
                  ++ [mk_log INFO "Sync complete: PG->Mongo={stats.pg_to_mongo}, Mongo->PG={stats.mongo_to_pg}, conflicts={stats.conflicts}, errors={stats.errors}"
                        [FInt 0; FInt 0; FInt 0; FInt 0]]).
  { subst out. unfold sync_engine.sync_once.
    unfold bind at 1, now_utc at 1.
    unfold bind at 1, modify_heap at 1.
    unfold bind at 1, logger at 1.
    unfold bind at 1.
    rewrite (unknown_direction_mappings fuel config mappings _ H1 H2 H3).
    cbn. eexists. split; [reflexivity|]. split; reflexivity. }
  destruct Hrun as (s' & -> & Hs & Hl). cbn [fst snd].
  split; [reflexivity|]. split; [exact Hs|].
  rewrite Hl, <- !app_assoc. reflexivity.
Qed.

Lemma unknown_direction_syncs_nothing_witness :
  let config := sync_engine.mk_Config "latest_wins" "both" 1000 in
  let out := sync_engine.sync_once 10 config [examples.users_mapping]
               (initial_state examples.engine_stats0 examples.w0) in
  fst out = Ok (sync_engine.mk_SyncStats (Aware 0) 0 0 0 0)
  /\ store (snd out) = examples.w0.
Proof.
  intros config out.
  destruct (unknown_direction_syncs_nothing example_runtime world mem_store 10 config
              [examples.users_mapping] (initial_state examples.engine_stats0 examples.w0))
    as (Hr & Hs & _); [discriminate..|].
  split; [exact Hr | exact Hs].
Defined.

(** ** The sequential engine: the counters of a page *)

Section SeqPages.
Context {RT : Runtime} {W : Type} `{Store W}.

Lemma keeps_heap_mongo_coll :
  keeps_heap (seq_sync_engine.mongo_coll : M seq_sync_engine.SyncResult W unit).
Proof.
  intros s. unfold seq_sync_engine.mongo_coll.
  destruct (negb (mongo_open (store s))); reflexivity.
Qed.

Lemma keeps_heap_pool_getconn :
  keeps_heap (seq_sync_engine.pool_getconn : M seq_sync_engine.SyncResult W unit).
Proof.
  intros s. unfold seq_sync_engine.pool_getconn.
  destruct (negb (pool_open (store s))); [reflexivity | apply keeps_heap_call].
Qed.

(** [_upsert_to_mongo] answers [True] or [False]: it never raises, and it
    leaves the result of the table as it is. *)
Lemma upsert_to_mongo_never_raises collection doc s :
  wp (seq_sync_engine._upsert_to_mongo collection doc)
     (fun r s' => (forall e, r <> Raise e) /\ heap s' = heap s) s.
Proof.
  unfold seq_sync_engine._upsert_to_mongo.
  apply wp_try_except.
  wp_step. apply wp_keeps_heap; [apply keeps_heap_mongo_coll|].
  intros [[]|e|] s1 Hs1.
  - wp_step. apply wp_keeps_heap.
    { destruct (truthy _); apply keeps_heap_call. }
    intros [[]|e|] s2 Hs2.
    + wp_step. split; [discriminate | congruence].
    + wp_steps. cbn. split; [discriminate | congruence].
    + split; [discriminate | congruence].
  - wp_steps. cbn. split; [discriminate | exact Hs1].
  - split; [discriminate | exact Hs1].
Qed.

Lemma keeps_heap_upsert_to_postgres table record pk_col :
  keeps_heap (seq_sync_engine._upsert_to_postgres table record pk_col).
Proof.
  unfold seq_sync_engine._upsert_to_postgres. keeps. apply keeps_heap_pool_getconn.
Qed.

Lemma postgres_to_mongo_record_counts table pk_col record s :
  wp (seq_sync_engine.postgres_to_mongo_record table pk_col record)
     (fun r s' =>
        (forall e, r <> Raise e)
        /\ seq_sync_engine.records_skipped (heap s') = seq_sync_engine.records_skipped (heap s)
        /\ seq_sync_engine.conflicts_resolved (heap s')
           = seq_sync_engine.conflicts_resolved (heap s)
        /\ (r = Ok tt ->
            seq_sync_engine.records_synced (heap s')
            + Z.of_nat (List.length (seq_sync_engine.errors (heap s')))
            = seq_sync_engine.records_synced (heap s)
              + Z.of_nat (List.length (seq_sync_engine.errors (heap s))) + 1))
     s.
Proof.
  unfold seq_sync_engine.postgres_to_mongo_record.
  wp_step. wp_step. wp_step.
  eapply wp_mono; [|apply upsert_to_mongo_never_raises].
  cbn [heap]. intros [[|]|e|] s1 [Hne Hs1].
  - wp_step. cbn. rewrite Hs1. split; [discriminate|]. repeat split. intros _. lia.
  - wp_step. cbn. rewrite Hs1. split; [discriminate|]. repeat split. intros _.
    rewrite length_app. cbn. lia.
  - exfalso. now apply (Hne e).
  - rewrite Hs1. split; [discriminate|]. repeat split. discriminate.
Qed.

Lemma mongo_to_postgres_doc_counts table pk_col doc s :
  wp (seq_sync_engine.mongo_to_postgres_doc table pk_col doc)
     (fun r s' =>
        seq_sync_engine.conflicts_resolved (heap s')
        = seq_sync_engine.conflicts_resolved (heap s)
        /\ (r = Ok tt ->
            seq_sync_engine.records_synced (heap s')
            + seq_sync_engine.records_skipped (heap s')
            + Z.of_nat (List.length (seq_sync_engine.errors (heap s')))
            = seq_sync_engine.records_synced (heap s)
              + seq_sync_engine.records_skipped (heap s)
              + Z.of_nat (List.length (seq_sync_engine.errors (heap s))) + 1))
     s.
Proof.
  unfold seq_sync_engine.mongo_to_postgres_doc.
  destruct (seq_sync_engine.from_postgres doc).
  - wp_step. cbn. split; [reflexivity|]. intros _. lia.
  - wp_step. apply wp_keeps_heap; [apply keeps_heap_upsert_to_postgres|].
    intros [[|]|e|] s1 Hs1.
    + wp_step. cbn. rewrite Hs1. split; [reflexivity|]. intros _. lia.
    + wp_step. cbn. rewrite Hs1. split; [reflexivity|]. intros _.
      rewrite length_app. cbn. lia.
    + rewrite Hs1. split; [reflexivity | discriminate].
    + rewrite Hs1. split; [reflexivity | discriminate].
Qed.

End SeqPages.

(** X12: Sequential engine, PostgreSQL to MongoDB: the loop over a page never
    raises, whatever the clients do; it leaves [records_skipped] and
    [conflicts_resolved] alone; and when it completes, every record of the
    page has added one to [records_synced] or one message to [errors]. *)
Theorem seq_pg_to_mongo_page_counts :
  forall (RT : Runtime) (W : Type) (St : Store W) (table pk_col : string)
         (records : list dict) (s : state seq_sync_engine.SyncResult W),
    let out := for_each records (seq_sync_engine.postgres_to_mongo_record table pk_col) s in
    (forall e, fst out <> Raise e)
    /\ seq_sync_engine.records_skipped (heap (snd out))
       = seq_sync_engine.records_skipped (heap s)
    /\ seq_sync_engine.conflicts_resolved (heap (snd out))
       = seq_sync_engine.conflicts_resolved (heap s)
    /\ (fst out = Ok tt ->
        seq_sync_engine.records_synced (heap (snd out))
        + Z.of_nat (List.length (seq_sync_engine.errors (heap (snd out))))
        = seq_sync_engine.records_synced (heap s)
          + Z.of_nat (List.length (seq_sync_engine.errors (heap s)))
          + Z.of_nat (List.length records)).
Proof.
  intros RT W St table pk_col records s out. subst out.
  split.
  { apply for_each_never_raises. intros x s0.
    exact (proj1 (postgres_to_mongo_record_counts table pk_col x s0)). }
  split.
  { apply (for_each_frame records _ seq_sync_engine.records_skipped).
    intros x s0. eapply wp_mono; [|apply postgres_to_mongo_record_counts].
    cbv beta. intros r s' Hr. apply Hr. }
  split.
  { apply (for_each_frame records _ seq_sync_engine.conflicts_resolved).
    intros x s0. eapply wp_mono; [|apply postgres_to_mongo_record_counts].
    cbv beta. intros r s' Hr. apply Hr. }
  apply (for_each_count records _
           (fun h => seq_sync_engine.records_synced h
                     + Z.of_nat (List.length (seq_sync_engine.errors h)))).
  intros x s0. eapply wp_mono; [|apply postgres_to_mongo_record_counts].
  cbv beta. intros r s' Hr. apply Hr.
Qed.

(** X13: Sequential engine, MongoDB to PostgreSQL: a page that is processed to
    its end has counted each document once, as synced, as skipped or as an
    error message; [conflicts_resolved] is never touched. *)
Theorem seq_mongo_to_pg_page_counts :
  forall (RT : Runtime) (W : Type) (St : Store W) (table pk_col : string)
         (docs : list dict) (s : state seq_sync_engine.SyncResult W),
    let out := for_each docs (seq_sync_engine.mongo_to_postgres_doc table pk_col) s in
    seq_sync_engine.conflicts_resolved (heap (snd out))
    = seq_sync_engine.conflicts_resolved (heap s)
    /\ (fst out = Ok tt ->
        seq_sync_engine.records_synced (heap (snd out))
        + seq_sync_engine.records_skipped (heap (snd out))
        + Z.of_nat (List.length (seq_sync_engine.errors (heap (snd out))))
        = seq_sync_engine.records_synced (heap s)
          + seq_sync_engine.records_skipped (heap s)
          + Z.of_nat (List.length (seq_sync_engine.errors (heap s)))
          + Z.of_nat (List.length docs)).
Proof.
  intros RT W St table pk_col docs s out. subst out.
  split.
  { apply (for_each_frame docs _ seq_sync_engine.conflicts_resolved).
    intros x s0. eapply wp_mono; [|apply mongo_to_postgres_doc_counts].
    cbv beta. intros r s' Hr. apply Hr. }
  apply (for_each_count docs _
           (fun h => seq_sync_engine.records_synced h
                     + seq_sync_engine.records_skipped h
                     + Z.of_nat (List.length (seq_sync_engine.errors h)))).
  intros x s0. eapply wp_mono; [|apply mongo_to_postgres_doc_counts].
  cbv beta. intros r s' Hr. apply Hr.
Qed.

(** ** The sequential engine: the primary key of a table *)

(** X14: [_get_primary_key] answers ['id'] when the catalogue query raises and
    when it returns no row, as long as the connection can be taken from the
    pool and given back. *)
Theorem get_primary_key_falls_back :
  forall (RT : Runtime) (W : Type) (St : Store W) (table : string)
         (s : state seq_sync_engine.SyncResult W) (w1 w2 w3 : W)
         (r : result reply),
    pool_open (store s) = true ->
    getconn (store s) = (Ok tt, w1) ->
    execute (SelectPrimaryKey table) w1 = (r, w2) ->
    (exists e, r = Raise e) \/ (exists n, r = Ok (mk_reply [] n)) ->
    putconn w2 = (Ok tt, w3) ->
    seq_sync_engine._get_primary_key table s
    = (Ok "id", mk_state (heap s) w3 (clock s) (logs s)).
Proof.
  intros RT W St table s w1 w2 w3 r Hopen Hget Hexec Hr Hput.
  unfold seq_sync_engine._get_primary_key.
  unfold bind at 1. unfold seq_sync_engine.pool_getconn. rewrite Hopen. cbn [negb].
  unfold call at 1. rewrite Hget. cbn [heap store clock logs].
  unfold try_finally, try_except.
  unfold bind at 1. unfold call at 1. cbn [heap store clock logs]. rewrite Hexec.
  destruct Hr as [[e ->]|[n ->]]; cbn [heap store clock logs fetchall];
    unfold ret, lift, call; cbn [heap store clock logs seq_sync_engine.first_column];
    rewrite Hput; reflexivity.
Qed.

Lemma get_primary_key_falls_back_witness :
  seq_sync_engine._get_primary_key
    "ghost" (initial_state (seq_sync_engine.mk_SyncResult 0 0 0 []) examples.w0)
  = (Ok "id", mk_state (seq_sync_engine.mk_SyncResult 0 0 0 []) examples.w0 0 []).
Proof.
  apply (get_primary_key_falls_back example_runtime world mem_store "ghost"
           (initial_state (seq_sync_engine.mk_SyncResult 0 0 0 []) examples.w0)
           examples.w0 examples.w0 examples.w0 (Raise (no_table "ghost"))).
  - reflexivity.
  - reflexivity.
  - reflexivity.
  - left. now exists (no_table "ghost").
  - reflexivity.
Defined.

(** X15: The lookup of the primary key is outside the [try] of [sync_table]: on an
    engine that was never connected [sync_table] raises the
    [AttributeError] of [None.getconn] instead of returning a result, and
    so does the loop of [sync_all] at its first table.  The databases are
    not touched. *)
Theorem sync_table_raises_when_not_connected :
  forall (RT : Runtime) (W : Type) (St : Store W) (fuel : nat)
         (config : seq_sync_engine.SyncConfig) (table : string) (rest : list string)
         (results : list (string * seq_sync_engine.SyncResult))
         (s : state seq_sync_engine.SyncResult W),
    pool_open (store s) = false ->
    fst (seq_sync_engine.sync_table fuel config table s)
    = Raise (AttributeError "'NoneType' object has no attribute 'getconn'")
    /\ store (snd (seq_sync_engine.sync_table fuel config table s)) = store s
    /\ fst (seq_sync_engine.sync_tables fuel config (table :: rest) results s)
       = Raise (AttributeError "'NoneType' object has no attribute 'getconn'")
    /\ store (snd (seq_sync_engine.sync_tables fuel config (table :: rest) results s))
       = store s.
Proof.
  intros RT W St fuel config table rest results s Hclosed.
  assert (Ht : seq_sync_engine.sync_table fuel config table s
               = (Raise (AttributeError "'NoneType' object has no attribute 'getconn'"),
                  mk_state (seq_sync_engine.mk_SyncResult 0 0 0 []) (store s)
                           (clock s) (logs s))).
  { unfold seq_sync_engine.sync_table.
    unfold bind at 1, modify_heap at 1.
    unfold bind at 1. unfold seq_sync_engine._get_primary_key.
    unfold bind at 1. unfold seq_sync_engine.pool_getconn at 1.
    cbn [heap store clock logs]. rewrite Hclosed. reflexivity. }
  cbn [seq_sync_engine.sync_tables]. unfold bind at 1 2.
  rewrite Ht. repeat split.
Qed.

Lemma sync_table_raises_when_not_connected_witness :
  let w := mk_world false [("users", examples.users)] [] 0 [] in
  fst (seq_sync_engine.sync_table 10
         (seq_sync_engine.mk_SyncConfig "postgres_to_mongo" 100 ["users"] "latest_wins")
         "users" (initial_state (seq_sync_engine.mk_SyncResult 0 0 0 []) w))
  = Raise (AttributeError "'NoneType' object has no attribute 'getconn'").
Proof.
  intros w.
  apply (sync_table_raises_when_not_connected example_runtime world mem_store 10
           (seq_sync_engine.mk_SyncConfig "postgres_to_mongo" 100 ["users"] "latest_wins")
           "users" [] [] (initial_state (seq_sync_engine.mk_SyncResult 0 0 0 []) w)
           eq_refl).
Defined.

(** ** The sequential engine: [_resolve_conflict] *)

(** X16: [_resolve_conflict] under any strategy but the two priorities: when both
    sides carry a datetime of the same kind, PostgreSQL wins only with the
    strictly later one, so a tie goes to MongoDB; the time of the MongoDB
    side is [_sync_at], the time of the last synchronisation, before
    [updated_at]; and the answer is ['postgres'] or ['mongo'] whenever the
    comparison returns. *)
Theorem seq_resolve_conflict_tie_goes_to_mongo :
  forall (py_gt : value -> value -> result bool)
         (config : seq_sync_engine.SyncConfig) (pg_record mongo_doc : dict),
    (forall (a b : datetime),
        seq_sync_engine.conflict_resolution config <> "postgres_priority" ->
        seq_sync_engine.conflict_resolution config <> "mongo_priority" ->
        dict_lookup pg_record "updated_at" = Some (VDatetime a) ->
        dict_lookup mongo_doc "_sync_at" = Some (VDatetime b) ->
        same_kind a b = true ->
        seq_rest._resolve_conflict py_gt config pg_record mongo_doc
        = Ok (if instant b <? instant a then "postgres" else "mongo"))
    /\ (forall winner,
           seq_rest._resolve_conflict py_gt config pg_record mongo_doc = Ok winner ->
           winner = "postgres" \/ winner = "mongo").
Proof.
  intros py_gt config pg_record mongo_doc. split.
  - intros a b Hp Hm Hpg Hmongo Hkind.
    unfold seq_rest._resolve_conflict.
    destruct (String.eqb_spec (seq_sync_engine.conflict_resolution config)
                              "postgres_priority"); [contradiction|].
    destruct (String.eqb_spec (seq_sync_engine.conflict_resolution config)
                              "mongo_priority"); [contradiction|].
    unfold dict_get. rewrite Hpg, Hmongo. cbn [py_or truthy andb seq_rest.value_gt].
    destruct a as [x|x], b as [y|y]; try discriminate; reflexivity.
  - intros winner. unfold seq_rest._resolve_conflict.
    destruct (_ =? "postgres_priority")%string; [intros [= <-]; now left|].
    destruct (_ =? "mongo_priority")%string; [intros [= <-]; now right|].
    destruct (_ && _).
    + destruct (seq_rest.value_gt _ _ _) as [[|]|e|]; intros [= <-]; auto.
    + destruct (truthy _); [intros [= <-]; now left|].
      destruct (truthy _); intros [= <-]; auto.
Qed.

Lemma seq_resolve_conflict_tie_goes_to_mongo_witness :
  seq_rest._resolve_conflict (fun _ _ => Raise (TypeError "unorderable"))
    (seq_sync_engine.mk_SyncConfig "bidirectional" 100 [] "latest_wins")
    examples.pg_42
    [("id", VInt 42); ("updated_at", VDatetime (Aware 1)); ("_sync_at", VDatetime (Aware 5))]
  = Ok "mongo".
Proof.
  apply (proj1 (seq_resolve_conflict_tie_goes_to_mongo
                  (fun _ _ => Raise (TypeError "unorderable"))
                  (seq_sync_engine.mk_SyncConfig "bidirectional" 100 [] "latest_wins")
                  examples.pg_42
                  [("id", VInt 42); ("updated_at", VDatetime (Aware 1));
                   ("_sync_at", VDatetime (Aware 5))])
               (Aware 5) (Aware 5));
    first [discriminate | reflexivity].
Defined.

(** ** sync.py: from MongoDB to PostgreSQL *)

Section Invariants.
Context {H W : Type}.
Variable I : H -> Prop.

Lemma keeps_of_keeps_heap {A} (m : M H W A) : keeps_heap m -> sync_rest.keeps I m.
Proof. intros Hk s Hs. now rewrite Hk. Qed.

Lemma keeps_modify_heap (f : H -> H) :
  (forall h, I h -> I (f h)) -> sync_rest.keeps I (modify_heap f : M H W unit).
Proof. intros Hf s Hs. cbn. auto. Qed.

Lemma keeps_bind {A B} (m : M H W A) (k : A -> M H W B) :
  sync_rest.keeps I m -> (forall a, sync_rest.keeps I (k a)) ->
  sync_rest.keeps I (bind m k).
Proof.
  intros Hm Hk s Hs. unfold bind. specialize (Hm s Hs).
  destruct (m s) as [[a|e|] s1]; cbn in *; auto.
  now apply Hk.
Qed.

Lemma keeps_try_except {A} (body : M H W A) handler :
  sync_rest.keeps I body -> (forall e, sync_rest.keeps I (handler e)) ->
  sync_rest.keeps I (try_except body handler).
Proof.
  intros Hb Hh s Hs. unfold try_except. specialize (Hb s Hs).
  destruct (body s) as [[a|e|] s1]; cbn in *; auto.
  now apply Hh.
Qed.

Lemma keeps_try_finally {A} (body : M H W A) final :
  sync_rest.keeps I body -> sync_rest.keeps I final ->
  sync_rest.keeps I (try_finally body final).
Proof.
  intros Hb Hf s Hs. unfold try_finally. specialize (Hb s Hs).
  destruct (body s) as [[a|e|] s1]; cbn in *; auto.
  - specialize (Hf s1 Hb). destruct (final s1) as [[[]|e'|] s2]; cbn in *; auto.
  - specialize (Hf s1 Hb). destruct (final s1) as [[[]|e'|] s2]; cbn in *; auto.
Qed.

Lemma keeps_cursor `{Store W} {A} (block : M H W A) :
  sync_rest.keeps I block -> sync_rest.keeps I (db.cursor block).
Proof.
  intros Hb s Hs. unfold db.cursor.
  destruct (negb (pool_open (store s))); [exact Hs|].
  revert s Hs. change (sync_rest.keeps I
    (bind (call getconn) (fun _ =>
       try_finally
         (try_except (bind block (fun a => bind (call commit) (fun _ => ret a)))
                     (fun e => bind (call rollback) (fun _ => raise e)))
         (call putconn)) : M H W A)).
  apply keeps_bind; [apply keeps_of_keeps_heap, keeps_heap_call|]. intros _.
  apply keeps_try_finally; [|apply keeps_of_keeps_heap, keeps_heap_call].
  apply keeps_try_except.
  - apply keeps_bind; [exact Hb|]. intros a.
    apply keeps_of_keeps_heap. keeps.
  - intros e. apply keeps_of_keeps_heap. keeps.
Qed.

End Invariants.

(** A block that [PostgresConnection.cursor] runs to a result has itself
    run to that result, and nothing else has touched the objects of the
    call. *)
Lemma cursor_ok {H W : Type} `{Store W} {A} (block : M H W A) s a s' :
  db.cursor block s = (Ok a, s') ->
  exists s1 s2, block s1 = (Ok a, s2) /\ heap s1 = heap s /\ heap s' = heap s2.
Proof.
  unfold db.cursor.
  destruct (negb (pool_open (store s))); [discriminate|].
  unfold bind at 1, call at 1.
  destruct (getconn (store s)) as [[[]|e|] w1]; [|discriminate..].
  unfold try_finally, try_except.
  match goal with |- context [bind block ?k ?s0] =>
    set (s1 := s0); unfold bind at 1
  end.
  destruct (block s1) as [[a'|e|] s2] eqn:Eb.
  - unfold bind at 1, call at 1.
    destruct (commit (store s2)) as [[[]|e|] w2].
    + unfold ret, call. cbn [heap store clock logs].
      destruct (putconn w2) as [[[]|e|] w3]; [|discriminate..].
      intros [= <- <-]. exists s1, s2. split; [exact Eb|]. split; reflexivity.
    + unfold bind, call, raise. cbn [heap store clock logs].
      destruct (rollback w2) as [[[]|e'|] w3]; cbn [heap store clock logs];
        try discriminate;
        destruct (putconn w3) as [[[]|e''|] w4]; discriminate.
    + discriminate.
  - unfold bind, call, raise. cbn [heap store clock logs].
    destruct (rollback (store s2)) as [[[]|e'|] w3]; cbn [heap store clock logs];
      try discriminate;
      destruct (putconn w3) as [[[]|e''|] w4]; discriminate.
  - discriminate.
Qed.

Section MongoToPostgres.
Context {RT : Runtime} {W : Type} `{Store W} `{sync_rest.Cursor W}.

(** The way to PostgreSQL touches the statistics through [add_row_updated]
    and [append_error] only: what these two keep, it keeps. *)
Variable I : sync.SyncStats -> Prop.
Hypothesis I_row_updated : forall st, I st -> I (sync_rest.add_row_updated st).
Hypothesis I_append_error : forall m st, I st -> I (sync.append_error m st).

Lemma upsert_rows_keeps table pk columns rows :
  sync_rest.keeps I (sync_rest.upsert_rows table pk columns rows).
Proof.
  induction rows as [|row rows IH]; cbn [sync_rest.upsert_rows].
  - apply keeps_of_keeps_heap, keeps_heap_ret.
  - apply keeps_bind; [|intros _; exact IH].
    apply keeps_try_except.
    + apply keeps_bind; [apply keeps_of_keeps_heap, keeps_heap_call|]. intros _.
      apply keeps_modify_heap. exact I_row_updated.
    + intros e. apply keeps_modify_heap. apply I_append_error.
Qed.

Lemma upsert_pg_batch_keeps table rows pk :
  sync_rest.keeps I (sync_rest._upsert_pg_batch table rows pk).
Proof.
  unfold sync_rest._upsert_pg_batch. destruct rows as [|first rest].
  - apply keeps_of_keeps_heap, keeps_heap_ret.
  - apply keeps_cursor, upsert_rows_keeps.
Qed.

Lemma cursor_loop_keeps fuel self tc :
  forall i batch, sync_rest.keeps I (sync_rest.cursor_loop fuel self tc i batch).
Proof.
  induction fuel as [|fuel IH]; intros i batch; cbn [sync_rest.cursor_loop].
  - intros s Hs. exact Hs.
  - apply keeps_bind; [apply keeps_of_keeps_heap, keeps_heap_call|].
    intros [doc|].
    + destruct (_ <=? _).
      * apply keeps_bind; [apply upsert_pg_batch_keeps | intros _; apply IH].
      * apply IH.
    + apply keeps_of_keeps_heap, keeps_heap_ret.
Qed.

(** [sync_mongo_to_postgres] always returns its statistics, and they
    satisfy what the fresh statistics satisfy and the mutators keep. *)
Lemma sync_mongo_to_postgres_keeps fuel self tc (s : state sync.SyncStats W) :
  I (sync.mk_SyncStats (sync.name tc) "mongo_to_postgres" (Aware (clock s)) None 0 0 0 0 []) ->
  (forall t st, I st -> I (sync.set_completed_at t st)) ->
  (forall e, fst (sync_rest.sync_mongo_to_postgres fuel self tc s) <> Raise e)
  /\ forall st, fst (sync_rest.sync_mongo_to_postgres fuel self tc s) = Ok st -> I st.
Proof.
  intros Hfresh Hdone.
  set (body :=
    (bind db.mongo_db (fun _ =>
     bind (call (count_documents (sync.collection tc))) (fun total_docs =>
     bind (logger INFO "Total documents to process: {total_docs}" [FInt total_docs]) (fun _ =>
     bind (if sync.batch_size self <? 0
           then raise (ValueError "batch_size must be >= 0") else ret tt) (fun _ =>
     bind (sync_rest.cursor_loop fuel self tc 0 []) (fun batch =>
       match batch with
       | [] => ret tt
       | _ => sync_rest._upsert_pg_batch (sync.name tc) batch (sync.primary_key tc)
       end))))) : M sync.SyncStats W unit)).
  set (handler := fun e : exn =>
    bind (logger ERROR "Error syncing {collection_name}: {e}"
                 [FStr (sync.collection tc); FExn e])
         (fun _ => modify_heap (sync.append_error
                                  ("Error syncing {collection_name}: {e}",
                                   [FStr (sync.collection tc); FExn e])))
    : M sync.SyncStats W unit).
  assert (Hbody : sync_rest.keeps I (try_except body handler)).
  { apply keeps_try_except.
    - unfold body.
      apply keeps_bind; [apply keeps_of_keeps_heap, keeps_heap_mongo_db|]. intros _.
      apply keeps_bind; [apply keeps_of_keeps_heap, keeps_heap_call|]. intros total_docs.
      apply keeps_bind; [apply keeps_of_keeps_heap, keeps_heap_logger|]. intros _.
      apply keeps_bind.
      { apply keeps_of_keeps_heap. destruct (_ <? _); auto with heap. }
      intros _.
      apply keeps_bind; [apply cursor_loop_keeps|]. intros [|row batch].
      + apply keeps_of_keeps_heap, keeps_heap_ret.
      + apply upsert_pg_batch_keeps.
    - intros e. unfold handler.
      apply keeps_bind; [apply keeps_of_keeps_heap, keeps_heap_logger|]. intros _.
      apply keeps_modify_heap. apply I_append_error. }
  assert (Hnr : forall s0 e, fst (try_except body handler s0) <> Raise e).
  { intros s0 e. unfold try_except.
    destruct (body s0) as [[[]|e'|] s1]; cbn; discriminate. }
  assert (Hrun :
    forall r s',
      sync_rest.sync_mongo_to_postgres fuel self tc s = (r, s') ->
      (forall e, r <> Raise e) /\ forall st, r = Ok st -> I st).
  { unfold sync_rest.sync_mongo_to_postgres. fold body. fold handler.
    unfold bind at 1, now_utc at 1.
    unfold bind at 1, modify_heap at 1.
    unfold bind at 1, logger at 1.
    unfold bind at 1. cbn [heap store clock logs].
    match goal with |- context [try_except body handler ?s0] =>
      pose proof (Hbody s0) as Hk; pose proof (Hnr s0) as Hn;
      destruct (try_except body handler s0) as [[[]|e'|] s1]
    end; cbn [fst snd heap] in *.
    - intros r s' [= <- <-]. split; [discriminate|].
      intros st [= <-]. apply Hdone, Hk, Hfresh.
    - exfalso. now apply (Hn e').
    - intros r s' [= <- <-]. split; discriminate. }
  destruct (sync_rest.sync_mongo_to_postgres fuel self tc s) as [r s'] eqn:E.
  exact (Hrun r s' eq_refl).
Qed.

End MongoToPostgres.

Section MongoToPostgresCounts.
Context {RT : Runtime} {W : Type} `{Store W}.

(** The rows of a batch, one by one: every row is either executed and
    counted, or its failure is appended to [errors]; the loop itself never
    raises. *)
Lemma upsert_rows_counts table pk columns rows :
  forall s : state sync.SyncStats W,
    wp (sync_rest.upsert_rows table pk columns rows)
       (fun r s' =>
          (forall e, r <> Raise e)
          /\ (r = Ok tt ->
              sync.rows_processed (heap s') + Z.of_nat (List.length (sync.errors (heap s')))
              = sync.rows_processed (heap s) + Z.of_nat (List.length (sync.errors (heap s)))
                + Z.of_nat (List.length rows)))
       s.
Proof.
  induction rows as [|row rows IH]; intros s; cbn [sync_rest.upsert_rows].
  - apply wp_ret. split; [discriminate|]. intros _. cbn. lia.
  - change (List.length (row :: rows)) with (S (List.length rows)).
    assert (Hnext : forall s1 : state sync.SyncStats W,
               sync.rows_processed (heap s1) + Z.of_nat (List.length (sync.errors (heap s1)))
               = sync.rows_processed (heap s) + Z.of_nat (List.length (sync.errors (heap s))) + 1 ->
               wp (sync_rest.upsert_rows table pk columns rows)
                  (fun r s' =>
                     (forall e, r <> Raise e)
                     /\ (r = Ok tt ->
                         sync.rows_processed (heap s')
                         + Z.of_nat (List.length (sync.errors (heap s')))
                         = sync.rows_processed (heap s)
                           + Z.of_nat (List.length (sync.errors (heap s)))
                           + Z.of_nat (S (List.length rows)))) s1).
    { intros s1 Hs1. eapply wp_mono; [|apply IH]. cbv beta.
      intros r s' [Hne Hc]. split; [exact Hne|]. intros Hr. rewrite (Hc Hr). lia. }
    wp_step. wp_step. wp_step.
    apply wp_call. intros [rep|e|] w Hw; cbv beta iota.
    + wp_step. apply Hnext. cbn. lia.
    + wp_step. apply Hnext. cbn. rewrite length_app. cbn. lia.
    + split; discriminate.
Qed.

End MongoToPostgresCounts.

(** X17: [_upsert_pg_batch] counts a row as processed and as updated together and
    counts nothing as inserted or skipped; a batch that is written to its
    end has, for each of its rows, either counted it or appended a message
    to [errors]; and an empty batch calls no client. *)
Theorem upsert_pg_batch_counts :
  forall (RT : Runtime) (W : Type) (St : Store W)
         (table : string) (rows : list dict) (primary_key : string)
         (s : state sync.SyncStats W),
    let out := sync_rest._upsert_pg_batch table rows primary_key s in
    sync.rows_inserted (heap (snd out)) = sync.rows_inserted (heap s)
    /\ sync.rows_skipped (heap (snd out)) = sync.rows_skipped (heap s)
    /\ sync.rows_processed (heap (snd out)) - sync.rows_updated (heap (snd out))
       = sync.rows_processed (heap s) - sync.rows_updated (heap s)
    /\ (fst out = Ok tt ->
        sync.rows_processed (heap (snd out))
        + Z.of_nat (List.length (sync.errors (heap (snd out))))
        = sync.rows_processed (heap s) + Z.of_nat (List.length (sync.errors (heap s)))
          + Z.of_nat (List.length rows))
    /\ (rows = [] -> out = (Ok tt, s)).
Proof.
  intros RT W St table rows primary_key s out.
  assert (Hkeep :
    sync.rows_inserted (heap (snd out)) = sync.rows_inserted (heap s)
    /\ sync.rows_skipped (heap (snd out)) = sync.rows_skipped (heap s)
    /\ sync.rows_processed (heap (snd out)) - sync.rows_updated (heap (snd out))
       = sync.rows_processed (heap s) - sync.rows_updated (heap s)).
  { apply (upsert_pg_batch_keeps
             (fun st => sync.rows_inserted st = sync.rows_inserted (heap s)
                        /\ sync.rows_skipped st = sync.rows_skipped (heap s)
                        /\ sync.rows_processed st - sync.rows_updated st
                           = sync.rows_processed (heap s) - sync.rows_updated (heap s))).
    - intros st (Hi & Hs & Hp). cbn. repeat split; try assumption. lia.
    - intros m st Hst. exact Hst.
    - repeat split. }
  destruct Hkeep as (Hi & Hs & Hp).
  split; [exact Hi|]. split; [exact Hs|]. split; [exact Hp|].
  split; [|intros ->; reflexivity].
  subst out. unfold sync_rest._upsert_pg_batch.
  destruct rows as [|first rest].
  { intros _. cbn. lia. }
  destruct (db.cursor _ s) as [r s'] eqn:E. cbn [fst snd].
  intros ->. apply cursor_ok in E as (s1 & s2 & Eb & Hs1 & Hs2).
  pose proof (upsert_rows_counts table primary_key (dict_keys first) (first :: rest) s1)
    as Hc.
  unfold wp in Hc. rewrite Eb in Hc. cbn [fst snd] in Hc.
  destruct Hc as [_ Hc]. rewrite Hs2, (Hc eq_refl), Hs1. reflexivity.
Qed.

(** X18: [sync_mongo_to_postgres] never raises: it returns the statistics of the
    collection, completed, in which nothing is counted as inserted or
    skipped and every processed row is counted as updated. *)
Theorem sync_mongo_to_postgres_counts_updates_only :
  forall (RT : Runtime) (W : Type) (St : Store W) (Cu : sync_rest.Cursor W)
         (fuel : nat) (self : sync.DataSync) (tc : sync.table_config)
         (s : state sync.SyncStats W),
    let out := sync_rest.sync_mongo_to_postgres fuel self tc s in
    (forall e, fst out <> Raise e)
    /\ forall st,
        fst out = Ok st ->
        sync.table st = sync.name tc
        /\ sync.direction st = "mongo_to_postgres"
        /\ sync.started_at st = Aware (clock s)
        /\ sync.rows_inserted st = 0
        /\ sync.rows_skipped st = 0
        /\ sync.rows_processed st = sync.rows_updated st.
Proof.
  intros RT W St Cu fuel self tc s out. subst out.
  apply (sync_mongo_to_postgres_keeps
           (fun st => sync.table st = sync.name tc
                      /\ sync.direction st = "mongo_to_postgres"
                      /\ sync.started_at st = Aware (clock s)
                      /\ sync.rows_inserted st = 0
                      /\ sync.rows_skipped st = 0
                      /\ sync.rows_processed st = sync.rows_updated st)).
  - intros st (Ht & Hd & Hs & Hi & Hk & Hp). cbn. repeat split; try assumption. lia.
  - intros m st Hst. exact Hst.
  - repeat split.
  - intros t st Hst. exact Hst.
Qed.

(** ** sync.py: what a pass returns *)

Section PostgresToMongo.
Context {RT : Runtime} {W : Type} `{Store W}.

(** The way to MongoDB touches the statistics through the five mutators
    only: what they keep, it keeps. *)
Variable I : sync.SyncStats -> Prop.
Hypothesis I_inserted : forall st, I st -> I (sync.add_inserted st).
Hypothesis I_updated : forall st, I st -> I (sync.add_updated st).
Hypothesis I_skipped : forall st, I st -> I (sync.add_skipped st).
Hypothesis I_processed : forall n st, 0 <= n -> I st -> I (sync.add_processed n st).
Hypothesis I_append_error : forall m st, I st -> I (sync.append_error m st).

Lemma process_batch_keeps self tc batch :
  forall acc, sync_rest.keeps I (sync.process_batch self tc batch acc).
Proof.
  induction batch as [|row batch IH]; intros acc; cbn [sync.process_batch].
  - apply keeps_of_keeps_heap, keeps_heap_ret.
  - apply keeps_bind; [apply keeps_of_keeps_heap, keeps_heap_lift|]. intros key.
    apply keeps_bind; [apply keeps_of_keeps_heap, keeps_heap_get_document|].
    intros existing.
    apply keeps_bind; [apply keeps_of_keeps_heap, keeps_heap_lift|].
    intros [resolved|].
    + apply keeps_bind; [|intros _; apply IH].
      destruct existing; apply keeps_modify_heap; assumption.
    + apply keeps_bind; [|intros _; apply IH].
      apply keeps_modify_heap; assumption.
Qed.

Lemma while_offset_keeps fuel self tc total_rows :
  forall offset, sync_rest.keeps I (sync.while_offset fuel self tc total_rows offset).
Proof.
  induction fuel as [|fuel IH]; intros offset; cbn [sync.while_offset].
  - intros s Hs. exact Hs.
  - apply keeps_bind; [apply keeps_of_keeps_heap, keeps_heap_lift|].
    intros [|]; [|apply keeps_of_keeps_heap, keeps_heap_ret].
    apply keeps_bind; [apply keeps_of_keeps_heap, keeps_heap_fetch_batch|].
    intros [|row batch]; [apply keeps_of_keeps_heap, keeps_heap_ret|].
    apply keeps_bind; [apply process_batch_keeps|]. intros docs.
    apply keeps_bind.
    { apply keeps_of_keeps_heap. destruct docs; [apply keeps_heap_ret|].
      apply keeps_heap_bind; [apply keeps_heap_upsert_batch | intros ?; apply keeps_heap_ret]. }
    intros _.
    apply keeps_bind.
    { apply keeps_modify_heap. intros st. apply I_processed. lia. }
    intros _.
    apply keeps_bind; [apply keeps_of_keeps_heap; intros s; reflexivity|]. intros st.
    apply keeps_bind; [apply keeps_of_keeps_heap, keeps_heap_lift|]. intros _.
    apply keeps_bind; [apply keeps_of_keeps_heap, keeps_heap_logger|]. intros _.
    apply IH.
Qed.

Lemma sync_postgres_to_mongo_keeps fuel self tc (s : state sync.SyncStats W) :
  I (sync.mk_SyncStats (sync.name tc) "postgres_to_mongo" (Aware (clock s)) None 0 0 0 0 []) ->
  (forall t st, I st -> I (sync.set_completed_at t st)) ->
  (forall e, fst (sync.sync_postgres_to_mongo fuel self tc s) <> Raise e)
  /\ forall st, fst (sync.sync_postgres_to_mongo fuel self tc s) = Ok st -> I st.
Proof.
  intros Hfresh Hdone.
  set (body :=
    (bind (db.get_row_count (sync.name tc)) (fun total_rows =>
     bind (logger INFO "Total rows to process: {total_rows}" [FVal total_rows]) (fun _ =>
     sync.while_offset fuel self tc total_rows 0))) : M sync.SyncStats W unit).
  set (handler := fun e : exn =>
    bind (logger ERROR "Error syncing {table_name}: {e}" [FStr (sync.name tc); FExn e])
         (fun _ => modify_heap (sync.append_error
                                  ("Error syncing {table_name}: {e}",
                                   [FStr (sync.name tc); FExn e])))
    : M sync.SyncStats W unit).
  assert (Hbody : sync_rest.keeps I (try_except body handler)).
  { apply keeps_try_except.
    - unfold body.
      apply keeps_bind; [apply keeps_of_keeps_heap, keeps_heap_get_row_count|].
      intros total_rows.
      apply keeps_bind; [apply keeps_of_keeps_heap, keeps_heap_logger|]. intros _.
      apply while_offset_keeps.
    - intros e. unfold handler.
      apply keeps_bind; [apply keeps_of_keeps_heap, keeps_heap_logger|]. intros _.
      apply keeps_modify_heap. apply I_append_error. }
  assert (Hnr : forall s0 e, fst (try_except body handler s0) <> Raise e).
  { intros s0 e. unfold try_except.
    destruct (body s0) as [[[]|e'|] s1]; cbn; discriminate. }
  assert (Hrun :
    forall r s',
      sync.sync_postgres_to_mongo fuel self tc s = (r, s') ->
      (forall e, r <> Raise e) /\ forall st, r = Ok st -> I st).
  { unfold sync.sync_postgres_to_mongo. fold body. fold handler.
    unfold bind at 1, now_utc at 1.
    unfold bind at 1, modify_heap at 1.
    unfold bind at 1, logger at 1.
    unfold bind at 1. cbn [heap store clock logs].
    match goal with |- context [try_except body handler ?s0] =>
      pose proof (Hbody s0) as Hk; pose proof (Hnr s0) as Hn;
      destruct (try_except body handler s0) as [[[]|e'|] s1]
    end; cbn [fst snd heap] in *.
    - intros r s' [= <- <-]. split; [discriminate|].
      intros st [= <-]. apply Hdone, Hk, Hfresh.
    - exfalso. now apply (Hn e').
    - intros r s' [= <- <-]. split; discriminate. }
  destruct (sync.sync_postgres_to_mongo fuel self tc s) as [r s'] eqn:E.
  exact (Hrun r s' eq_refl).
Qed.

End PostgresToMongo.


(** X20: [sync_table] never raises and returns one [SyncStats] for each pass its
    direction asks for: PostgreSQL to MongoDB first, then the way back; with
    a direction it does not know it returns the empty list and does
    nothing. *)
Theorem sync_table_passes :
  forall (RT : Runtime) (W : Type) (St : Store W) (Cu : sync_rest.Cursor W)
         (fuel : nat) (self : sync.DataSync) (tc : sync.table_config)
         (s : state sync.SyncStats W),
    let out := sync_rest.sync_table fuel self tc s in
    let forth := sync_rest.in_list (sync.ds_direction self)
                   ["postgres_to_mongo"; "bidirectional"] in
    let back := sync_rest.in_list (sync.ds_direction self)
                  ["mongo_to_postgres"; "bidirectional"] in
    (forall e, fst out <> Raise e)
    /\ (forall all_stats,
           fst out = Ok all_stats ->
           map sync.direction all_stats
           = (if forth then ["postgres_to_mongo"] else [])
             ++ (if back then ["mongo_to_postgres"] else []))
    /\ (forth = false -> back = false -> out = (Ok [], s)).
Proof.
  intros RT W St Cu fuel self tc s out forth back. subst out forth back.
  assert (Hforth : forall s0,
             (forall e, fst (sync.sync_postgres_to_mongo fuel self tc s0) <> Raise e)
             /\ forall st, fst (sync.sync_postgres_to_mongo fuel self tc s0) = Ok st ->
                           sync.direction st = "postgres_to_mongo").
  { intros s0.
    apply (sync_postgres_to_mongo_keeps
             (fun st => sync.direction st = "postgres_to_mongo")); auto. }
  assert (Hback : forall s0,
             (forall e, fst (sync_rest.sync_mongo_to_postgres fuel self tc s0) <> Raise e)
             /\ forall st, fst (sync_rest.sync_mongo_to_postgres fuel self tc s0) = Ok st ->
                           sync.direction st = "mongo_to_postgres").
  { intros s0.
    apply (sync_mongo_to_postgres_keeps
             (fun st => sync.direction st = "mongo_to_postgres")); auto. }
  unfold sync_rest.sync_table.
  destruct (sync_rest.in_list (sync.ds_direction self)
              ["postgres_to_mongo"; "bidirectional"]);
    destruct (sync_rest.in_list (sync.ds_direction self)
                ["mongo_to_postgres"; "bidirectional"]);
    unfold bind, ret; cbv beta iota.
  - destruct (Hforth s) as [Hn1 Hd1].
    destruct (sync.sync_postgres_to_mongo fuel self tc s) as [[st1|e|] s1];
      cbn [fst] in *.
    + destruct (Hback s1) as [Hn2 Hd2].
      destruct (sync_rest.sync_mongo_to_postgres fuel self tc s1) as [[st2|e|] s2];
        cbn [fst] in *.
      * split; [discriminate|]. split; [|discriminate].
        intros all_stats [= <-]. cbn. now rewrite (Hd1 st1), (Hd2 st2).
      * exfalso. now apply (Hn2 e).
      * split; [discriminate|]. split; discriminate.
    + exfalso. now apply (Hn1 e).
    + split; [discriminate|]. split; discriminate.
  - destruct (Hforth s) as [Hn1 Hd1].
    destruct (sync.sync_postgres_to_mongo fuel self tc s) as [[st1|e|] s1];
      cbn [fst] in *.
    + split; [discriminate|]. split; [|discriminate].
      intros all_stats [= <-]. cbn. now rewrite (Hd1 st1).
    + exfalso. now apply (Hn1 e).
    + split; [discriminate|]. split; discriminate.
  - destruct (Hback s) as [Hn2 Hd2].
    destruct (sync_rest.sync_mongo_to_postgres fuel self tc s) as [[st2|e|] s2];
      cbn [fst] in *.
    + split; [discriminate|]. split; [|discriminate].
      intros all_stats [= <-]. cbn. now rewrite (Hd2 st2).
    + exfalso. now apply (Hn2 e).
    + split; [discriminate|]. split; discriminate.
  - cbn [fst]. split; [discriminate|]. split; [|reflexivity].
    intros all_stats [= <-]. reflexivity.
Qed.

(** X21: A pass on connections that were never opened ends in the except clause
    of the pass: the statistics come back with one message in [errors], the
    [RuntimeError] of the connection handler, with every counter at zero,
    and no client has been called. *)
Theorem not_connected_is_reported :
  forall (RT : Runtime) (W : Type) (St : Store W) (Cu : sync_rest.Cursor W)
         (fuel : nat) (self : sync.DataSync) (tc : sync.table_config)
         (s : state sync.SyncStats W),
    (pool_open (store s) = false ->
     fst (sync.sync_postgres_to_mongo fuel self tc s)
     = Ok (sync.mk_SyncStats (sync.name tc) "postgres_to_mongo" (Aware (clock s))
             (Some (Aware (clock s + 1))) 0 0 0 0
             [("Error syncing {table_name}: {e}",
               [FStr (sync.name tc); FExn (RuntimeError "PostgreSQL not connected")])])
     /\ store (snd (sync.sync_postgres_to_mongo fuel self tc s)) = store s)
    /\ (mongo_open (store s) = false ->
        fst (sync_rest.sync_mongo_to_postgres fuel self tc s)
        = Ok (sync.mk_SyncStats (sync.name tc) "mongo_to_postgres" (Aware (clock s))
                (Some (Aware (clock s + 1))) 0 0 0 0
                [("Error syncing {collection_name}: {e}",
                  [FStr (sync.collection tc); FExn (RuntimeError "MongoDB not connected")])])
        /\ store (snd (sync_rest.sync_mongo_to_postgres fuel self tc s)) = store s).
Proof.
  intros RT W St Cu fuel self tc s. split; intros Hclosed.
  - assert (Hrun : exists s',
               sync.sync_postgres_to_mongo fuel self tc s
               = (Ok (sync.mk_SyncStats (sync.name tc) "postgres_to_mongo" (Aware (clock s))
                        (Some (Aware (clock s + 1))) 0 0 0 0
                        [("Error syncing {table_name}: {e}",
                          [FStr (sync.name tc);
                           FExn (RuntimeError "PostgreSQL not connected")])]), s')
               /\ store s' = store s).
    { unfold sync.sync_postgres_to_mongo.
      unfold bind at 1, now_utc at 1.
      unfold bind at 1, modify_heap at 1.
      unfold bind at 1, logger at 1.
      unfold bind at 1, try_except at 1.
      unfold bind at 1, db.get_row_count, db.cursor.
      cbn [heap store clock logs]. rewrite Hclosed. cbn.
      eexists. split; reflexivity. }
    destruct Hrun as (s' & -> & Hs). split; [reflexivity | exact Hs].
  - assert (Hrun : exists s',
               sync_rest.sync_mongo_to_postgres fuel self tc s
               = (Ok (sync.mk_SyncStats (sync.name tc) "mongo_to_postgres" (Aware (clock s))
                        (Some (Aware (clock s + 1))) 0 0 0 0
                        [("Error syncing {collection_name}: {e}",
                          [FStr (sync.collection tc);
                           FExn (RuntimeError "MongoDB not connected")])]), s')
               /\ store s' = store s).
    { unfold sync_rest.sync_mongo_to_postgres.
      unfold bind at 1, now_utc at 1.
      unfold bind at 1, modify_heap at 1.
      unfold bind at 1, logger at 1.
      unfold bind at 1, try_except at 1.
      unfold bind at 1, db.mongo_db.
      cbn [heap store clock logs]. rewrite Hclosed. cbn.
      eexists. split; reflexivity. }
    destruct Hrun as (s' & -> & Hs). split; [reflexivity | exact Hs].
Qed.

Lemma not_connected_is_reported_witness :
  let w := mk_world false [("users", examples.users)] [] 0 [] in
  store (snd (sync.sync_postgres_to_mongo 10 examples.latest_wins_sync examples.users_config
                (initial_state examples.stats0 w))) = w
  /\ store (snd (sync_rest.sync_mongo_to_postgres 10 examples.latest_wins_sync
                   examples.users_config (initial_state examples.stats0 w))) = w.
Proof.
  intros w.
  destruct (not_connected_is_reported example_runtime world mem_store
              more_examples.mem_cursor 10 examples.latest_wins_sync examples.users_config
              (initial_state examples.stats0 w)) as [Hpg Hmongo].
  split; [exact (proj2 (Hpg eq_refl)) | exact (proj2 (Hmongo eq_refl))].
Defined.

(** ** db.py: [MongoConnection.upsert_batch] *)

Lemma operations_missing_key docs pk doc :
  In doc docs -> dict_lookup doc pk = None ->
  db.operations docs pk = Raise (KeyError pk).
Proof.
  induction docs as [|d docs IH]; intros Hin Hl; [contradiction|].
  cbn [db.operations]. unfold dict_item.
  destruct (dict_lookup d pk) as [k|] eqn:Hd; [|reflexivity].
  destruct Hin as [->|Hin]; [congruence|].
  now rewrite (IH Hin Hl).
Qed.

(** X22: [upsert_batch] reads the key of every document before it asks for the
    database: one document without the key field makes the whole batch fail
    with [KeyError], nothing is written and no client is called, connected
    or not.  An empty batch returns zeros without a call as well. *)
Theorem upsert_batch_checks_keys_first :
  forall (H W : Type) (St : Store W) (collection : string) (documents : list dict)
         (primary_key : string) (s : state H W),
    (documents = [] ->
     db.upsert_batch collection documents primary_key s = (Ok (mk_bulk 0 0 0), s))
    /\ (forall doc,
           In doc documents -> dict_lookup doc primary_key = None ->
           db.upsert_batch collection documents primary_key s
           = (Raise (KeyError primary_key), s)).
Proof.
  intros H W St collection documents primary_key s. split.
  - intros ->. reflexivity.
  - intros doc Hin Hl. unfold db.upsert_batch.
    destruct documents as [|d rest]; [contradiction|].
    unfold bind, lift. now rewrite (operations_missing_key _ _ doc Hin Hl).
Qed.

Lemma upsert_batch_checks_keys_first_witness :
  db.upsert_batch "users" [examples.ann; [("name", VStr "Bob")]] "id"
    (initial_state examples.stats0 examples.w0)
  = (Raise (KeyError "id"), initial_state examples.stats0 examples.w0).
Proof.
  apply (proj2 (upsert_batch_checks_keys_first sync.SyncStats world mem_store "users"
                  [examples.ann; [("name", VStr "Bob")]] "id"
                  (initial_state examples.stats0 examples.w0))
               [("name", VStr "Bob")]).
  - right. now left.
  - reflexivity.
Defined.

(** ** datasync/datasync/sync.py: a record without [id] *)

Lemma pg_to_mongo_fold_no_id row :
  forall acc,
    dict_lookup row "id" = None ->
    dict_lookup row "_pg_id" = None ->
    dict_lookup (fold_left datasync_sync.pg_to_mongo_item row acc) "_pg_id"
    = dict_lookup acc "_pg_id".
Proof.
  induction row as [|[k v] row IH]; intros acc Hid Hpg; cbn [fold_left].
  - reflexivity.
  - cbn [dict_lookup] in Hid, Hpg.
    destruct (String.eqb_spec k "id") as [->|Hne]; [discriminate|].
    destruct (String.eqb_spec k "_pg_id") as [->|Hne']; [discriminate|].
    rewrite (IH _ Hid Hpg). unfold datasync_sync.pg_to_mongo_item.
    destruct (String.eqb_spec k "id"); [contradiction|].
    rewrite dict_lookup_set.
    destruct (String.eqb_spec k "_pg_id"); [contradiction | reflexivity].
Qed.

Lemma build_operations_needs_id {W : Type} `{Store W} records :
  forall ops (s : state datasync_sync.locals W),
    wp (datasync_sync.build_operations records ops)
       (fun r s' =>
          heap s' = heap s /\ store s' = store s /\ logs s' = logs s
          /\ ((exists record, In record records
                              /\ dict_lookup record "id" = None
                              /\ dict_lookup record "_pg_id" = None) ->
              r = Raise (KeyError "_pg_id")))
       s.
Proof.
  induction records as [|record rest IH]; intros ops s;
    cbn [datasync_sync.build_operations].
  - apply wp_ret. repeat split. intros (record & [] & _).
  - wp_step. wp_step. wp_step. wp_step.
    unfold dict_item.
    destruct (dict_lookup (datasync_sync._convert_pg_to_mongo (Naive (clock s)) record)
                          "_pg_id") as [k|] eqn:Hk.
    + eapply wp_mono; [|apply IH]. cbn [heap store logs].
      intros r s' (Hh & Hs & Hl & Hr). repeat split; try assumption.
      intros (record' & [<-|Hin] & Hid & Hpg).
      * exfalso. unfold datasync_sync._convert_pg_to_mongo in Hk.
        rewrite dict_lookup_set in Hk. cbn [String.eqb Ascii.eqb Bool.eqb] in Hk.
        rewrite (pg_to_mongo_fold_no_id _ _ Hid Hpg) in Hk. discriminate.
      * apply Hr. now exists record'.
    + cbn. repeat split.
Qed.

(** X23: [_sync_to_mongo] matches on [doc['_pg_id']], which only a record with an
    [id] column gets: one record without it makes the batch fail with
    [KeyError('_pg_id')] before [bulk_write], so nothing of the batch is
    written. *)
Theorem sync_to_mongo_needs_id :
  forall (W : Type) (St : Store W) (records : list dict) (collection_name : string)
         (record : dict) (s : state datasync_sync.locals W),
    In record records ->
    dict_lookup record "id" = None ->
    dict_lookup record "_pg_id" = None ->
    mongo_open (store s) = true ->
    let out := datasync_sync._sync_to_mongo records collection_name s in
    fst out = Raise (KeyError "_pg_id")
    /\ store (snd out) = store s
    /\ heap (snd out) = heap s.
Proof.
  intros W St records collection_name record s Hin Hid Hpg Hopen out.
  assert (Hrun : exists s', out = (Raise (KeyError "_pg_id"), s')
                            /\ store s' = store s /\ heap s' = heap s).
  { subst out. unfold datasync_sync._sync_to_mongo.
    destruct records as [|r0 rest]; [contradiction|].
    set (rs := r0 :: rest) in *.
    unfold bind at 1. unfold datasync_sync.mongo_collection_of at 1.
    rewrite Hopen. cbn [negb].
    unfold bind at 1.
    pose proof (build_operations_needs_id rs [] s) as Hb. unfold wp in Hb.
    destruct (datasync_sync.build_operations rs [] s) as [r s'].
    cbn [fst snd] in Hb. destruct Hb as (Hh & Hs & _ & Hr).
    rewrite Hr by (exists record; auto). exists s'. auto. }
  destruct Hrun as (s' & -> & Hs & Hh). auto.
Qed.

Lemma sync_to_mongo_needs_id_witness :
  let out := datasync_sync._sync_to_mongo
               [examples.ann; [("name", VStr "Bob")]] "users"
               (initial_state examples.locals0 examples.w0) in
  fst out = Raise (KeyError "_pg_id") /\ store (snd out) = examples.w0.
Proof.
  intros out.
  destruct (sync_to_mongo_needs_id world mem_store
              [examples.ann; [("name", VStr "Bob")]] "users" [("name", VStr "Bob")]
              (initial_state examples.locals0 examples.w0))
    as (Hr & Hs & _);
    [right; now left | reflexivity | reflexivity | reflexivity |].
  split; [exact Hr | exact Hs].
Defined.

(** ** datasync/datasync/sync.py: the totals of [sync] *)

Section DatasyncHeap.
Context {W : Type} `{Store W}.

Lemma keeps_heap_pg_cursor :
  keeps_heap (datasync_sync.pg_cursor : M datasync_sync.locals W unit).
Proof.
  intros s. unfold datasync_sync.pg_cursor.
  destruct (negb (pool_open (store s))); reflexivity.
Qed.

Lemma keeps_heap_mongo_collection_of :
  keeps_heap (datasync_sync.mongo_collection_of : M datasync_sync.locals W unit).
Proof.
  intros s. unfold datasync_sync.mongo_collection_of.
  destruct (negb (mongo_open (store s))); reflexivity.
Qed.

Lemma keeps_heap_build_operations records :
  forall ops, keeps_heap (datasync_sync.build_operations records ops
                          : M datasync_sync.locals W (list update_one)).
Proof.
  induction records as [|record rest IH]; intros ops;
    cbn [datasync_sync.build_operations]; keeps; try apply IH.
Qed.

Lemma keeps_heap_sync_to_mongo records c :
  keeps_heap (datasync_sync._sync_to_mongo records c : M datasync_sync.locals W Z).
Proof.
  unfold datasync_sync._sync_to_mongo. destruct records; keeps;
    try first [apply keeps_heap_mongo_collection_of | apply keeps_heap_build_operations].
Qed.

Lemma keeps_heap_upsert_documents documents table :
  forall affected, keeps_heap (datasync_sync.upsert_documents documents table affected
                               : M datasync_sync.locals W Z).
Proof.
  induction documents as [|doc rest IH]; intros affected;
    cbn [datasync_sync.upsert_documents].
  - keeps.
  - destruct (datasync_sync._convert_mongo_to_pg doc); [|apply IH].
    keeps; try apply IH.
Qed.

Lemma keeps_heap_sync_to_postgres documents table :
  keeps_heap (datasync_sync._sync_to_postgres documents table
              : M datasync_sync.locals W Z).
Proof.
  unfold datasync_sync._sync_to_postgres. destruct documents; keeps;
    try first [apply keeps_heap_pg_cursor | apply keeps_heap_upsert_documents].
Qed.

(** The [try] block of [sync] touches the two objects through
    [table_stats['synced'] += synced] only. *)
Variable I : datasync_sync.locals -> Prop.
Hypothesis I_synced : forall n l, I l -> I (datasync_sync.add_synced n l).

Lemma postgres_batches_keeps fuel table batch_size c :
  forall offset,
    sync_rest.keeps I (datasync_sync.postgres_batches fuel table batch_size offset c).
Proof.
  induction fuel as [|fuel IH]; intros offset; cbn [datasync_sync.postgres_batches].
  - intros s Hs. exact Hs.
  - apply keeps_bind; [apply keeps_of_keeps_heap, keeps_heap_call|]. intros r.
    destruct (fetchall r) as [|record records];
      [apply keeps_of_keeps_heap, keeps_heap_ret|].
    apply keeps_bind; [apply keeps_of_keeps_heap, keeps_heap_sync_to_mongo|].
    intros synced.
    apply keeps_bind; [apply keeps_modify_heap, I_synced|]. intros _.
    apply keeps_bind; [apply keeps_of_keeps_heap, keeps_heap_logger|]. intros _.
    apply IH.
Qed.

Lemma mongo_batches_keeps fuel c batch_size table :
  forall skip,
    sync_rest.keeps I (datasync_sync.mongo_batches fuel c batch_size skip table).
Proof.
  induction fuel as [|fuel IH]; intros skip; cbn [datasync_sync.mongo_batches].
  - intros s Hs. exact Hs.
  - apply keeps_bind; [apply keeps_of_keeps_heap, keeps_heap_call|].
    intros [|doc docs]; [apply keeps_of_keeps_heap, keeps_heap_ret|].
    apply keeps_bind; [apply keeps_of_keeps_heap, keeps_heap_sync_to_postgres|].
    intros synced.
    apply keeps_bind; [apply keeps_modify_heap, I_synced|]. intros _.
    apply keeps_bind; [apply keeps_of_keeps_heap, keeps_heap_logger|]. intros _.
    apply IH.
Qed.

Lemma sync_body_keeps fuel cfg m :
  sync_rest.keeps I (datasync_sync.sync_body fuel cfg m).
Proof.
  unfold datasync_sync.sync_body.
  apply keeps_bind.
  { destruct (datasync_sync.in_list _ _); [|apply keeps_of_keeps_heap, keeps_heap_ret].
    apply keeps_bind; [apply keeps_of_keeps_heap, keeps_heap_logger|]. intros _.
    apply keeps_bind; [apply keeps_of_keeps_heap, keeps_heap_pg_cursor|]. intros _.
    apply postgres_batches_keeps. }
  intros _.
  apply keeps_bind.
  { destruct (datasync_sync.in_list _ _); [|apply keeps_of_keeps_heap, keeps_heap_ret].
    apply keeps_bind; [apply keeps_of_keeps_heap, keeps_heap_logger|]. intros _.
    apply keeps_bind; [apply keeps_of_keeps_heap, keeps_heap_mongo_collection_of|].
    intros _.
    apply mongo_batches_keeps. }
  intros _.
  apply keeps_bind; [apply keeps_of_keeps_heap; intros s; reflexivity|]. intros l.
  apply keeps_of_keeps_heap, keeps_heap_logger.
Qed.

End DatasyncHeap.

Lemma tables_set_fresh ts k v :
  ~ In k (map fst ts) -> datasync_sync.tables_set ts k v = ts ++ [(k, v)].
Proof.
  induction ts as [|[k0 v0] ts IH]; cbn; intros Hn.
  - reflexivity.
  - destruct (String.eqb_spec k0 k) as [->|Hne].
    + exfalso. apply Hn. now left.
    + f_equal. apply IH. intros Hin. apply Hn. now right.
Qed.

Section DatasyncTotals.
Context {W : Type} `{Store W}.

(** A mapping that [sync] gets through has filed its [table_stats], with no
    error in it, under the name of its table and has added its [synced] to
    the total. *)
Lemma sync_mapping_ok fuel cfg m (s s' : state datasync_sync.locals W) :
  datasync_sync.sync_mapping fuel cfg m s = (Ok tt, s') ->
  exists c,
    datasync_sync.ts_errors c = 0
    /\ heap s' = datasync_sync.record_table (datasync_sync.postgres_table m)
                   (datasync_sync.mk_locals (datasync_sync.stats (heap s)) c).
Proof.
  unfold datasync_sync.sync_mapping.
  unfold bind at 1, modify_heap at 1.
  unfold bind at 1, try_except at 1.
  match goal with |- context [datasync_sync.sync_body fuel cfg m ?s0] =>
    pose proof (sync_body_keeps
                  (fun l => datasync_sync.stats l = datasync_sync.stats (heap s)
                            /\ datasync_sync.ts_errors (datasync_sync.current l) = 0)
                  ltac:(intros n l [Hs He]; split; assumption)
                  fuel cfg m s0 ltac:(split; reflexivity)) as Hk;
    destruct (datasync_sync.sync_body fuel cfg m s0) as [[[]|e|] s1]
  end; cbn [snd] in Hk.
  - unfold modify_heap. intros [= <-].
    destruct Hk as [Hst Herr]. cbn [heap].
    exists (datasync_sync.current (heap s1)). split; [exact Herr|].
    rewrite <- Hst. destruct (heap s1); reflexivity.
  - unfold bind, logger, modify_heap, raise. discriminate.
  - discriminate.
Qed.

Lemma sync_mappings_ok fuel cfg ms :
  forall (s s' : state datasync_sync.locals W),
    for_each ms (datasync_sync.sync_mapping fuel cfg) s = (Ok tt, s') ->
    NoDup (map datasync_sync.postgres_table ms) ->
    (forall m, In m ms ->
       ~ In (datasync_sync.postgres_table m)
            (map fst (datasync_sync.tables (datasync_sync.stats (heap s))))) ->
    let st := datasync_sync.stats (heap s) in
    let st' := datasync_sync.stats (heap s') in
    map fst (datasync_sync.tables st')
    = map fst (datasync_sync.tables st) ++ map datasync_sync.postgres_table ms
    /\ datasync_sync.total_synced st'
       - fold_right (fun kv acc => datasync_sync.synced (snd kv) + acc) 0
                    (datasync_sync.tables st')
       = datasync_sync.total_synced st
         - fold_right (fun kv acc => datasync_sync.synced (snd kv) + acc) 0
                      (datasync_sync.tables st)
    /\ (Forall (fun kv => datasync_sync.ts_errors (snd kv) = 0) (datasync_sync.tables st) ->
        Forall (fun kv => datasync_sync.ts_errors (snd kv) = 0) (datasync_sync.tables st'))
    /\ datasync_sync.direction st' = datasync_sync.direction st
    /\ datasync_sync.started_at st' = datasync_sync.started_at st
    /\ datasync_sync.completed_at st' = datasync_sync.completed_at st.
Proof.
  induction ms as [|m ms IH]; intros s s' Hrun Hnd Hfresh; cbn [for_each] in Hrun.
  - injection Hrun as <-. cbn. rewrite app_nil_r. repeat split; auto.
  - unfold bind in Hrun.
    destruct (datasync_sync.sync_mapping fuel cfg m s) as [[[]|e|] s1] eqn:Hm;
      [|discriminate..].
    apply sync_mapping_ok in Hm as (c & Hc & Hs1).
    inversion Hnd as [|? ? Hnin Hnd']; subst.
    assert (Htables : datasync_sync.tables (datasync_sync.stats (heap s1))
                      = datasync_sync.tables (datasync_sync.stats (heap s))
                        ++ [(datasync_sync.postgres_table m, c)]).
    { rewrite Hs1. cbn. apply tables_set_fresh. apply Hfresh. now left. }
    assert (Hfresh1 : forall m', In m' ms ->
              ~ In (datasync_sync.postgres_table m')
                   (map fst (datasync_sync.tables (datasync_sync.stats (heap s1))))).
    { intros m' Hin. rewrite Htables, map_app. cbn. intros Hin'.
      apply in_app_or in Hin' as [Hin'|[Heq|[]]].
      - apply (Hfresh m'); [now right | exact Hin'].
      - apply Hnin. rewrite Heq. now apply in_map. }
    destruct (IH s1 s' Hrun Hnd' Hfresh1) as (Hk & Ht & Hf & Hd & Hsa & Hca).
    cbv zeta. split.
    { rewrite Hk, Htables, map_app. cbn. now rewrite <- app_assoc. }
    split.
    { rewrite Ht, Htables. rewrite fold_right_app. cbn [fold_right snd].
      rewrite Hs1. cbn [heap datasync_sync.record_table datasync_sync.stats
                        datasync_sync.total_synced datasync_sync.current].
      generalize (datasync_sync.tables (datasync_sync.stats (heap s))).
      intros l. induction l as [|kv l IHl]; cbn [fold_right]; lia. }
    split.
    { intros Hall. apply Hf. rewrite Htables. apply Forall_app. split; [exact Hall|].
      constructor; [exact Hc | constructor]. }
    rewrite Hd, Hsa, Hca, Hs1. cbn. repeat split.
Qed.

End DatasyncTotals.

(** X24: When [sync] returns its statistics over mappings of distinct tables,
    [tables] has one entry for each mapping, in their order,
    [total_synced] is the sum of their [synced], and every [errors] in them
    is zero: the handler counts an error only on its way to re-raising, so
    statistics that are returned never show one. *)
Theorem sync_totals :
  forall (W : Type) (St : Store W) (fuel : nat) (cfg : datasync_sync.sync_config)
         (s : state datasync_sync.locals W) (st : datasync_sync.sync_stats),
    NoDup (map datasync_sync.postgres_table (datasync_sync.mappings cfg)) ->
    fst (datasync_sync.sync fuel cfg s) = Ok st ->
    map fst (datasync_sync.tables st)
    = map datasync_sync.postgres_table (datasync_sync.mappings cfg)
    /\ datasync_sync.total_synced st
       = fold_right (fun kv acc => datasync_sync.synced (snd kv) + acc) 0
                    (datasync_sync.tables st)
    /\ Forall (fun kv => datasync_sync.ts_errors (snd kv) = 0) (datasync_sync.tables st)
    /\ datasync_sync.direction st = datasync_sync.cfg_direction cfg
    /\ datasync_sync.started_at st = Naive (clock s)
    /\ exists t, datasync_sync.completed_at st = Some t.
Proof.
  intros W St fuel cfg s st Hnd.
  unfold datasync_sync.sync.
  unfold bind at 1, utcnow at 1.
  unfold bind at 1, modify_heap at 1.
  unfold bind at 1, logger at 1.
  unfold bind at 1. cbn [heap store clock logs].
  match goal with |- context [for_each ?ms ?b ?s0] =>
    destruct (for_each ms b s0) as [[[]|e|] s1] eqn:Hrun
  end; [|discriminate..].
  apply sync_mappings_ok in Hrun; [|exact Hnd | intros m _ []].
  cbn [heap datasync_sync.stats datasync_sync.tables datasync_sync.total_synced
       datasync_sync.direction datasync_sync.started_at datasync_sync.completed_at
       map fold_right app] in Hrun.
  destruct Hrun as (Hk & Ht & Hf & Hd & Hsa & Hca).
  cbn. intros [= <-]. cbn.
  split; [exact Hk|]. split; [lia|]. split; [apply Hf; constructor|].
  split; [exact Hd|]. split; [exact Hsa|]. eauto.
Qed.

Lemma sync_totals_witness :
  NoDup (map datasync_sync.postgres_table (datasync_sync.mappings examples.users_alone))
  /\ exists st,
      fst examples.run_users_alone = Ok st
      /\ datasync_sync.total_synced st
         = fold_right (fun kv acc => datasync_sync.synced (snd kv) + acc) 0
                      (datasync_sync.tables st).
Proof.
  assert (Hnd : NoDup (map datasync_sync.postgres_table
                           (datasync_sync.mappings examples.users_alone))).
  { repeat constructor. intros []. }
  split; [exact Hnd|].
  eexists. split; [vm_compute; reflexivity|].
  refine (proj1 (proj2 (sync_totals world mem_store 10 examples.users_alone
                          (initial_state examples.locals0 examples.w0) _ Hnd _))).
  vm_compute. reflexivity.
Defined.
